(* ===== verification/_CoqProject ===== *)
-Q . S2P
Prelude.v
PyFloat.v
PyStr.v
Gateway.v
Grid.v
Sentiment.v
GridSentiment.v
Twap.v
TwapMachine.v
TwapSentiment.v
Market.v
Limit.v
StopLimit.v
Oco.v
Orders.v
PosixPath.v
Setup.v
