(* ===== verification/Prelude.v ===== *)
(** * A verification development for the Binance futures order scripts

    The repository is eight independent Python command-line scripts under
    [src/src/] (market, limit, stop-limit, OCO, grid, grid with sentiment,
    TWAP, TWAP with sentiment). Each one parses [sys.argv], asks the
    exchange for reference data (symbol list, ticker price, minimum
    notional), validates the request, and then places one or more orders
    through the client library, logging to [bot.log]. The sentiment
    scripts also read the Fear & Greed index over HTTP.

    The components and how they interact (file, Module, source):
    - Python's number and string built-ins that the validation relies on:
      [float], [int], [round], float comparisons, [bool(x)] and
      [str.upper]. [PyFloat] models a float as [Fin q] with an exact
      rational [q], or [PInf], [NInf], [NaN]; comparisons with [NaN] are
      false, [fround] is round-half-even of the exact value. [PyStr] has
      the parsers [parse_float] and [parse_int] of the literal grammar
      that [float()] and [int()] accept ([None] is [ValueError]).
    - The effects, in [Gateway]. The exchange client ([UMFutures]) and
      the HTTP sentiment feed are an explicit [World] of queued answers,
      one queue per endpoint ([exchange_info], [ticker_price],
      [new_order], [requests.get]); a [None] answer or an empty queue is
      the call raising. Every call, sleep, warning and log line is
      appended to a trace, observed through [orders_of] and [sleeps_of].
      A script is a computation in the state monad [M]. Its outcome is a
      value ([Ok]), a Python exception ([Raise]) or [sys.exit(1)] with
      the printed reason ([Exit]). [try_except] catches only [Raise],
      since [except Exception] lets [SystemExit] through. Every script
      re-implements the helpers [is_valid_symbol], [get_min_notional] and
      [get_current_price] identically. They are modelled once here. Each
      script's Module names its own copy (mapped to its own lines) as an
      alias of that model. The [bot_unfold] hint database lets the proof
      tactics see through the aliases.
    - [Grid], Modules [Ladder] and [GridOrders]: [grid_orders.py]. The
      levels [grid_prices], the midpoint split ([buy_prices],
      [sell_prices]), the best-effort loops [place_legs], and then
      [validate_args], [place_grid_orders] and [main].
    - [Sentiment], Module [FearGreed]: [get_live_fear_greed_index] and the
      three-band policy ([band_of], [grid_adjust], [twap_adjust]) of the
      two sentiment scripts.
    - [GridSentiment], Module [GridSentimentOrders]:
      [grid_orders_with_sentiment.py], i.e. the index, the adjustment and
      then the same [Ladder].
    - [Twap], Module [TwapOrders]: [twap.py], i.e. [validate_args] and the
      slice loop [twap_loop] with [continue]/[break] as [loop_ctl].
      [TwapSentiment], Module [TwapSentimentOrders]:
      [twap_with_sentiment.py], i.e. the index, the chunk adjustment and
      then the same loop.
    - [TwapMachine]: the same loop as a transition system. A state
      ([tstate]) is the indices still to run, the [Sys], and whether a
      [break] has stopped the loop. The Inductive [step] runs one
      [twap_slice], [star] is its closure and [final] is the loop's exit;
      the order/sleep accounting is stated as an invariant of its
      reachable states.
    - [Market] ([MarketOrders]), [Limit] ([LimitOrders]), [StopLimit]
      ([StopLimitOrders]) and [Oco] ([OcoOrders]) model the single-order
      scripts [market_orders.py], [limit_orders.py],
      [stop_limit_orders.py] and [oco.py]. Each Module has
      [validate_args], the placement function and [main], with every
      guard and every early [sys.exit] of the source.
    - [Orders]: the order shapes of all eight scripts. [well_formed]
      states which fields each order type carries. The predicate
      [emits_only P c] says every order [c] submits satisfies [P]. It has
      one proof rule per construct of the scripts ([bind],
      [try_except], the endpoints, the two loops).
    - [PosixPath], Module [PosixPath]: the [os.path] functions the setup
      blocks call ([dirname], [join], [isabs], [normpath], [abspath]),
      translated from CPython's [posixpath] on strings.
    - [Setup], Module [Setup]: the module-level block every script runs
      at import. [load_dotenv()] (no override) acts on [os.environ], a
      stdpp [gmap string string]. Then the credentials and [BASE_URL] are
      read, the [UMFutures] client is built, and the root logger is
      configured. There are three variants: [setup_relative] (market,
      limit: ["../bot.log"]), [setup_project] (grid, TWAP: [LOG_FILE] from
      [__file__]) and [setup_reset] (stop-limit, OCO: handler reset, then
      [basicConfig] and the printed path). Each script's own copy is an
      alias of its variant.

    What the theorems show, by group:
    - The grid: the ladder partition (BUY levels, skipped midpoint, SELL
      levels), the exact levels before rounding, bounds on the rounded
      prices, BUY legs never above SELL legs, best-effort placement that
      survives every refused leg, and the order list of
      [place_grid_orders].
    - The sentiment policy: the band thresholds, the multiplier tables,
      the index read ([fear_greed_index_spec]: the parsed value, or
      [(50, "Neutral")] on any failure, never clamped). Two consequences
      of adjusting after validation, proved of the scripts themselves: an
      inverted greed grid that buys above its sells, and a greed BUY TWAP
      that [main] accepts on the unadjusted chunk and then submits at 0.7
      of it, below the minimum notional it has just checked.
    - The TWAP machine ([TwapMachine]): the order/sleep accounting is an
      invariant of every reachable state (rule induction on [star]).
    - Order shapes ([Orders]): every order of every script is well formed
      for its type, for every argument list and every exchange answer.
    - The setup ([Setup]): [load_dotenv] is the left-biased union of the
      environment with the file's last values, and the client is built
      from it with [None] for missing credentials. The grid and TWAP
      scripts log to [<repo>/bot.log] from any working directory, while
      the market and limit scripts log next to the working directory's
      parent. The handler reset of the stop-limit and OCO scripts leaves
      exactly one [FileHandler]. The path lemmas of [PosixPath] compute
      [dirname], [join] and [normpath] on normalised absolute paths
      ([abs_path] of [plain] components).
    - The TWAP: termination in every world with bounds on orders and
      sleeps, the acknowledged run, the abort on the first refused order,
      and the unpaced skipped slices.
    - The validators: the accept/reject decision of each [validate_args]
      as a function of the reference answers, stated against the pure
      rules [grid_rule], [twap_rule], [limit_rule], [stop_rule] and
      [oco_ordered] (the market script against its hard-coded 100).
    - The reference reads ([Gateway]): the degrade-on-failure policy of
      spec section 4.2, and the answer [get_min_notional] computes.
    - Safety over all inputs: for every argument list and every sequence
      of answers, the stop-limit and OCO scripts end normally or by
      [sys.exit], never with an uncaught exception. The proof evaluates
      the script symbolically with [split_matches], one case per answer.
    - The single-order scripts' error paths: non-numeric input, degraded
      reads, a NaN quantity, the missing symbol check of the limit script,
      and the OCO stop-loss leg skipped when the take-profit leg fails.

    Bounds and fuel: no fuel is needed. Every loop of the code iterates
    over a finite list ([range(num_grids)] split in two, and
    [range(1, num_slices + 1)]), and the model recurses structurally on
    that list, so every script is a total function of its arguments and
    its [World]. The exchange's answers are arbitrary: the theorems
    quantify over the queues or fix only the prefix they need.

    Not modelled: the [import] lines; the search for the [.env] file,
    its parsing and [${VAR}] interpolation (the model takes the parsed
    assignments); opening the log file (an unwritable path is not an
    error of the model); the text of [print] and of the log lines (they
    are trace events, the printed log path is kept); wall-clock time
    ([time.sleep] is an event); and the client library and HTTP stack
    themselves (only their answers). [__file__] is taken as an absolute
    path, as Python 3.9 and later give it for the main script.

    This file holds what the components share: the [bot_scope] notations,
    boolean comparisons on [Q] with their reflection lemmas, the [bot]
    hint database and the list lemmas used by the grid and TWAP proofs.

    Numbers: a Python float is modelled by an exact rational when it is
    finite. Rounding of intermediate float arithmetic and overflow to
    infinity are not modelled, so the theorems hold of the real-number
    semantics that the code intends. [round] itself is modelled exactly,
    as round-half-even of the exact value. The special values are kept
    because they reach the code: [float("nan")] passes every [<= 0] guard
    of the scripts. Integers ([int(...)] results) are [Z].
*)

From Stdlib Require Import QArith Qround Lqa Lia ZArith List Bool Sorted.
Import ListNotations.

Declare Scope bot_scope.
Delimit Scope bot_scope with bot.
Open Scope bot_scope.

(** ** Boolean comparisons on [Q], as the model computes them *)

Definition qleb (x y : Q) : bool := Qle_bool x y.
Definition qltb (x y : Q) : bool := negb (Qle_bool y x).
Definition qeqb (x y : Q) : bool := Qeq_bool x y.

Notation "x <=? y" := (qleb x y) (at level 70, no associativity) : bot_scope.
Notation "x <? y" := (qltb x y) (at level 70, no associativity) : bot_scope.
Notation "x ==? y" := (qeqb x y) (at level 70, no associativity) : bot_scope.

Lemma qleb_spec (x y : Q) : reflect (x <= y)%Q (qleb x y).
Proof.
  unfold qleb. destruct (Qle_bool x y) eqn:E; constructor.
  - now apply Qle_bool_iff.
  - intro H. apply Qle_bool_iff in H. congruence.
Qed.

Lemma qltb_spec (x y : Q) : reflect (x < y)%Q (qltb x y).
Proof.
  unfold qltb. destruct (Qle_bool y x) eqn:E; constructor.
  - apply Qle_bool_iff in E. now apply Qle_not_lt.
  - apply Qnot_le_lt. intro H. apply Qle_bool_iff in H. congruence.
Qed.

Lemma qeqb_spec (x y : Q) : reflect (x == y)%Q (qeqb x y).
Proof.
  unfold qeqb. destruct (Qeq_bool x y) eqn:E; constructor.
  - now apply Qeq_bool_iff.
  - intro H. apply Qeq_bool_iff in H. congruence.
Qed.

(** [qcase] splits the first boolean comparison on [Q] of the goal. *)
Ltac qcase :=
  match goal with
  | |- context [qleb ?x ?y] => destruct (qleb_spec x y)
  | |- context [qltb ?x ?y] => destruct (qltb_spec x y)
  | |- context [qeqb ?x ?y] => destruct (qeqb_spec x y)
  end.

(** [qsolve] closes a goal by splitting every comparison and [lra]. *)
Ltac qsolve := repeat qcase; simpl; try lra; try reflexivity; try discriminate.

Create HintDb bot.
Create Rewrite HintDb bot_rw.

Lemma qleb_true (x y : Q) : (x <= y)%Q -> qleb x y = true.
Proof. intro H. now destruct (qleb_spec x y). Qed.

Lemma qltb_true (x y : Q) : (x < y)%Q -> qltb x y = true.
Proof. intro H. now destruct (qltb_spec x y). Qed.

Lemma qltb_false (x y : Q) : (y <= x)%Q -> qltb x y = false.
Proof. intro H. destruct (qltb_spec x y); [lra | reflexivity]. Qed.

Lemma qleb_false (x y : Q) : (y < x)%Q -> qleb x y = false.
Proof. intro H. destruct (qleb_spec x y); [lra | reflexivity]. Qed.

#[export] Hint Resolve qleb_true qltb_true qltb_false qleb_false : bot.

(** ** Lists *)

(** Python's [xs[:k]] and [xs[k+1:]] around an index [k < len(xs)]. *)
Lemma firstn_nth_skipn {A} (d : A) (l : list A) (k : nat) :
  (k < length l)%nat -> l = firstn k l ++ nth k l d :: skipn (S k) l.
Proof.
  revert k. induction l as [|x l IH]; intros k Hk; simpl in Hk; [lia|].
  destruct k as [|k]; simpl; [reflexivity|].
  f_equal. apply IH. lia.
Qed.

Lemma length_firstn_le {A} (l : list A) (k : nat) :
  (k <= length l)%nat -> length (firstn k l) = k.
Proof. intro H. rewrite length_firstn. lia. Qed.


(** A list built from a function on consecutive indices is sorted when
    each value is related to the next. *)
Lemma Sorted_map_seq {A} (R : A -> A -> Prop) (f : nat -> A) (start len : nat) :
  (forall k, R (f k) (f (S k))) -> Sorted R (map f (seq start len)).
Proof.
  intro Hstep. revert start. induction len as [|len IH]; intro start; simpl.
  - constructor.
  - constructor; [apply IH|].
    destruct len; simpl; constructor. apply Hstep.
Qed.

(** In a strongly sorted [l1 ++ l2], each element of [l1] is related to
    each element of [l2]. *)
Lemma StronglySorted_app_cross {A} (R : A -> A -> Prop) (l1 l2 : list A) :
  StronglySorted R (l1 ++ l2) -> forall x y, In x l1 -> In y l2 -> R x y.
Proof.
  induction l1 as [|a l1 IH]; simpl; intros Hs x y Hx Hy; [contradiction|].
  inversion Hs as [|? ? Hs' Hall]; subst.
  destruct Hx as [<-|Hx].
  - rewrite Forall_forall in Hall. apply Hall, in_or_app. now right.
  - now apply IH.
Qed.

Lemma firstn_seq (k start len : nat) :
  firstn k (seq start len) = seq start (Nat.min k len).
Proof.
  revert k start. induction len as [|len IH]; intros [|k] start; simpl;
    try reflexivity.
  f_equal. apply IH.
Qed.

Lemma filter_id_all {A} (f : A -> bool) (l : list A) :
  (forall x, In x l -> f x = true) -> filter f l = l.
Proof.
  induction l as [|a l IH]; simpl; intro H; [reflexivity|].
  rewrite (H a (or_introl eq_refl)). f_equal. apply IH. intros x Hx. apply H. now right.
Qed.
