(* ===== verification/PyFloat.v ===== *)
(** * Python floats as the scripts use them

    A Python float is [Fin q] (finite, with the exact rational value [q]),
    [PInf], [NInf] or [NaN]. Arithmetic follows IEEE 754 on the special
    values and is exact on finite ones. Comparisons follow Python: any
    comparison with [NaN] is false. [ftruthy] is Python's [bool(x)]
    (used by [if current_price:]) and [fround] is [round(x, nd)], which
    rounds half to even and leaves the special values unchanged. *)

From Stdlib Require Import QArith Qround Lqa Lia ZArith Bool.
From S2P Require Import Prelude.

Inductive pyfloat : Type :=
| Fin (q : Q)
| PInf
| NInf
| NaN.

Definition fneg (x : pyfloat) : pyfloat :=
  match x with
  | Fin q => Fin (- q)
  | PInf => NInf
  | NInf => PInf
  | NaN => NaN
  end.

Definition fadd (x y : pyfloat) : pyfloat :=
  match x, y with
  | NaN, _ | _, NaN => NaN
  | Fin a, Fin b => Fin (a + b)
  | PInf, NInf | NInf, PInf => NaN
  | PInf, _ | _, PInf => PInf
  | NInf, _ | _, NInf => NInf
  end.

Definition fsub (x y : pyfloat) : pyfloat := fadd x (fneg y).

(** [inf * a] for a finite [a]: [nan] when [a] is zero, otherwise an
    infinity with the product's sign. *)
Definition fscale_inf (inf : pyfloat) (a : Q) : pyfloat :=
  if a ==? 0 then NaN else if 0 <? a then inf else fneg inf.

Definition fmul (x y : pyfloat) : pyfloat :=
  match x, y with
  | NaN, _ | _, NaN => NaN
  | Fin a, Fin b => Fin (a * b)
  | Fin a, inf | inf, Fin a => fscale_inf inf a
  | PInf, PInf | NInf, NInf => PInf
  | PInf, NInf | NInf, PInf => NInf
  end.

(** [x / y]; [None] is Python's [ZeroDivisionError] (a finite zero
    divisor). *)
Definition fdiv (x y : pyfloat) : option pyfloat :=
  match x, y with
  | _, Fin b => if b ==? 0 then None else
      match x with
      | Fin a => Some (Fin (a / b))
      | NaN => Some NaN
      | inf => Some (fscale_inf inf b)
      end
  | NaN, _ | _, NaN => Some NaN
  | Fin _, _ => Some (Fin 0)
  | _, _ => Some NaN
  end.

(** An int used in float arithmetic ([i * grid_gap], [num_grids - 1]). *)
Definition of_Z (z : Z) : pyfloat := Fin (inject_Z z).

(** ** Comparisons *)

(** [None] when the values are unordered (a [NaN] is involved). *)
Definition fcmp (x y : pyfloat) : option comparison :=
  match x, y with
  | NaN, _ | _, NaN => None
  | Fin a, Fin b => Some (Qcompare a b)
  | PInf, PInf | NInf, NInf => Some Eq
  | NInf, _ | _, PInf => Some Lt
  | PInf, _ | _, NInf => Some Gt
  end.

Definition flt (x y : pyfloat) : bool :=
  match fcmp x y with Some Lt => true | _ => false end.
Definition fle (x y : pyfloat) : bool :=
  match fcmp x y with Some Lt | Some Eq => true | _ => false end.
Definition fgt (x y : pyfloat) : bool := flt y x.
Definition fge (x y : pyfloat) : bool := fle y x.
Definition feq (x y : pyfloat) : bool :=
  match fcmp x y with Some Eq => true | _ => false end.


(** [bool(x)]: only a finite zero is false. *)
Definition ftruthy (x : pyfloat) : bool :=
  match x with
  | Fin q => negb (q ==? 0)
  | _ => true
  end.

(** ** [round(x, nd)] *)

(** Round half to even of a rational to an integer. *)
Definition round_half_even (y : Q) : Z :=
  let f := Qfloor y in
  match Qcompare (y - inject_Z f) (1 # 2) with
  | Lt => f
  | Gt => f + 1
  | Eq => if Z.even f then f else f + 1
  end.

(** [round(q, nd)] on the exact value. *)
Definition round_q (q : Q) (nd : Z) : Q :=
  let s := inject_Z (10 ^ nd) in
  inject_Z (round_half_even (q * s)) / s.

Definition fround (x : pyfloat) (nd : Z) : pyfloat :=
  match x with
  | Fin q => Fin (round_q q nd)
  | other => other
  end.

(** ** Rounding lemmas *)

Lemma round_half_even_bounds (y : Q) :
  (Qfloor y <= round_half_even y <= Qfloor y + 1)%Z.
Proof.
  unfold round_half_even.
  destruct (Qcompare _ _); [destruct (Z.even _)|..]; lia.
Qed.

(** Rounding half to even is monotone. *)
Lemma round_half_even_mono (x y : Q) :
  x <= y -> (round_half_even x <= round_half_even y)%Z.
Proof.
  intro Hxy. pose proof (Qfloor_resp_le x y Hxy) as Hf.
  destruct (Z.eq_dec (Qfloor x) (Qfloor y)) as [Heq|Hne].
  - unfold round_half_even. rewrite Heq.
    destruct (Qcompare_spec (x - inject_Z (Qfloor y)) (1 # 2));
    destruct (Qcompare_spec (y - inject_Z (Qfloor y)) (1 # 2));
    destruct (Z.even (Qfloor y)); try lia; exfalso; lra.
  - pose proof (round_half_even_bounds x). pose proof (round_half_even_bounds y).
    lia.
Qed.

(** Values more than one unit apart round to different integers. *)
Lemma round_half_even_strict (x y : Q) :
  x + 1 < y -> (round_half_even x < round_half_even y)%Z.
Proof.
  intro Hxy.
  pose proof (Qfloor_le x) as Hx1. pose proof (Qlt_floor x) as Hx2.
  pose proof (Qfloor_le y) as Hy1. pose proof (Qlt_floor y) as Hy2.
  rewrite inject_Z_plus in Hx2. rewrite inject_Z_plus in Hy2.
  change (inject_Z 1) with 1%Q in Hx2. change (inject_Z 1) with 1%Q in Hy2.
  assert (Hlt : (Qfloor x < Qfloor y)%Z) by (rewrite Zlt_Qlt; lra).
  destruct (Z.eq_dec (Qfloor y) (Qfloor x + 1)) as [Heq|Hne].
  - unfold round_half_even. rewrite Heq in *.
    rewrite inject_Z_plus in *. change (inject_Z 1) with 1%Q in *.
    destruct (Qcompare_spec (x - inject_Z (Qfloor x)) (1 # 2));
    destruct (Qcompare_spec (y - (inject_Z (Qfloor x) + 1)) (1 # 2));
    destruct (Z.even (Qfloor x)); destruct (Z.even (Qfloor x + 1));
    try lia; exfalso; lra.
  - pose proof (round_half_even_bounds x). pose proof (round_half_even_bounds y).
    lia.
Qed.

Lemma Qdiv_le_mono (a b c : Q) : 0 < c -> a <= b -> a / c <= b / c.
Proof.
  intros Hc Hab. unfold Qdiv. apply Qmult_le_compat_r; [exact Hab|].
  apply Qlt_le_weak, Qinv_lt_0_compat, Hc.
Qed.

Lemma Qdiv_lt_mono (a b c : Q) : 0 < c -> a < b -> a / c < b / c.
Proof.
  intros Hc Hab. unfold Qdiv. apply Qmult_lt_compat_r; [|exact Hab].
  apply Qinv_lt_0_compat, Hc.
Qed.

Lemma pow10_pos (nd : Z) : (0 <= nd)%Z -> 0 < inject_Z (10 ^ nd).
Proof.
  intro H. change 0 with (inject_Z 0). rewrite <- Zlt_Qlt.
  apply Z.pow_pos_nonneg; lia.
Qed.

(** [round(x, nd)] is monotone. *)
Lemma round_q_mono (a b : Q) (nd : Z) : (0 <= nd)%Z -> a <= b ->
  round_q a nd <= round_q b nd.
Proof.
  intros Hnd Hab. unfold round_q. pose proof (pow10_pos nd Hnd).
  apply Qdiv_le_mono; [assumption|]. rewrite <- Zle_Qle.
  apply round_half_even_mono. apply Qmult_le_compat_r; lra.
Qed.

(** Values more than [10^-nd] apart stay strictly ordered. *)
Lemma round_q_strict (a b : Q) (nd : Z) : (0 <= nd)%Z ->
  a + 1 / inject_Z (10 ^ nd) < b -> round_q a nd < round_q b nd.
Proof.
  intros Hnd Hab. unfold round_q. pose proof (pow10_pos nd Hnd) as Hs.
  apply Qdiv_lt_mono; [assumption|]. rewrite <- Zlt_Qlt.
  apply round_half_even_strict.
  set (s := inject_Z (10 ^ nd)) in *.
  assert (Hs1 : 1 / s * s == 1) by (field; lra).
  apply (Qmult_lt_compat_r _ _ s) in Hab; [|assumption].
  rewrite Qmult_plus_distr_l, Hs1 in Hab. exact Hab.
Qed.

(** ** Comparison lemmas *)

Lemma fle_Fin (a b : Q) : fle (Fin a) (Fin b) = true <-> a <= b.
Proof.
  unfold fle; simpl. rewrite Qle_alt.
  destruct (a ?= b); split; congruence.
Qed.

Lemma flt_Fin (a b : Q) : flt (Fin a) (Fin b) = true <-> a < b.
Proof.
  unfold flt; simpl. rewrite Qlt_alt.
  destruct (a ?= b); split; congruence.
Qed.

Lemma feq_Fin (a b : Q) : feq (Fin a) (Fin b) = true <-> a == b.
Proof.
  unfold feq; simpl. rewrite Qeq_alt.
  destruct (a ?= b); split; congruence.
Qed.

Lemma fle_trans (x y z : pyfloat) :
  fle x y = true -> fle y z = true -> fle x z = true.
Proof.
  destruct x as [a| | |], y as [b| | |], z as [c| | |]; try reflexivity;
    try discriminate.
  rewrite !fle_Fin. apply Qle_trans.
Qed.

Lemma flt_trans (x y z : pyfloat) :
  flt x y = true -> flt y z = true -> flt x z = true.
Proof.
  destruct x as [a| | |], y as [b| | |], z as [c| | |]; try reflexivity;
    try discriminate.
  rewrite !flt_Fin. apply Qlt_trans.
Qed.

(** Rounding half to even moves a value by at most one half. *)
Lemma round_half_even_error (y : Q) :
  inject_Z (round_half_even y) - y <= 1 # 2 /\ y - inject_Z (round_half_even y) <= 1 # 2.
Proof.
  pose proof (Qfloor_le y) as H1. pose proof (Qlt_floor y) as H2.
  rewrite inject_Z_plus in H2. change (inject_Z 1) with 1%Q in H2.
  unfold round_half_even.
  destruct (Qcompare_spec (y - inject_Z (Qfloor y)) (1 # 2));
    [destruct (Z.even (Qfloor y))|..];
    rewrite ?inject_Z_plus; change (inject_Z 1) with 1%Q; split; lra.
Qed.

(** [round(x, nd)] moves a value by at most half a unit of the last
    kept decimal. *)
Lemma round_q_error (x : Q) (nd : Z) : (0 <= nd)%Z ->
  round_q x nd - x <= (1 # 2) / inject_Z (10 ^ nd)
  /\ x - round_q x nd <= (1 # 2) / inject_Z (10 ^ nd).
Proof.
  intro Hnd. pose proof (pow10_pos nd Hnd) as Hs. unfold round_q.
  set (s := inject_Z (10 ^ nd)) in *.
  destruct (round_half_even_error (x * s)) as [E1 E2].
  set (r := inject_Z (round_half_even (x * s))) in *.
  assert (Eq1 : r / s - x == (r - x * s) / s) by (field; lra).
  assert (Eq2 : x - r / s == (x * s - r) / s) by (field; lra).
  rewrite Eq1, Eq2. split; apply Qdiv_le_mono; assumption.
Qed.

Lemma flt_Fin_b (a b : Q) : flt (Fin a) (Fin b) = qltb a b.
Proof.
  destruct (qltb_spec a b) as [H|H]; [now apply flt_Fin|].
  destruct (flt (Fin a) (Fin b)) eqn:E; [apply flt_Fin in E; contradiction|reflexivity].
Qed.

Lemma fle_Fin_b (a b : Q) : fle (Fin a) (Fin b) = qleb a b.
Proof.
  destruct (qleb_spec a b) as [H|H]; [now apply fle_Fin|].
  destruct (fle (Fin a) (Fin b)) eqn:E; [apply fle_Fin in E; contradiction|reflexivity].
Qed.

Lemma fmul_Fin (a b : Q) : fmul (Fin a) (Fin b) = Fin (a * b).
Proof. reflexivity. Qed.
