(* ===== verification/PyStr.v ===== *)
(** * Python string built-ins used on the command-line arguments

    [upper] is [str.upper] on ASCII text, [strip_chars] removes the ASCII
    whitespace that [float()] and [int()] ignore around their argument,
    and [parse_float] / [parse_int] are [float(s)] and [int(s)] on a
    string: [None] is the [ValueError] they raise. The grammar is the one
    of the Python reference for [float()] (sign, digit groups with single
    underscores, optional fraction and exponent, [inf], [infinity],
    [nan] in any case) and for [int()] in base 10. Non-ASCII digits and
    whitespace, which Python also accepts, are not modelled; [str.upper]
    maps only ASCII letters. *)

From Stdlib Require Import QArith ZArith List String Ascii Bool Lia.
From S2P Require Import Prelude PyFloat.
Import ListNotations.
Local Open Scope Z_scope.
Local Open Scope char_scope.

(** ** Characters *)

(** The ASCII characters Python's [str.isspace] accepts, which [float()]
    and [int()] strip: space, [\t], [\n], [\v], [\f], [\r] and the
    separators [\x1c] to [\x1f]. *)
Definition is_space (c : ascii) : bool :=
  match nat_of_ascii c with
  | 32 | 9 | 10 | 11 | 12 | 13 | 28 | 29 | 30 | 31 => true
  | _ => false
  end%nat.

Definition digit_val (c : ascii) : option Z :=
  let n := nat_of_ascii c in
  if (48 <=? n)%nat && (n <=? 57)%nat then Some (Z.of_nat (n - 48)) else None.

Definition ascii_upper (c : ascii) : ascii :=
  let n := nat_of_ascii c in
  if (97 <=? n)%nat && (n <=? 122)%nat then ascii_of_nat (n - 32) else c.

Definition ascii_lower (c : ascii) : ascii :=
  let n := nat_of_ascii c in
  if (65 <=? n)%nat && (n <=? 90)%nat then ascii_of_nat (n + 32) else c.

(** ** [str.upper] and [str.strip] *)

Definition upper (s : string) : string :=
  string_of_list_ascii (map ascii_upper (list_ascii_of_string s)).

Fixpoint drop_space (cs : list ascii) : list ascii :=
  match cs with
  | c :: cs' => if is_space c then drop_space cs' else cs
  | [] => []
  end.

Definition strip_chars (cs : list ascii) : list ascii :=
  rev (drop_space (rev (drop_space cs))).

(** ** Digit groups: [digit (["_"] digit)*] *)

(** Consumes digits (and underscores between two digits) after the first
    one; returns the value, the count of digits read and the rest. *)
Fixpoint digits_tail (acc : Z) (n : nat) (cs : list ascii)
  : Z * nat * list ascii :=
  match cs with
  | c :: cs' =>
      match digit_val c with
      | Some d => digits_tail (10 * acc + d) (S n) cs'
      | None =>
          if Ascii.eqb c "_" then
            match cs' with
            | c2 :: cs'' =>
                match digit_val c2 with
                | Some d => digits_tail (10 * acc + d) (S n) cs''
                | None => (acc, n, cs)
                end
            | [] => (acc, n, cs)
            end
          else (acc, n, cs)
      end
  | [] => (acc, n, [])
  end.

Definition digitpart (cs : list ascii) : option (Z * nat * list ascii) :=
  match cs with
  | c :: cs' =>
      match digit_val c with
      | Some d => Some (digits_tail d 1 cs')
      | None => None
      end
  | [] => None
  end.

(** [number ::= [digitpart] "." digitpart | digitpart ["."]]: the
    mantissa as an integer, the count of fraction digits and the rest. *)
Definition number (cs : list ascii) : option (Z * nat * list ascii) :=
  match digitpart cs with
  | Some (m, _, rest) =>
      match rest with
      | "." :: rest' =>
          match digitpart rest' with
          | Some (f, k, rest'') => Some (m * 10 ^ Z.of_nat k + f, k, rest'')
          | None => Some (m, O, rest')
          end
      | _ => Some (m, O, rest)
      end
  | None =>
      match cs with
      | "." :: rest' => digitpart rest'
      | _ => None
      end
  end.

Definition sign_of (cs : list ascii) : Z * list ascii :=
  match cs with
  | "-" :: cs' => (-1, cs')%Z
  | "+" :: cs' => (1, cs')%Z
  | _ => (1, cs)%Z
  end.

(** [exponent ::= ("e" | "E") [sign] digitpart], then end of input. *)
Definition exponent (cs : list ascii) : option Z :=
  match cs with
  | [] => Some 0%Z
  | c :: cs' =>
      if Ascii.eqb (ascii_lower c) "e" then
        let (sg, cs'') := sign_of cs' in
        match digitpart cs'' with
        | Some (e, _, []) => Some (sg * e)%Z
        | _ => None
        end
      else None
  end.

Definition lower_chars (cs : list ascii) : list ascii := map ascii_lower cs.

(** [float(s)] *)
Definition parse_float (s : string) : option pyfloat :=
  let (sg, body) := sign_of (strip_chars (list_ascii_of_string s)) in
  let word := string_of_list_ascii (lower_chars body) in
  if (word =? "inf")%string || (word =? "infinity")%string then
    Some (if (sg <? 0)%Z then NInf else PInf)
  else if (word =? "nan")%string then Some NaN
  else
    match number body with
    | Some (m, k, rest) =>
        match exponent rest with
        | Some e =>
            Some (Fin (inject_Z (sg * m) * Qpower (inject_Z 10) (e - Z.of_nat k)))
        | None => None
        end
    | None => None
    end.

(** [int(s)] *)
Definition parse_int (s : string) : option Z :=
  let (sg, body) := sign_of (strip_chars (list_ascii_of_string s)) in
  match digitpart body with
  | Some (m, _, []) => Some (sg * m)%Z
  | _ => None
  end.
