(* ===== verification/Gateway.v ===== *)
(** * The exchange client, the sentiment feed and the script monad

    Every script talks to [UMFutures] ([exchange_info], [ticker_price],
    [new_order]), sleeps with [time.sleep] and writes [bot.log]; the
    sentiment scripts also call [requests.get] on the Fear & Greed API.
    These are modelled by a [World] holding, per endpoint, the queue of
    answers the next calls receive ([None], or an exhausted queue, is the
    call raising), and a trace of [event]s that records each call with its
    arguments, each sleep, each warning print and each log record.

    A script is a computation [M A] on [Sys] (world and trace) whose
    [outcome] is [Ok], [Raise] (a Python exception, caught by
    [try_except] as [except Exception:] does) or [Exit] ([sys.exit(1)]
    after printing a rejection [reason]: [SystemExit] is not an
    [Exception], so [try_except] lets it through).

    The helpers that every script re-implements identically are modelled
    once: [is_valid_symbol], [get_min_notional], [get_current_price]. *)

From Stdlib Require Import QArith ZArith List String Bool Lia.
From S2P Require Import Prelude PyFloat PyStr.
Import ListNotations.
Local Open Scope string_scope.
Local Open Scope list_scope.

(** ** Exchange data *)

Record Filter := mkFilter { filterType : string; notional : string }.
Record SymbolInfo := mkSymbolInfo { symbol : string; filters : list Filter }.
(** [client.exchange_info()["symbols"]] *)
Definition ExchangeInfo := list SymbolInfo.

Inductive order_type := MARKET | LIMIT | STOP.

(** The keyword arguments of [client.new_order]. *)
Record Order := mkOrder {
  o_symbol : string;
  o_side : string;
  o_type : order_type;
  o_timeInForce : option string;
  o_quantity : pyfloat;
  o_price : option pyfloat;
  o_stopPrice : option pyfloat
}.

(** ** Events of the trace *)

(** The warning prints of the degrade-on-failure paths. *)
Inductive warning :=
| WarnSymbol             (** could not verify symbol *)
| WarnMinNotional        (** could not fetch minimum notional *)
| WarnPrice              (** could not fetch current price *)
| WarnNotionalUnverified (** price unavailable, notional not verified *)
| WarnFearGreed          (** could not fetch the Fear & Greed index *)
| WarnSliceSkipped.      (** TWAP: price unavailable, slice skipped *)

Inductive log_level := INFO | ERROR.

Inductive log_msg :=
| MsgOrderPlaced | MsgOrderResponse | MsgOrderFailed
| MsgStrategyStarted | MsgStrategyFinished.

Inductive event :=
| EvExchangeInfo
| EvTickerPrice (sym : string)
| EvNewOrder (o : Order) (accepted : bool)
| EvFearGreed
| EvSleep (seconds : Z)
| EvWarn (w : warning)
| EvLog (lvl : log_level) (m : log_msg).

(** ** The world and the state *)

Record World := mkWorld {
  w_info : list (option ExchangeInfo);
  w_ticker : list (option string);
  w_orders : list bool;
  w_fng : list (option (string * string))
}.

Record Sys := mkSys { world : World; trace : list event }.

(** ** Outcomes and the monad *)

Inductive exn := ValueError | ZeroDivisionError | ClientError.

(** The rejection printed before [sys.exit(1)]. *)
Inductive reason :=
| RUsage | RNonNumeric | RInvalidSide | RNonPositive | RInvalidSymbol
| RBelowMinNotional
| RLimitPriceSide (side : string)
| RStopPriceSide (side : string)
| RStopLimitOrder (side : string)
| ROcoOrdering (side : string)
| RInvalidRange | RTooFewGrids
| RChunkBelowMinNotional.

Inductive outcome (A : Type) :=
| Ok (a : A)
| Raise (e : exn)
| Exit (r : reason).
Arguments Ok {A}. Arguments Raise {A}. Arguments Exit {A}.

Definition M (A : Type) := Sys -> outcome A * Sys.

Definition ret {A} (a : A) : M A := fun s => (Ok a, s).

Definition bind {A B} (m : M A) (k : A -> M B) : M B := fun s =>
  match m s with
  | (Ok a, s') => k a s'
  | (Raise e, s') => (Raise e, s')
  | (Exit r, s') => (Exit r, s')
  end.

Notation "x <- c ;; k" := (bind c (fun x => k))
  (at level 61, c at next level, right associativity) : bot_scope.
Notation "c ;; k" := (bind c (fun _ => k))
  (at level 61, right associativity) : bot_scope.

Definition raise {A} (e : exn) : M A := fun s => (Raise e, s).

(** [print(...); sys.exit(1)] *)
Definition exit_with {A} (r : reason) : M A := fun s => (Exit r, s).

(** [try: c except Exception as e: h] *)
Definition try_except {A} (c : M A) (h : exn -> M A) : M A := fun s =>
  match c s with
  | (Raise e, s') => h e s'
  | r => r
  end.

Definition emit (e : event) : M unit := fun s =>
  (Ok tt, mkSys (world s) (trace s ++ [e])).

Definition warn (w : warning) : M unit := emit (EvWarn w).
Definition log (lvl : log_level) (m : log_msg) : M unit := emit (EvLog lvl m).
Definition sleep (seconds : Z) : M unit := emit (EvSleep seconds).

(** [float(s)] and [int(s)] raise [ValueError] on a malformed string. *)
Definition float_of (s : string) : M pyfloat :=
  match parse_float s with Some x => ret x | None => raise ValueError end.
Definition int_of (s : string) : M Z :=
  match parse_int s with Some z => ret z | None => raise ValueError end.

(** [x / y] raises [ZeroDivisionError] on a zero divisor. *)
Definition div_of (x y : pyfloat) : M pyfloat :=
  match fdiv x y with Some z => ret z | None => raise ZeroDivisionError end.

(** ** The endpoints *)

(** Pops the next answer of one queue; an exhausted queue raises. *)
Definition pop {A} (q : list (option A)) : option A * list (option A) :=
  match q with
  | a :: q' => (a, q')
  | [] => (None, [])
  end.

Definition set_info (w : World) q := mkWorld q (w_ticker w) (w_orders w) (w_fng w).
Definition set_ticker (w : World) q := mkWorld (w_info w) q (w_orders w) (w_fng w).
Definition set_orders (w : World) q := mkWorld (w_info w) (w_ticker w) q (w_fng w).
Definition set_fng (w : World) q := mkWorld (w_info w) (w_ticker w) (w_orders w) q.

(** Records the call, moves the queue and answers (or raises). *)
Definition call {A} (ev : event) (get : World -> list (option A))
    (set : World -> list (option A) -> World) : M A := fun s =>
  let (a, q) := pop (get (world s)) in
  let s' := mkSys (set (world s) q) (trace s ++ [ev]) in
  match a with Some v => (Ok v, s') | None => (Raise ClientError, s') end.

Definition exchange_info : M ExchangeInfo := call EvExchangeInfo w_info set_info.

(** [client.ticker_price(symbol)["price"]] *)
Definition ticker_price (sym : string) : M string :=
  call (EvTickerPrice sym) w_ticker set_ticker.

(** [requests.get(url, timeout=10)]: value and classification strings. *)
Definition fng_request : M (string * string) := call EvFearGreed w_fng set_fng.

(** [client.new_order(...)]: [true] is an acknowledgement, [false] a
    raised client or transport error; both are recorded. *)
Definition new_order (o : Order) : M unit := fun s =>
  match w_orders (world s) with
  | b :: q =>
      let s' := mkSys (set_orders (world s) q) (trace s ++ [EvNewOrder o b]) in
      if b then (Ok tt, s') else (Raise ClientError, s')
  | [] =>
      (Raise ClientError,
       mkSys (world s) (trace s ++ [EvNewOrder o false]))
  end.

(** ** The shared helpers *)

(** [is_valid_symbol]: symbol membership; fails open on a network error. *)
Definition is_valid_symbol (sym : string) : M bool :=
  try_except
    (info <- exchange_info ;;
     ret (existsb (fun s => String.eqb (symbol s) sym) info))
    (fun _ => warn WarnSymbol ;; ret true).

Fixpoint min_notional_filter (fs : list Filter) : option string :=
  match fs with
  | f :: fs' =>
      if String.eqb (filterType f) "MIN_NOTIONAL" then Some (notional f)
      else min_notional_filter fs'
  | [] => None
  end.

(** The loop of [get_min_notional]: the first [MIN_NOTIONAL] filter of
    the first entry with that symbol that has one. *)
Fixpoint find_min_notional (sym : string) (info : ExchangeInfo) : option string :=
  match info with
  | s :: info' =>
      if String.eqb (symbol s) sym then
        match min_notional_filter (filters s) with
        | Some n => Some n
        | None => find_min_notional sym info'
        end
      else find_min_notional sym info'
  | [] => None
  end.

Definition default_min_notional : pyfloat := Fin 100.

(** [get_min_notional]: falls back to [100.0] when the symbol has no
    filter and when the call (or [float]) raises. *)
Definition get_min_notional (sym : string) : M pyfloat :=
  try_except
    (info <- exchange_info ;;
     match find_min_notional sym info with
     | Some n => float_of n
     | None => ret default_min_notional
     end)
    (fun _ => warn WarnMinNotional ;; ret default_min_notional).

(** [get_current_price]: [None] when the call (or [float]) raises. *)
Definition get_current_price (sym : string) : M (option pyfloat) :=
  try_except
    (t <- ticker_price sym ;; p <- float_of t ;; ret (Some p))
    (fun _ => warn WarnPrice ;; ret None).

(** The value [get_min_notional] returns for one [exchange_info] answer
    ([None]: the call raised). *)
Definition min_notional_answer (sym : string) (a : option ExchangeInfo) : pyfloat :=
  match a with
  | Some info =>
      match find_min_notional sym info with
      | Some n => match parse_float n with Some x => x | None => default_min_notional end
      | None => default_min_notional
      end
  | None => default_min_notional
  end.

(** [if current_price:] on the result of [get_current_price]: [None]
    and a zero price both take the "unavailable" branch. *)
Definition truthy_price (p : option pyfloat) : option pyfloat :=
  match p with
  | Some x => if ftruthy x then Some x else None
  | None => None
  end.

(** Whether the first [exchange_info] answer lets the symbol through
    [is_valid_symbol]: it lists it, or the call fails (fail open). *)
Definition symbol_passes (sym : string) (s : Sys) : Prop :=
  match w_info (world s) with
  | Some info :: _ => existsb (fun si => String.eqb (symbol si) sym) info = true
  | _ => True
  end.

(** ** Observations of a trace *)

(** The orders submitted (acknowledged or not), in order. *)
Definition orders_of (t : list event) : list Order :=
  flat_map (fun e => match e with EvNewOrder o _ => [o] | _ => [] end) t.

(** The sleeps, in order. *)
Definition sleeps_of (t : list event) : list Z :=
  flat_map (fun e => match e with EvSleep n => [n] | _ => [] end) t.

(** ** Laws of the monad and of the endpoints *)

Lemma orders_of_app (t1 t2 : list event) :
  orders_of (t1 ++ t2) = orders_of t1 ++ orders_of t2.
Proof. apply flat_map_app. Qed.

Lemma sleeps_of_app (t1 t2 : list event) :
  sleeps_of (t1 ++ t2) = sleeps_of t1 ++ sleeps_of t2.
Proof. apply flat_map_app. Qed.

#[export] Hint Rewrite orders_of_app sleeps_of_app app_nil_r : bot_rw.

Lemma bind_ret_l {A B} (a : A) (k : A -> M B) s : bind (ret a) k s = k a s.
Proof. reflexivity. Qed.

Lemma bind_assoc {A B C} (m : M A) (k : A -> M B) (k' : B -> M C) s :
  bind (bind m k) k' s = bind m (fun a => bind (k a) k') s.
Proof. unfold bind. destruct (m s) as [[a|e|r] s']; reflexivity. Qed.

(** [new_order] either acknowledges or raises, and always records the
    order. *)
Lemma new_order_spec (o : Order) (s : Sys) :
  exists (b : bool) (s' : Sys),
    new_order o s = (if b then Ok tt else Raise ClientError, s')
    /\ trace s' = trace s ++ [EvNewOrder o b].
Proof.
  unfold new_order. destruct (w_orders (world s)) as [|b q].
  - exists false. eexists. split; reflexivity.
  - exists b. eexists. split; [destruct b|]; reflexivity.
Qed.

(** Each script has its own copy of the shared helpers; the copies are
    declared in [bot_unfold] so that [unfold_m] sees through them. *)
Create HintDb bot_unfold discriminated.

(** [unfold_m] unfolds the scripts' copies of the helpers, the monad, the
    endpoints and the shared helpers until the goal is a plain term on
    the state, ready for rewriting with the queues of the world. *)
Ltac unfold_m :=
  repeat progress (autounfold with bot_unfold; unfold try_except, get_current_price, ticker_price,
    exchange_info, fng_request, call, bind, float_of, int_of, div_of, ret,
    raise, exit_with, new_order, log, sleep, emit, warn, truthy_price, pop,
    is_valid_symbol, get_min_notional; cbv beta iota zeta).

(** [mstep] reduces the world's record projections and the matches on
    known answers, leaving the comparisons of the code folded. *)
Ltac mstep :=
  cbn [set_info set_ticker set_orders set_fng w_info w_ticker w_orders w_fng
       world trace fst snd hd tl existsb negb andb orb];
  cbv beta iota zeta.

(** [split_matches] evaluates a script on an unknown world and unknown
    arguments: it case-splits the innermost [match] of the goal (an
    answer, a parse result, a comparison), reduces, and repeats. *)
Ltac split_matches :=
  repeat (match goal with
          | |- context [match ?x with _ => _ end] =>
              lazymatch x with
              | context [match _ with _ => _ end] => fail
              | _ => destruct x
              end
          end; mstep).

(** ** The reference lookups *)

(** C13: the degrade-on-failure policy of the reference reads. When the
    call raises, [is_valid_symbol] answers [True] (fail open),
    [get_min_notional] answers [100.0] and [get_current_price] answers
    [None]. Each does so after exactly one call and one warning. *)
Theorem reference_degrade_policy (sym : string) (s : Sys) :
  (hd None (w_info (world s)) = None ->
     is_valid_symbol sym s
     = (Ok true, mkSys (set_info (world s) (tl (w_info (world s))))
                       (trace s ++ [EvExchangeInfo; EvWarn WarnSymbol]))
     /\ get_min_notional sym s
        = (Ok (Fin 100), mkSys (set_info (world s) (tl (w_info (world s))))
                              (trace s ++ [EvExchangeInfo; EvWarn WarnMinNotional])))
  /\ (hd None (w_ticker (world s)) = None ->
      get_current_price sym s
      = (Ok None, mkSys (set_ticker (world s) (tl (w_ticker (world s))))
                        (trace s ++ [EvTickerPrice sym; EvWarn WarnPrice]))).
Proof.
  split; intro H; unfold_m.
  - destruct (w_info (world s)) as [|[a|] q]; cbn in H; try discriminate;
      mstep; split; now rewrite <- app_assoc.
  - destruct (w_ticker (world s)) as [|[a|] q]; cbn in H; try discriminate;
      mstep; now rewrite <- app_assoc.
Qed.

(** [get_min_notional] reads one [exchange_info] answer and returns the
    [notional] of the first [MIN_NOTIONAL] filter of the first entry of the
    symbol that has one. It returns [100.0] when no entry has one, when
    the call raises, or when [float()] rejects the filter's value. *)
Lemma get_min_notional_spec (sym : string) (s : Sys) :
  exists t, get_min_notional sym s
    = (Ok (min_notional_answer sym (hd None (w_info (world s)))),
       mkSys (set_info (world s) (tl (w_info (world s)))) (trace s ++ EvExchangeInfo :: t)).
Proof.
  unfold_m. unfold min_notional_answer.
  destruct (w_info (world s)) as [|[info|] q]; mstep;
    try (eexists; rewrite <- app_assoc; reflexivity).
  destruct (find_min_notional sym info) as [n|]; mstep;
    [destruct (parse_float n); mstep|];
    eexists; rewrite <- ?app_assoc; cbn; reflexivity.
Qed.

(** ** Witnesses *)

(** With no answer for either read, all three helpers degrade. *)
Lemma reference_degrade_policy_witness :
  let s := mkSys (mkWorld [None] [None] [] []) [] in
  hd None (w_info (world s)) = None /\ hd None (w_ticker (world s)) = None
  /\ is_valid_symbol "BTCUSDT" s
     = (Ok true, mkSys (mkWorld [] [None] [] []) [EvExchangeInfo; EvWarn WarnSymbol])
  /\ get_min_notional "BTCUSDT" s
     = (Ok (Fin 100), mkSys (mkWorld [] [None] [] []) [EvExchangeInfo; EvWarn WarnMinNotional])
  /\ get_current_price "BTCUSDT" s
     = (Ok None, mkSys (mkWorld [None] [] [] []) [EvTickerPrice "BTCUSDT"; EvWarn WarnPrice]).
Proof.
  cbv zeta.
  destruct (reference_degrade_policy "BTCUSDT" (mkSys (mkWorld [None] [None] [] []) []))
    as [Hi Ht].
  destruct (Hi eq_refl) as [H1 H2]. split; [reflexivity|]. split; [reflexivity|].
  split; [exact H1|]. split; [exact H2|]. exact (Ht eq_refl).
Defined.
