(* ===== verification/Grid.v ===== *)
(** * The grid ladder: [src/src/advanced/grid_orders.py]

    [Ladder] is the derivation shared with the sentiment variant: the
    [num_grids] price levels [round(lower + i * grid_gap, 2)], the split
    at [mid_index = num_grids // 2] into BUY levels (before it) and SELL
    levels (after it), and the best-effort loop that submits one LIMIT GTC
    order per level and logs a failure without stopping.
    [GridOrders] is the script: [validate_args] and [place_grid_orders]. *)

From Stdlib Require Import QArith Qround Qabs Lqa ZArith String List Bool Lia Sorted.
From S2P Require Import Prelude PyFloat PyStr Gateway.
Import ListNotations.
Local Open Scope string_scope.
Local Open Scope list_scope.

Module Ladder.

(** [range(n)] *)
Definition py_range (n : Z) : list Z := map Z.of_nat (seq 0 (Z.to_nat n)).

(** [lower_price + i * grid_gap] *)
Definition grid_level (lower gap : pyfloat) (i : Z) : pyfloat :=
  fadd lower (fmul (of_Z i) gap).

(** [[round(lower_price + i * grid_gap, 2) for i in range(num_grids)]] *)
Definition grid_prices (lower gap : pyfloat) (n : Z) : list pyfloat :=
  map (fun i => fround (grid_level lower gap i) 2) (py_range n).

(** [num_grids // 2] *)
Definition mid_index (n : Z) : Z := n / 2.

(** [grid_prices[:mid_index]] *)
Definition buy_prices (prices : list pyfloat) (n : Z) : list pyfloat :=
  firstn (Z.to_nat (mid_index n)) prices.

(** [grid_prices[mid_index + 1:]] *)
Definition sell_prices (prices : list pyfloat) (n : Z) : list pyfloat :=
  skipn (Z.to_nat (mid_index n + 1)) prices.

Definition limit_order (sym side : string) (quantity price : pyfloat) : Order :=
  mkOrder sym side LIMIT (Some "GTC") quantity (Some price) None.

(** One iteration of a placement loop: a failure is logged and
    swallowed. *)
Definition place_leg (sym side : string) (quantity price : pyfloat) : M unit :=
  try_except
    (new_order (limit_order sym side quantity price) ;; log INFO MsgOrderPlaced)
    (fun _ => log ERROR MsgOrderFailed).

(** [for i, price in enumerate(prices): try: ... except: ...] *)
Fixpoint place_legs (sym side : string) (quantity : pyfloat)
    (prices : list pyfloat) : M unit :=
  match prices with
  | [] => ret tt
  | p :: ps => place_leg sym side quantity p ;; place_legs sym side quantity ps
  end.

(** The ladder of [place_grid_orders] once the bounds and quantity are
    fixed: the gap, the levels, the split and the two loops. *)
Definition place_ladder (sym : string) (lower upper : pyfloat) (n : Z)
    (quantity : pyfloat) : M unit :=
  grid_gap <- div_of (fsub upper lower) (of_Z (n - 1)) ;;
  let prices := grid_prices lower grid_gap n in
  place_legs sym "BUY" quantity (buy_prices prices n) ;;
  place_legs sym "SELL" quantity (sell_prices prices n).

End Ladder.

Module GridOrders.
Import Ladder.

(** The helpers of [grid_orders.py]: [is_valid_symbol] (lines 33-40)
    and [get_min_notional] (lines 56-67), the same code as the shared
    ones of [Gateway]; its [get_current_price] is the one of [Gateway]. *)
Definition is_valid_symbol := Gateway.is_valid_symbol.
Definition get_min_notional := Gateway.get_min_notional.
#[global] Hint Unfold is_valid_symbol get_min_notional : bot_unfold.

(** [validate_args(args)] of [grid_orders.py]: returns
    [(symbol, lower_price, upper_price, num_grids, quantity)]. *)
Definition validate_args (args : list string)
  : M (string * pyfloat * pyfloat * Z * pyfloat) :=
  if (length args <? 6)%nat then exit_with RUsage else
  let sym := upper (nth 1 args "") in
  lower_price <- float_of (nth 2 args "") ;;
  upper_price <- float_of (nth 3 args "") ;;
  num_grids <- int_of (nth 4 args "") ;;
  quantity <- float_of (nth 5 args "") ;;
  valid <- is_valid_symbol sym ;;
  if negb valid then exit_with RInvalidSymbol else
  if fle lower_price (Fin 0) || fle upper_price (Fin 0)
     || fge lower_price upper_price then exit_with RInvalidRange else
  if (num_grids <? 2)%Z then exit_with RTooFewGrids else
  if fle quantity (Fin 0) then exit_with RNonPositive else
  let result := (sym, lower_price, upper_price, num_grids, quantity) in
  current_price <- get_current_price sym ;;
  match truthy_price current_price with
  | Some p =>
      min_notional <- get_min_notional sym ;;
      if flt (fmul p quantity) min_notional then exit_with RBelowMinNotional
      else ret result
  | None => warn WarnNotionalUnverified ;; ret result
  end.

(** [place_grid_orders(symbol, lower_price, upper_price, num_grids, quantity)] *)
Definition place_grid_orders (sym : string) (lower upper : pyfloat) (n : Z)
    (quantity : pyfloat) : M unit :=
  log INFO MsgStrategyStarted ;;
  place_ladder sym lower upper n quantity ;;
  log INFO MsgStrategyFinished.

(** The entry point. *)
Definition main (args : list string) : M unit :=
  v <- validate_args args ;;
  let '(sym, lower, upper, n, quantity) := v in
  place_grid_orders sym lower upper n quantity.

End GridOrders.

(** The decision of the grid script's checks on finite values once the
    symbol is let through: the range, the grid count, the quantity, then
    the market price [c] times the per-level quantity against the minimum
    notional [m]; [None] accepts. *)
Definition grid_rule (l u : Q) (n : Z) (q m c : Q) : option reason :=
  if qleb l 0 || qleb u 0 || qleb u l then Some RInvalidRange
  else if (n <? 2)%Z then Some RTooFewGrids
  else if qleb q 0 then Some RNonPositive
  else if qltb (c * q) m then Some RBelowMinNotional
  else None.

(** The events one leg leaves for the exchange's answer [b]: the order,
    then the success or the failure message. *)
Definition leg_events (sym side : string) (q : pyfloat) (pb : pyfloat * bool) : list event :=
  let '(p, b) := pb in
  [EvNewOrder (Ladder.limit_order sym side q p) b;
   if b then EvLog INFO MsgOrderPlaced else EvLog ERROR MsgOrderFailed].

Import Ladder.

(** ** Shape of the ladder *)

Lemma py_range_length (n : Z) : length (py_range n) = Z.to_nat n.
Proof. unfold py_range. now rewrite length_map, length_seq. Qed.

Lemma grid_prices_length (lower gap : pyfloat) (n : Z) :
  length (grid_prices lower gap n) = Z.to_nat n.
Proof. unfold grid_prices. rewrite length_map. apply py_range_length. Qed.

Lemma mid_index_bounds (n : Z) : (1 <= n)%Z ->
  (Z.to_nat (mid_index n) < Z.to_nat n)%nat
  /\ Z.to_nat (mid_index n + 1) = S (Z.to_nat (mid_index n)).
Proof.
  unfold mid_index. intro Hn.
  assert (0 <= n / 2 < n)%Z by (split; [apply Z.div_pos|apply Z.div_lt]; lia).
  split; [apply Z2Nat.inj_lt; lia|].
  rewrite Z2Nat.inj_add by lia. simpl. lia.
Qed.

Lemma nth_py_range {A} (f : Z -> A) (n : Z) (k : nat) (d : A) :
  (k < Z.to_nat n)%nat -> nth k (map f (py_range n)) d = f (Z.of_nat k).
Proof.
  intro Hk. unfold py_range. rewrite map_map.
  rewrite (nth_indep _ d (f (Z.of_nat 0))) by (now rewrite length_map, length_seq).
  rewrite (map_nth (fun x => f (Z.of_nat x))), seq_nth by exact Hk. reflexivity.
Qed.

(** The ladder is its BUY levels, the midpoint and its SELL levels. *)
Lemma ladder_split (prices : list pyfloat) (n : Z) :
  (1 <= n)%Z -> length prices = Z.to_nat n ->
  prices = buy_prices prices n
           ++ nth (Z.to_nat (mid_index n)) prices NaN :: sell_prices prices n.
Proof.
  intros Hn Hlen. destruct (mid_index_bounds n Hn) as [Hmid Hsucc].
  unfold buy_prices, sell_prices. rewrite Hsucc. apply firstn_nth_skipn. lia.
Qed.

Lemma ladder_count (prices : list pyfloat) (n : Z) :
  (1 <= n)%Z -> length prices = Z.to_nat n ->
  length (buy_prices prices n) = Z.to_nat (n / 2)
  /\ (length (buy_prices prices n) + length (sell_prices prices n) + 1)%nat = Z.to_nat n.
Proof.
  intros Hn Hlen. destruct (mid_index_bounds n Hn) as [Hmid Hsucc].
  unfold buy_prices, sell_prices. rewrite Hsucc.
  rewrite length_firstn, length_skipn, Hlen. unfold mid_index in *. lia.
Qed.

(** C1: the ladder is its BUY levels, the skipped midpoint and its SELL
    levels, with [num_grids // 2] BUY levels and one fewer level traded
    than the ladder has. *)
Theorem grid_ladder_partition (lower gap : pyfloat) (n : Z) :
  (1 <= n)%Z ->
  let prices := grid_prices lower gap n in
  prices = buy_prices prices n
           ++ nth (Z.to_nat (mid_index n)) prices NaN :: sell_prices prices n
  /\ length (buy_prices prices n) = Z.to_nat (n / 2)
  /\ (length (buy_prices prices n) + length (sell_prices prices n) + 1)%nat
     = Z.to_nat n.
Proof.
  intros Hn prices. pose proof (grid_prices_length lower gap n) as Hlen.
  split; [now apply ladder_split|now apply ladder_count].
Qed.

(** ** The levels before rounding *)

Lemma grid_level_Fin (l g : Q) (i : Z) :
  grid_level (Fin l) (Fin g) i = Fin (l + inject_Z i * g).
Proof. reflexivity. Qed.

Lemma inject_Z_pos (z : Z) : (0 < z)%Z -> 0 < inject_Z z.
Proof. intro H. change 0 with (inject_Z 0). now rewrite <- Zlt_Qlt. Qed.

(** [grid_gap = (upper_price - lower_price) / (num_grids - 1)] does not
    raise once [num_grids >= 2]. *)
Lemma grid_gap_Fin (l u : Q) (n : Z) (s : Sys) : (2 <= n)%Z ->
  div_of (fsub (Fin u) (Fin l)) (of_Z (n - 1)) s
  = (Ok (Fin ((u - l) / inject_Z (n - 1))), s).
Proof.
  intro Hn. pose proof (inject_Z_pos (n - 1) ltac:(lia)).
  unfold div_of, fdiv, of_Z. simpl.
  destruct (qeqb_spec (inject_Z (n - 1)) 0); [lra|reflexivity].
Qed.

Lemma Qdiv_pos (a d : Q) : 0 < a -> 0 < d -> 0 < a / d.
Proof. intros Ha Hd. apply Qmult_lt_0_compat; [exact Ha|]. now apply Qinv_lt_0_compat. Qed.

Lemma inject_Z_succ (k : nat) : inject_Z (Z.of_nat (S k)) == inject_Z (Z.of_nat k) + 1.
Proof. rewrite Nat2Z.inj_succ. unfold Z.succ. now rewrite inject_Z_plus. Qed.

(** C2: before rounding, the levels are strictly increasing, start at
    [lower_price], end at [upper_price] and are [grid_gap] apart. *)
Theorem grid_levels_spec (l u : Q) (n : Z) : l < u -> (2 <= n)%Z ->
  let g := (u - l) / inject_Z (n - 1) in
  let levels := map (grid_level (Fin l) (Fin g)) (py_range n) in
  Sorted (fun x y => flt x y = true) levels
  /\ feq (nth 0 levels NaN) (Fin l) = true
  /\ feq (nth (Z.to_nat (n - 1)) levels NaN) (Fin u) = true
  /\ (forall k, (S k < Z.to_nat n)%nat ->
        feq (fsub (nth (S k) levels NaN) (nth k levels NaN)) (Fin g) = true).
Proof.
  intros Hlu Hn g levels.
  pose proof (inject_Z_pos (n - 1) ltac:(lia)) as Hd.
  assert (Hg : 0 < g) by (apply Qdiv_pos; lra).
  split; [|split; [|split]].
  - unfold levels, py_range. rewrite map_map. apply Sorted_map_seq. intro k.
    rewrite !grid_level_Fin, flt_Fin, inject_Z_succ.
    apply Qlt_le_trans with (l + inject_Z (Z.of_nat k) * g + g); [lra|].
    apply Qle_lteq. right. ring.
  - unfold levels. rewrite nth_py_range by lia.
    rewrite grid_level_Fin, feq_Fin. simpl. ring.
  - unfold levels. rewrite nth_py_range by lia.
    rewrite grid_level_Fin, feq_Fin, Z2Nat.id by lia.
    unfold g. field. lra.
  - intros k Hk. unfold levels. rewrite !nth_py_range by lia.
    rewrite !grid_level_Fin. unfold fsub, fneg, fadd.
    rewrite feq_Fin, inject_Z_succ. ring.
Qed.

(** ** The submitted prices, rounded to cents *)

Lemma grid_price_Fin (l g : Q) (i : Z) :
  fround (grid_level (Fin l) (Fin g) i) 2 = Fin (round_q (l + inject_Z i * g) 2).
Proof. reflexivity. Qed.

Lemma grid_prices_map (l g : Q) (n : Z) :
  grid_prices (Fin l) (Fin g) n
  = map (fun k => Fin (round_q (l + inject_Z (Z.of_nat k) * g) 2))
        (seq 0 (Z.to_nat n)).
Proof. unfold grid_prices, py_range. now rewrite map_map. Qed.

(** With a non-negative gap the rounded prices never decrease. *)
Lemma grid_prices_le (l g : Q) (n : Z) : 0 <= g ->
  Sorted (fun x y => fle x y = true) (grid_prices (Fin l) (Fin g) n).
Proof.
  intro Hg. rewrite grid_prices_map. apply Sorted_map_seq. intro k.
  rewrite fle_Fin. apply round_q_mono; [lia|].
  rewrite inject_Z_succ. apply Qplus_le_compat; [lra|].
  apply Qle_trans with ((inject_Z (Z.of_nat k) + 0) * g); [lra|].
  apply Qmult_le_compat_r; [lra|assumption].
Qed.

(** A gap above one cent keeps the rounded prices strictly increasing. *)
Lemma grid_prices_lt (l g : Q) (n : Z) : 1 # 100 < g ->
  Sorted (fun x y => flt x y = true) (grid_prices (Fin l) (Fin g) n).
Proof.
  intro Hg. rewrite grid_prices_map. apply Sorted_map_seq. intro k.
  rewrite flt_Fin. apply round_q_strict; [lia|].
  assert (E : 1 / inject_Z (10 ^ 2) == 1 # 100) by reflexivity.
  rewrite E, inject_Z_succ. lra.
Qed.

(** C18: for [lower < upper] and [num_grids >= 2] the ladder has
    [num_grids] prices, the [k]-th within half a cent of its exact level
    [lower + k * grid_gap]; the prices never decrease, and they increase
    strictly when the gap is above one cent. *)
Theorem grid_prices_spec (l u : Q) (n : Z) : l < u -> (2 <= n)%Z ->
  let g := (u - l) / inject_Z (n - 1) in
  let prices := grid_prices (Fin l) (Fin g) n in
  length prices = Z.to_nat n
  /\ (forall k, (k < Z.to_nat n)%nat -> exists p, nth k prices NaN = Fin p
        /\ Qabs (p - (l + inject_Z (Z.of_nat k) * g)) <= 1 # 200)
  /\ Sorted (fun x y => fle x y = true) prices
  /\ (1 # 100 < g -> Sorted (fun x y => flt x y = true) prices).
Proof.
  intros Hlu Hn g prices.
  assert (Hg : 0 < g) by (apply Qdiv_pos; [lra|apply inject_Z_pos; lia]).
  split; [apply grid_prices_length|split; [|split]].
  - intros k Hk. unfold prices, grid_prices. rewrite nth_py_range by exact Hk.
    rewrite grid_price_Fin. eexists. split; [reflexivity|].
    apply Qabs_Qle_condition.
    destruct (round_q_error (l + inject_Z (Z.of_nat k) * g) 2 ltac:(lia)) as [A B].
    assert (E : (1 # 2) / inject_Z (10 ^ 2) == 1 # 200) by reflexivity.
    rewrite E in A, B. split; lra.
  - apply grid_prices_le. lra.
  - apply grid_prices_lt.
Qed.

(** With a non-positive gap the rounded prices never increase. *)
Lemma grid_prices_sorted_desc (l g : Q) (n : Z) : g <= 0 ->
  Sorted (fun x y => fle y x = true) (grid_prices (Fin l) (Fin g) n).
Proof.
  intro Hg. rewrite grid_prices_map. apply Sorted_map_seq. intro k.
  rewrite fle_Fin. apply round_q_mono; [lia|].
  rewrite inject_Z_succ. apply Qplus_le_compat; [lra|].
  apply Qle_trans with ((inject_Z (Z.of_nat k) + 0) * g); [|lra].
  rewrite !Qmult_plus_distr_l. lra.
Qed.

(** Every BUY level is related to every SELL level by a transitive
    relation the ladder is sorted by. *)
Lemma grid_buy_sell_cross (R : pyfloat -> pyfloat -> Prop) (lower gap : pyfloat) (n : Z) :
  (forall x y z, R x y -> R y z -> R x z) -> (1 <= n)%Z ->
  Sorted R (grid_prices lower gap n) ->
  let prices := grid_prices lower gap n in
  forall b s, In b (buy_prices prices n) -> In s (sell_prices prices n) -> R b s.
Proof.
  intros Htrans Hn Hsorted prices b s Hb Hs.
  pose proof (ladder_split prices n Hn (grid_prices_length lower gap n)) as Hsplit.
  unfold prices in Hsplit.
  apply Sorted_StronglySorted in Hsorted; [|exact Htrans].
  rewrite Hsplit in Hsorted.
  eapply StronglySorted_app_cross; [exact Hsorted|exact Hb|now right].
Qed.

(** no BUY level lies above a SELL level; with a gap above one cent
    every BUY level lies strictly below every SELL level. *)
Lemma grid_buy_below_sell (l g : Q) (n : Z) : 0 <= g -> (1 <= n)%Z ->
  let prices := grid_prices (Fin l) (Fin g) n in
  (forall b s, In b (buy_prices prices n) -> In s (sell_prices prices n) ->
     fle b s = true)
  /\ (1 # 100 < g -> forall b s, In b (buy_prices prices n) ->
       In s (sell_prices prices n) -> flt b s = true).
Proof.
  intros Hg Hn prices. split.
  - apply grid_buy_sell_cross; [exact fle_trans|exact Hn|now apply grid_prices_le].
  - intro Hg'.
    apply grid_buy_sell_cross; [exact flt_trans|exact Hn|now apply grid_prices_lt].
Qed.

(** ** Placement *)

Lemma emit_orders (e : event) (s : Sys) :
  (forall o b, e <> EvNewOrder o b) ->
  orders_of (trace (snd (emit e s))) = orders_of (trace s).
Proof.
  intro He. simpl. rewrite orders_of_app.
  destruct e; simpl; try (now rewrite app_nil_r). exfalso. eapply He. reflexivity.
Qed.

(** One leg: the order is always submitted and the loop always goes on. *)
Lemma place_leg_spec (sym side : string) (q p : pyfloat) (s : Sys) :
  exists s', place_leg sym side q p s = (Ok tt, s')
    /\ orders_of (trace s') = orders_of (trace s) ++ [limit_order sym side q p].
Proof.
  unfold place_leg, try_except, bind.
  destruct (new_order_spec (limit_order sym side q p) s) as [b [s1 [E T]]].
  rewrite E. destruct b; eexists; split; try reflexivity;
    simpl; rewrite orders_of_app, T, orders_of_app; simpl; now rewrite !app_nil_r.
Qed.

(** Whatever the exchange answers, a placement loop returns normally and
    has submitted one order per price, in order. *)
Lemma place_legs_spec (sym side : string) (q : pyfloat)
    (prices : list pyfloat) (s : Sys) :
  exists s', place_legs sym side q prices s = (Ok tt, s')
    /\ orders_of (trace s') = orders_of (trace s) ++ map (limit_order sym side q) prices.
Proof.
  revert s. induction prices as [|p ps IH]; intro s; cbn [place_legs map].
  - exists s. split; [reflexivity|]. now rewrite app_nil_r.
  - unfold bind at 1. destruct (place_leg_spec sym side q p s) as [s1 [E1 T1]].
    rewrite E1. destruct (IH s1) as [s2 [E2 T2]]. exists s2.
    split; [exact E2|]. rewrite T2, T1, <- app_assoc. reflexivity.
Qed.

(** C3: best effort. With the exchange answering [bs] to the legs in
    turn, the loop submits every leg in order, logs each failure and goes
    on to the next leg, returns normally, and consumes one answer per
    leg. *)
Theorem place_legs_best_effort (sym side : string) (q : pyfloat) (prices : list pyfloat)
    (bs rest : list bool) (s : Sys) :
  length bs = length prices -> w_orders (world s) = bs ++ rest ->
  place_legs sym side q prices s
  = (Ok tt, mkSys (set_orders (world s) rest)
                  (trace s ++ flat_map (leg_events sym side q) (combine prices bs))).
Proof.
  revert bs s. induction prices as [|p ps IH]; intros [|b bs] s Hl Ho; try discriminate.
  - cbn in Ho |- *. rewrite app_nil_r. destruct s as [[i t o f] tr]; cbn in *; now subst.
  - cbn [place_legs combine flat_map]. unfold bind at 1, place_leg, try_except, bind, new_order.
    rewrite Ho. cbn [app]. destruct b; mstep; unfold log, emit; cbn;
      rewrite IH with (bs := bs) by (cbn; auto); cbn; now rewrite <- !app_assoc.
Qed.

(** With at least two levels the gap division never raises. *)
Lemma grid_gap_defined (x : pyfloat) (n : Z) : (2 <= n)%Z ->
  exists g, fdiv x (of_Z (n - 1)) = Some g.
Proof.
  intro Hn. pose proof (inject_Z_pos (n - 1) ltac:(lia)) as Hd.
  unfold fdiv, of_Z. destruct (qeqb_spec (inject_Z (n - 1)) 0) as [E|_]; [lra|].
  destruct x; eexists; reflexivity.
Qed.

(** The ladder on any bounds: the gap is computed, then every BUY level
    and every SELL level is submitted, in that order. *)
Lemma place_ladder_spec (sym : string) (lower upper : pyfloat) (n : Z) (q : pyfloat)
    (g : pyfloat) (s : Sys) :
  fdiv (fsub upper lower) (of_Z (n - 1)) = Some g ->
  let prices := grid_prices lower g n in
  exists s', place_ladder sym lower upper n q s = (Ok tt, s')
    /\ orders_of (trace s') = orders_of (trace s)
         ++ map (limit_order sym "BUY" q) (buy_prices prices n)
         ++ map (limit_order sym "SELL" q) (sell_prices prices n).
Proof.
  intros Hg prices. unfold place_ladder, bind at 1, div_of.
  rewrite Hg. unfold ret. cbv beta iota zeta. fold prices. unfold bind.
  destruct (place_legs_spec sym "BUY" q (buy_prices prices n) s) as [s1 [E1 T1]].
  rewrite E1.
  destruct (place_legs_spec sym "SELL" q (sell_prices prices n) s1) as [s2 [E2 T2]].
  exists s2. split; [exact E2|]. rewrite T2, T1, app_assoc. reflexivity.
Qed.

Lemma place_ladder_orders (sym : string) (l u : Q) (n : Z) (q : pyfloat) (s : Sys) :
  (2 <= n)%Z ->
  let prices := grid_prices (Fin l) (Fin ((u - l) / inject_Z (n - 1))) n in
  exists s', place_ladder sym (Fin l) (Fin u) n q s = (Ok tt, s')
    /\ orders_of (trace s') = orders_of (trace s)
         ++ map (limit_order sym "BUY" q) (buy_prices prices n)
         ++ map (limit_order sym "SELL" q) (sell_prices prices n).
Proof.
  intros Hn. apply place_ladder_spec.
  pose proof (inject_Z_pos (n - 1) ltac:(lia)) as Hd.
  unfold fdiv, of_Z. simpl.
  destruct (qeqb_spec (inject_Z (n - 1)) 0); [lra|reflexivity].
Qed.

(** C19: [place_grid_orders] on validated bounds returns normally whatever
    the exchange answers, and submits exactly the BUY levels below the
    midpoint then the SELL levels above it: [num_grids - 1] orders. *)
Theorem place_grid_orders_spec (sym : string) (l u : Q) (n : Z) (q : pyfloat)
    (s : Sys) : (2 <= n)%Z ->
  let prices := grid_prices (Fin l) (Fin ((u - l) / inject_Z (n - 1))) n in
  exists s', GridOrders.place_grid_orders sym (Fin l) (Fin u) n q s = (Ok tt, s')
    /\ orders_of (trace s') = orders_of (trace s)
         ++ map (limit_order sym "BUY" q) (buy_prices prices n)
         ++ map (limit_order sym "SELL" q) (sell_prices prices n)
    /\ length (orders_of (trace s')) = (length (orders_of (trace s)) + Z.to_nat n - 1)%nat.
Proof.
  intros Hn prices. unfold GridOrders.place_grid_orders, bind at 1. cbn [log emit].
  unfold bind at 1.
  destruct (place_ladder_orders sym l u n q (mkSys (world s) (trace s ++ [EvLog INFO MsgStrategyStarted])) Hn)
    as [s1 [E1 T1]].
  fold prices in E1, T1. rewrite E1. eexists. split; [reflexivity|].
  assert (To : orders_of (trace (mkSys (world s1) (trace s1 ++ [EvLog INFO MsgStrategyFinished])))
               = orders_of (trace s) ++ map (limit_order sym "BUY" q) (buy_prices prices n)
                   ++ map (limit_order sym "SELL" q) (sell_prices prices n)).
  { simpl. rewrite orders_of_app, T1. simpl. rewrite orders_of_app. simpl.
    now rewrite !app_nil_r. }
  split; [exact To|]. rewrite To, !length_app, !length_map.
  destruct (ladder_count prices n ltac:(lia) (grid_prices_length _ _ n)) as [_ Hcount]. lia.
Qed.

(** C11: with the symbol let through by the first [exchange_info] answer, a
    nonzero market price [c] and the minimum notional [m] read from the
    second answer, the grid script decides by [grid_rule]: an invalid
    range, then fewer than two grids, then a non-positive quantity, then
    [c * quantity < m] reject, in that order; otherwise the arguments are
    returned as parsed. *)
Theorem grid_validate_spec (prog sym ls us ns qs cstr : string) (l u q m c : Q) (n : Z)
    (s : Sys) tq :
  parse_float ls = Some (Fin l) -> parse_float us = Some (Fin u) ->
  parse_int ns = Some n -> parse_float qs = Some (Fin q) ->
  symbol_passes (upper sym) s ->
  w_ticker (world s) = Some cstr :: tq -> parse_float cstr = Some (Fin c) -> ~ c == 0 ->
  min_notional_answer (upper sym) (hd None (tl (w_info (world s)))) = Fin m ->
  fst (GridOrders.validate_args [prog; sym; ls; us; ns; qs] s)
  = match grid_rule l u n q m c with
    | Some r => Exit r
    | None => Ok (upper sym, Fin l, Fin u, n, Fin q)
    end.
Proof.
  intros Hl Hu Hn Hq Hsym Ht Hc Hc0 Hm.
  unfold symbol_passes in Hsym. unfold min_notional_answer in Hm.
  unfold GridOrders.validate_args, grid_rule. cbn [length Nat.ltb Nat.leb nth].
  unfold_m. rewrite Hl, Hu, Hn, Hq. cbv beta iota zeta.
  assert (Hz : ftruthy (Fin c) = true) by (cbn; destruct (qeqb_spec c 0); tauto).
  revert Hsym Hm; destruct (w_info (world s)) as [|[i1|] iq]; mstep;
    try destruct iq as [|[i2|] iq']; mstep; intros Hsym Hm; try rewrite Hsym; mstep;
    unfold fge; rewrite !fle_Fin_b;
    destruct (qleb l 0), (qleb u 0), (qleb u l); mstep; try reflexivity;
    destruct (n <? 2)%Z; mstep; try reflexivity;
    destruct (qleb q 0); mstep; try reflexivity;
    rewrite Ht; mstep; rewrite Hc; mstep; rewrite Hz; mstep;
    repeat match goal with
           | |- context [find_min_notional ?a ?b] => destruct (find_min_notional a b); mstep
           | |- context [parse_float ?x] =>
               lazymatch x with cstr => fail | _ => destruct (parse_float x); mstep end
           end;
    unfold default_min_notional in *; subst; try (injection Hm as <-);
    rewrite fmul_Fin, flt_Fin_b; destruct (qltb (c * q) _); reflexivity.
Qed.

(** ** Witnesses on the spec's scenario: 90000 to 91000 in 5 levels *)

Lemma grid_ladder_partition_witness :
  (1 <= 5)%Z /\
  (let prices := grid_prices (Fin 90000) (Fin 250) 5 in
   prices = buy_prices prices 5 ++ nth (Z.to_nat (mid_index 5)) prices NaN
              :: sell_prices prices 5
   /\ length (buy_prices prices 5) = Z.to_nat (5 / 2)
   /\ (length (buy_prices prices 5) + length (sell_prices prices 5) + 1)%nat
      = Z.to_nat 5).
Proof. split; [lia|]. apply (grid_ladder_partition (Fin 90000) (Fin 250) 5). lia. Defined.

Lemma grid_levels_spec_witness :
  90000 < 91000 /\ (2 <= 5)%Z /\
  (let g := (91000 - 90000) / inject_Z (5 - 1) in
   let levels := map (grid_level (Fin 90000) (Fin g)) (py_range 5) in
   Sorted (fun x y => flt x y = true) levels
   /\ feq (nth 0 levels NaN) (Fin 90000) = true
   /\ feq (nth (Z.to_nat (5 - 1)) levels NaN) (Fin 91000) = true
   /\ (forall k, (S k < Z.to_nat 5)%nat ->
         feq (fsub (nth (S k) levels NaN) (nth k levels NaN)) (Fin g) = true)).
Proof.
  split; [reflexivity|]. split; [lia|].
  apply (grid_levels_spec 90000 91000 5); [reflexivity|lia].
Defined.

Lemma grid_prices_spec_witness :
  90000 < 91000 /\ (2 <= 5)%Z /\
  (let g := (91000 - 90000) / inject_Z (5 - 1) in
   let prices := grid_prices (Fin 90000) (Fin g) 5 in
   length prices = Z.to_nat 5
   /\ (forall k, (k < Z.to_nat 5)%nat -> exists p, nth k prices NaN = Fin p
         /\ Qabs (p - (90000 + inject_Z (Z.of_nat k) * g)) <= 1 # 200)
   /\ Sorted (fun x y => fle x y = true) prices
   /\ (1 # 100 < g -> Sorted (fun x y => flt x y = true) prices)).
Proof.
  split; [reflexivity|]. split; [lia|].
  apply (grid_prices_spec 90000 91000 5); [reflexivity|lia].
Defined.

(** Two BUY legs, the exchange refusing the second. *)
Lemma place_legs_best_effort_witness :
  let s := mkSys (mkWorld [] [] [true; false] []) [] in
  length [true; false] = length [Fin 90000; Fin 90250]
  /\ w_orders (world s) = [true; false] ++ []
  /\ place_legs "BTCUSDT" "BUY" (Fin (1 # 100)) [Fin 90000; Fin 90250] s
     = (Ok tt, mkSys (set_orders (world s) [])
                 (trace s ++ flat_map (leg_events "BTCUSDT" "BUY" (Fin (1 # 100)))
                               (combine [Fin 90000; Fin 90250] [true; false]))).
Proof.
  cbv zeta. split; [reflexivity|]. split; [reflexivity|].
  apply place_legs_best_effort; reflexivity.
Defined.

Lemma grid_buy_below_sell_witness :
  0 <= 250 /\ (1 <= 5)%Z /\
  (let prices := grid_prices (Fin 90000) (Fin 250) 5 in
   (forall b s, In b (buy_prices prices 5) -> In s (sell_prices prices 5) ->
      fle b s = true)
   /\ (1 # 100 < 250 -> forall b s, In b (buy_prices prices 5) ->
        In s (sell_prices prices 5) -> flt b s = true)).
Proof.
  split; [discriminate|]. split; [lia|].
  apply (grid_buy_below_sell 90000 250 5); [discriminate|lia].
Defined.

Lemma place_grid_orders_spec_witness :
  (2 <= 5)%Z /\
  (let prices := grid_prices (Fin 90000) (Fin ((91000 - 90000) / inject_Z (5 - 1))) 5 in
   exists s', GridOrders.place_grid_orders "BTCUSDT" (Fin 90000) (Fin 91000) 5
                (Fin (1 # 100)) (mkSys (mkWorld [] [] [true; false; true; true] []) []) = (Ok tt, s')
    /\ orders_of (trace s') = []
         ++ map (limit_order "BTCUSDT" "BUY" (Fin (1 # 100))) (buy_prices prices 5)
         ++ map (limit_order "BTCUSDT" "SELL" (Fin (1 # 100))) (sell_prices prices 5)
    /\ length (orders_of (trace s')) = (0 + Z.to_nat 5 - 1)%nat).
Proof.
  split; [lia|].
  apply (place_grid_orders_spec "BTCUSDT" 90000 91000 5 (Fin (1 # 100))
           (mkSys (mkWorld [] [] [true; false; true; true] []) [])).
  lia.
Defined.

(** The spec's scenario: 90000 to 91000 in 5 levels of 0.01 at a market
    price of 90500, with a minimum notional of 5. *)
Lemma grid_validate_spec_witness :
  let info := [mkSymbolInfo "BTCUSDT" [mkFilter "MIN_NOTIONAL" "5"]] in
  let s := mkSys (mkWorld [Some info; Some info] [Some "90500"] [] []) [] in
  parse_float "90000" = Some (Fin 90000) /\ parse_float "91000" = Some (Fin 91000)
  /\ parse_int "5" = Some 5%Z /\ parse_float "0.01" = Some (Fin (1 # 100))
  /\ symbol_passes (upper "btcusdt") s
  /\ w_ticker (world s) = Some "90500" :: [] /\ parse_float "90500" = Some (Fin 90500)
  /\ ~ 90500 == 0
  /\ min_notional_answer (upper "btcusdt") (hd None (tl (w_info (world s)))) = Fin 5
  /\ fst (GridOrders.validate_args ["grid_orders.py"; "btcusdt"; "90000"; "91000"; "5"; "0.01"] s)
     = match grid_rule 90000 91000 5 (1 # 100) 5 90500 with
       | Some r => Exit r
       | None => Ok (upper "btcusdt", Fin 90000, Fin 91000, 5%Z, Fin (1 # 100))
       end.
Proof.
  cbv zeta. repeat (split; [reflexivity|]). split; [discriminate|]. split; [reflexivity|].
  apply grid_validate_spec with (cstr := "90500") (tq := []); try reflexivity. discriminate.
Defined.
