(* ===== verification/Sentiment.v ===== *)
(** * The Fear & Greed index and the three-band policy

    [get_live_fear_greed_index] (identical in the two sentiment scripts)
    reads [data[0].value] and [data[0].value_classification]; any failure
    (transport, HTTP status, JSON shape, [int()] of the value) falls back
    to [(50, "Neutral")]. The value is used as it comes: it is not clamped
    to [0, 100].

    The policy is a step function of the index: [<= 25] is extreme fear,
    else [>= 75] extreme greed, else neutral. [grid_adjust] is the
    parameter change of [grid_orders_with_sentiment.py] and
    [twap_adjust] the chunk change of [twap_with_sentiment.py]. *)

From Stdlib Require Import QArith Lqa ZArith String List Bool Lia.
From S2P Require Import Prelude PyFloat PyStr Gateway.
Import ListNotations.
Local Open Scope string_scope.
Local Open Scope list_scope.

Module FearGreed.

(** [get_live_fear_greed_index()] *)
Definition get_live_fear_greed_index : M (Z * string) :=
  try_except
    (resp <- fng_request ;;
     let '(value_s, classification) := resp in
     value <- int_of value_s ;;
     ret (value, classification))
    (fun _ => warn WarnFearGreed ;; ret (50%Z, "Neutral")).

Inductive band := ExtremeFear | Neutral | ExtremeGreed.

(** [if index_value <= 25: ... elif index_value >= 75: ... else: ...] *)
Definition band_of (index_value : Z) : band :=
  if (index_value <=? 25)%Z then ExtremeFear
  else if (75 <=? index_value)%Z then ExtremeGreed
  else Neutral.

(** [place_grid_orders] of [grid_orders_with_sentiment.py], lines 147-158:
    the new [(lower_price, upper_price, quantity)]. *)
Definition grid_adjust (index_value : Z) (lower upper quantity : pyfloat)
  : pyfloat * pyfloat * pyfloat :=
  match band_of index_value with
  | ExtremeFear =>
      (fmul lower (Fin (98 # 100)), fmul upper (Fin (102 # 100)),
       fmul quantity (Fin (12 # 10)))
  | ExtremeGreed =>
      (fmul lower (Fin (101 # 100)), fmul upper (Fin (99 # 100)),
       fmul quantity (Fin (8 # 10)))
  | Neutral => (lower, upper, quantity)
  end.

(** [execute_twap] of [twap_with_sentiment.py], lines 149-160: the new
    [chunk_qty]; a side other than BUY or SELL is left unchanged. *)
Definition twap_adjust (index_value : Z) (side : string) (chunk_qty : pyfloat)
  : pyfloat :=
  match band_of index_value with
  | ExtremeFear =>
      if side =? "BUY" then fmul chunk_qty (Fin (125 # 100))
      else if side =? "SELL" then fmul chunk_qty (Fin (8 # 10))
      else chunk_qty
  | ExtremeGreed =>
      if side =? "BUY" then fmul chunk_qty (Fin (7 # 10))
      else if side =? "SELL" then fmul chunk_qty (Fin (13 # 10))
      else chunk_qty
  | Neutral => chunk_qty
  end.

End FearGreed.

Import FearGreed.

(** The three bands one at a time, for rewriting. *)
Lemma band_fear (v : Z) : (v <= 25)%Z -> band_of v = ExtremeFear.
Proof. intro H. unfold band_of. now rewrite (proj2 (Z.leb_le v 25) H). Qed.

Lemma band_greed (v : Z) : (75 <= v)%Z -> band_of v = ExtremeGreed.
Proof.
  intro H. unfold band_of. destruct (Z.leb_spec v 25); [lia|].
  now rewrite (proj2 (Z.leb_le 75 v) H).
Qed.

Lemma band_neutral (v : Z) : (25 < v < 75)%Z -> band_of v = Neutral.
Proof.
  intro H. unfold band_of. destruct (Z.leb_spec v 25); [lia|].
  destruct (Z.leb_spec 75 v); [lia|reflexivity].
Qed.

(** C6: the bands are a step function with thresholds 25 and 75, both
    inclusive. *)
Theorem band_of_spec (v : Z) :
  (band_of v = ExtremeFear <-> (v <= 25)%Z)
  /\ (band_of v = ExtremeGreed <-> (75 <= v)%Z)
  /\ (band_of v = Neutral <-> (25 < v < 75)%Z).
Proof.
  unfold band_of.
  destruct (Z.leb_spec v 25); destruct (Z.leb_spec 75 v);
    repeat split; intros; try lia; try discriminate; reflexivity.
Qed.

(** A successful read: one request, the parsed value with its label. *)
Lemma fear_greed_index_read (s : Sys) (vs lbl : string) (v : Z) fq :
  w_fng (world s) = Some (vs, lbl) :: fq -> parse_int vs = Some v ->
  get_live_fear_greed_index s
  = (Ok (v, lbl), mkSys (set_fng (world s) fq) (trace s ++ [EvFearGreed])).
Proof.
  intros Hf Hv. unfold get_live_fear_greed_index. unfold_m.
  rewrite Hf. mstep. now rewrite Hv.
Qed.

(** The greed band's chunk change for a BUY. *)
Lemma twap_adjust_greed_buy (v : Z) (c : Q) :
  (75 <= v)%Z -> twap_adjust v "BUY" (Fin c) = Fin (c * (7 # 10)).
Proof. intro Hv. unfold twap_adjust. now rewrite (band_greed v Hv). Qed.

(** C25: [get_live_fear_greed_index] makes one request and returns the
    parsed value with its classification. When the request fails or
    [int()] rejects the value, it warns and falls back to
    [(50, "Neutral")], which lies in the neutral band. A value that parses
    is used as it comes, without clamping to [0, 100]. *)
Theorem fear_greed_index_spec (s : Sys) :
  get_live_fear_greed_index s
  = match hd None (w_fng (world s)) with
    | Some (vs, c) =>
        match parse_int vs with
        | Some z => (Ok (z, c), mkSys (set_fng (world s) (tl (w_fng (world s))))
                                      (trace s ++ [EvFearGreed]))
        | None => (Ok (50%Z, "Neutral"), mkSys (set_fng (world s) (tl (w_fng (world s))))
                                              (trace s ++ [EvFearGreed; EvWarn WarnFearGreed]))
        end
    | None => (Ok (50%Z, "Neutral"), mkSys (set_fng (world s) (tl (w_fng (world s))))
                                          (trace s ++ [EvFearGreed; EvWarn WarnFearGreed]))
    end
  /\ band_of 50 = Neutral.
Proof.
  split; [|reflexivity].
  unfold get_live_fear_greed_index. unfold_m.
  destruct (w_fng (world s)) as [|[[vs c]|] q]; mstep; try (now rewrite <- app_assoc).
  destruct (parse_int vs); mstep; [reflexivity|now rewrite <- app_assoc].
Qed.

(** The greed band's adjustment on finite values. *)
Lemma grid_adjust_greed (v : Z) (l u q : Q) : (75 <= v)%Z ->
  grid_adjust v (Fin l) (Fin u) (Fin q)
  = (Fin (l * (101 # 100)), Fin (u * (99 # 100)), Fin (q * (8 # 10))).
Proof. intro Hv. unfold grid_adjust. now rewrite (band_greed v Hv). Qed.

(** C21: the grid adjustment by band, as spec section 4.5 fixes it. In
    fear the range widens by 2% on each side and stays a valid positive
    range, and the per-level quantity grows by 20%. In greed lower rises
    by 1%, upper falls by 1%, the quantity shrinks by 20%, and the range
    comes out inverted exactly when [99 * upper <= 101 * lower]. In the
    neutral band nothing changes. *)
Theorem grid_adjust_table (v : Z) (l u q : Q) :
  ((v <= 25)%Z ->
     grid_adjust v (Fin l) (Fin u) (Fin q)
     = (Fin (l * (98 # 100)), Fin (u * (102 # 100)), Fin (q * (12 # 10)))
     /\ (0 < l -> l < u -> 0 < l * (98 # 100) /\ l * (98 # 100) < u * (102 # 100)))
  /\ ((75 <= v)%Z ->
     grid_adjust v (Fin l) (Fin u) (Fin q)
     = (Fin (l * (101 # 100)), Fin (u * (99 # 100)), Fin (q * (8 # 10)))
     /\ (u * (99 # 100) <= l * (101 # 100) <-> 99 * u <= 101 * l))
  /\ ((25 < v < 75)%Z -> grid_adjust v (Fin l) (Fin u) (Fin q) = (Fin l, Fin u, Fin q)).
Proof.
  split; [|split]; intro Hv.
  - unfold grid_adjust. rewrite (band_fear v Hv). split; [reflexivity|]. intros; split; lra.
  - split; [now apply grid_adjust_greed|]. split; intro; lra.
  - unfold grid_adjust. now rewrite (band_neutral v Hv).
Qed.

(** C22: the chunk multipliers by band and side: x1.25 for BUY and x0.8 for
    SELL in extreme fear ([<= 25]), x0.7 for BUY and x1.3 for SELL in
    extreme greed ([>= 75]), none in between. *)
Theorem twap_adjust_table (v : Z) (c : Q) :
  ((v <= 25)%Z -> twap_adjust v "BUY" (Fin c) = Fin (c * (125 # 100))
                  /\ twap_adjust v "SELL" (Fin c) = Fin (c * (8 # 10)))
  /\ ((75 <= v)%Z -> twap_adjust v "BUY" (Fin c) = Fin (c * (7 # 10))
                    /\ twap_adjust v "SELL" (Fin c) = Fin (c * (13 # 10)))
  /\ ((25 < v < 75)%Z -> twap_adjust v "BUY" (Fin c) = Fin c
                        /\ twap_adjust v "SELL" (Fin c) = Fin c).
Proof.
  unfold twap_adjust. split; [|split]; intro H;
    [rewrite (band_fear v H)|rewrite (band_greed v H)|rewrite (band_neutral v H)];
    split; reflexivity.
Qed.

(** ** Witnesses *)

(** An index of 150 comes through unclamped and lands in the greed band. *)
Example fear_greed_unclamped :
  fst (get_live_fear_greed_index (mkSys (mkWorld [] [] [] [Some ("150", "Extreme Greed")]) []))
  = Ok (150%Z, "Extreme Greed") /\ band_of 150 = ExtremeGreed.
Proof. split; reflexivity. Qed.

