(* ===== verification/GridSentiment.v ===== *)
(** * The sentiment-adaptive grid: [src/src/advanced/grid_orders_with_sentiment.py]

    [validate_args] is the same code as in [grid_orders.py] (only the usage
    text differs). The Module holds its own copy of it, over the script's
    own helpers. [place_grid_orders] first reads the Fear & Greed index,
    then rescales [lower_price], [upper_price] and [quantity] with
    [FearGreed.grid_adjust] and runs the same ladder. The adjustment comes
    after the validation, so nothing re-checks [lower_price < upper_price]:
    in the greed band a range narrower than about 2% comes out inverted,
    and the ladder then buys above the prices it sells at. *)

From Stdlib Require Import QArith Qround Lqa ZArith String List Bool Lia Sorted.
From S2P Require Import Prelude PyFloat PyStr Gateway Grid Sentiment.
Import ListNotations.
Local Open Scope string_scope.
Local Open Scope list_scope.

Module GridSentimentOrders.
Import Ladder FearGreed.

(** The helpers of [grid_orders_with_sentiment.py] (lines 33-67):
    [is_valid_symbol], [get_current_price] and [get_min_notional], the
    same code as the shared ones of [Gateway]. *)
Definition is_valid_symbol := Gateway.is_valid_symbol.
Definition get_current_price := Gateway.get_current_price.
Definition get_min_notional := Gateway.get_min_notional.
#[global] Hint Unfold is_valid_symbol get_current_price get_min_notional : bot_unfold.

(** [validate_args(args)]: the code of [grid_orders.py] line for line
    (only the usage text differs), on this file's helpers. *)
Definition validate_args (args : list string)
  : M (string * pyfloat * pyfloat * Z * pyfloat) :=
  if (length args <? 6)%nat then exit_with RUsage else
  let sym := upper (nth 1 args "") in
  lower_price <- float_of (nth 2 args "") ;;
  upper_price <- float_of (nth 3 args "") ;;
  num_grids <- int_of (nth 4 args "") ;;
  quantity <- float_of (nth 5 args "") ;;
  valid <- is_valid_symbol sym ;;
  if negb valid then exit_with RInvalidSymbol else
  if fle lower_price (Fin 0) || fle upper_price (Fin 0)
     || fge lower_price upper_price then exit_with RInvalidRange else
  if (num_grids <? 2)%Z then exit_with RTooFewGrids else
  if fle quantity (Fin 0) then exit_with RNonPositive else
  let result := (sym, lower_price, upper_price, num_grids, quantity) in
  current_price <- get_current_price sym ;;
  match truthy_price current_price with
  | Some p =>
      min_notional <- get_min_notional sym ;;
      if flt (fmul p quantity) min_notional then exit_with RBelowMinNotional
      else ret result
  | None => warn WarnNotionalUnverified ;; ret result
  end.

(** [place_grid_orders(symbol, lower_price, upper_price, num_grids, quantity)] *)
Definition place_grid_orders (sym : string) (lower upper : pyfloat) (n : Z)
    (quantity : pyfloat) : M unit :=
  iv <- get_live_fear_greed_index ;;
  let '(index_value, _) := iv in
  let '(lower', upper', quantity') := grid_adjust index_value lower upper quantity in
  log INFO MsgStrategyStarted ;;
  place_ladder sym lower' upper' n quantity' ;;
  log INFO MsgStrategyFinished.

(** The entry point. *)
Definition main (args : list string) : M unit :=
  v <- validate_args args ;;
  let '(sym, lower, upper, n, quantity) := v in
  place_grid_orders sym lower upper n quantity.

End GridSentimentOrders.

(** A world whose index reads 80 (extreme greed) and whose exchange
    acknowledges four orders. *)
Definition greed_world : World :=
  mkWorld [] [] [true; true; true; true] [Some ("80", "Extreme Greed")].

Import Ladder FearGreed GridSentimentOrders.

Lemma gap_nonpos (a b : Q) (n : Z) : (2 <= n)%Z -> b <= a ->
  (b - a) / inject_Z (n - 1) <= 0.
Proof.
  intros Hn Hab. pose proof (inject_Z_pos (n - 1) ltac:(lia)) as Hd.
  apply Qle_trans with (0 / inject_Z (n - 1)).
  - apply Qdiv_le_mono; lra.
  - unfold Qdiv. rewrite Qmult_0_l. apply Qle_refl.
Qed.

(** C20: with a greed reading and a validated range narrower than the
    adjustment ([99 * upper <= 101 * lower]), the sentiment grid still
    returns normally and submits its BUY legs at prices no lower than any
    of its SELL legs: it buys high and sells low. *)
Theorem greed_grid_buys_above_sells (sym : string) (l u q : Q) (n : Z)
    (v : Z) (c : string) (s s1 : Sys) :
  get_live_fear_greed_index s = (Ok (v, c), s1) ->
  (75 <= v)%Z -> (2 <= n)%Z -> 99 * u <= 101 * l ->
  let l' := l * (101 # 100) in
  let u' := u * (99 # 100) in
  let prices := grid_prices (Fin l') (Fin ((u' - l') / inject_Z (n - 1))) n in
  exists s', GridSentimentOrders.place_grid_orders sym (Fin l) (Fin u) n (Fin q) s
             = (Ok tt, s')
    /\ orders_of (trace s') = orders_of (trace s1) ++
         map (limit_order sym "BUY" (Fin (q * (8 # 10)))) (buy_prices prices n)
         ++ map (limit_order sym "SELL" (Fin (q * (8 # 10)))) (sell_prices prices n)
    /\ (forall b x, In b (buy_prices prices n) -> In x (sell_prices prices n) ->
          fle x b = true).
Proof.
  intros Hfg Hv Hn Hlu l' u' prices.
  pose proof (grid_adjust_greed v l u q Hv) as Hadj.
  unfold GridSentimentOrders.place_grid_orders, bind at 1. rewrite Hfg.
  cbv beta iota. rewrite Hadj. fold l' u'. unfold bind at 1. cbn [log emit].
  unfold bind at 1.
  destruct (place_ladder_orders sym l' u' n (Fin (q * (8 # 10)))
              (mkSys (world s1) (trace s1 ++ [EvLog INFO MsgStrategyStarted])) Hn)
    as [s2 [E2 T2]].
  fold prices in E2, T2. rewrite E2. eexists. split; [reflexivity|]. split.
  - simpl. rewrite orders_of_app, T2. simpl. rewrite orders_of_app. simpl.
    now rewrite !app_nil_r.
  - apply (grid_buy_sell_cross (fun x y => fle y x = true)).
    + intros x y z Hxy Hyz. eapply fle_trans; eassumption.
    + lia.
    + apply grid_prices_sorted_desc. apply gap_nonpos; [exact Hn|]. unfold l', u'. lra.
Qed.

(** ** Witnesses *)

Lemma greed_grid_buys_above_sells_witness :
  get_live_fear_greed_index (mkSys greed_world [])
    = (Ok (80%Z, "Extreme Greed"),
       mkSys (mkWorld [] [] [true; true; true; true] []) [EvFearGreed])
  /\ (75 <= 80)%Z /\ (2 <= 5)%Z /\ 99 * 101 <= 101 * 100 /\
  (let l' := 100 * (101 # 100) in
   let u' := 101 * (99 # 100) in
   let prices := grid_prices (Fin l') (Fin ((u' - l') / inject_Z (5 - 1))) 5 in
   exists s', GridSentimentOrders.place_grid_orders "BTCUSDT" (Fin 100) (Fin 101) 5
                (Fin 1) (mkSys greed_world []) = (Ok tt, s')
    /\ orders_of (trace s') = orders_of [EvFearGreed] ++
         map (limit_order "BTCUSDT" "BUY" (Fin (1 * (8 # 10)))) (buy_prices prices 5)
         ++ map (limit_order "BTCUSDT" "SELL" (Fin (1 * (8 # 10)))) (sell_prices prices 5)
    /\ (forall b x, In b (buy_prices prices 5) -> In x (sell_prices prices 5) ->
          fle x b = true)).
Proof.
  split; [reflexivity|]. split; [lia|]. split; [lia|]. split; [discriminate|].
  apply (greed_grid_buys_above_sells "BTCUSDT" 100 101 1 5 80 "Extreme Greed"
           (mkSys greed_world [])
           (mkSys (mkWorld [] [] [true; true; true; true] []) [EvFearGreed]));
    [reflexivity|lia|lia|discriminate].
Defined.

(** On that run the BUY legs go to 101.00 and 100.75 and the SELL legs to
    100.24 and 99.99. *)
Example greed_grid_run :
  map (fun o => o_price o)
      (orders_of (trace (snd (GridSentimentOrders.place_grid_orders "BTCUSDT"
                                 (Fin 100) (Fin 101) 5 (Fin 1) (mkSys greed_world [])))))
  = [Some (Fin (10100 # 100)); Some (Fin (10075 # 100));
     Some (Fin (10024 # 100)); Some (Fin (9999 # 100))].
Proof. vm_compute. reflexivity. Qed.

