(* ===== verification/Twap.v ===== *)
(** * The TWAP slicer: [src/src/advanced/twap.py]

    [validate_args] checks side, positivity of the total, of the slice
    count and of the interval, the symbol, then the notional of one chunk
    [total_qty / num_slices]. [execute_twap] runs [for i in range(1,
    num_slices + 1)]: each slice fetches the price ([continue] without
    waiting when it is unavailable), submits a MARKET order of
    [round(chunk_qty, 6)], and sleeps [interval] seconds unless it is the
    last index; an order failure is logged and [break]s the loop. The
    loop is [twap_loop] over the list of indices, and each iteration
    [twap_slice] returns whether the loop goes on. *)

From Stdlib Require Import QArith Qround Lqa ZArith String List Bool Lia.
From S2P Require Import Prelude PyFloat PyStr Gateway.
Import ListNotations.
Local Open Scope string_scope.
Local Open Scope list_scope.

Module TwapOrders.

(** The helpers of [twap.py] (lines 33-67): [is_valid_symbol],
    [get_current_price] and [get_min_notional], the same code as the
    shared ones of [Gateway]. *)
Definition is_valid_symbol := Gateway.is_valid_symbol.
Definition get_current_price := Gateway.get_current_price.
Definition get_min_notional := Gateway.get_min_notional.
#[global] Hint Unfold is_valid_symbol get_current_price get_min_notional : bot_unfold.

(** [range(1, num_slices + 1)] *)
Definition slice_indices (n : Z) : list Z := map Z.of_nat (seq 1 (Z.to_nat n)).

Definition market_order (sym side : string) (quantity : pyfloat) : Order :=
  mkOrder sym side MARKET None quantity None None.

(** What the body of the loop does next: [continue] (or falls through)
    or [break]. *)
Inductive loop_ctl := Continue | Break.

(** [validate_args(args)]: returns
    [(symbol, side, total_qty, num_slices, interval, chunk_qty)]. *)
Definition validate_args (args : list string)
  : M (string * string * pyfloat * Z * Z * pyfloat) :=
  if (length args <? 6)%nat then exit_with RUsage else
  let sym := upper (nth 1 args "") in
  let side := upper (nth 2 args "") in
  total_qty <- float_of (nth 3 args "") ;;
  num_slices <- int_of (nth 4 args "") ;;
  interval <- int_of (nth 5 args "") ;;
  if negb ((side =? "BUY") || (side =? "SELL")) then exit_with RInvalidSide else
  if fle total_qty (Fin 0) || (num_slices <=? 0)%Z || (interval <=? 0)%Z
  then exit_with RNonPositive else
  valid <- is_valid_symbol sym ;;
  if negb valid then exit_with RInvalidSymbol else
  chunk_qty <- div_of total_qty (of_Z num_slices) ;;
  let result := (sym, side, total_qty, num_slices, interval, chunk_qty) in
  current_price <- get_current_price sym ;;
  match truthy_price current_price with
  | Some p =>
      min_notional <- get_min_notional sym ;;
      if flt (fmul p chunk_qty) min_notional then exit_with RChunkBelowMinNotional
      else ret result
  | None => warn WarnNotionalUnverified ;; ret result
  end.

(** One slice [i] of [num_slices]. *)
Definition twap_slice (sym side : string) (n interval : Z) (chunk_qty : pyfloat)
    (i : Z) : M loop_ctl :=
  try_except
    (current_price <- get_current_price sym ;;
     match truthy_price current_price with
     | None => warn WarnSliceSkipped ;; ret Continue
     | Some _ =>
         new_order (market_order sym side (fround chunk_qty 6)) ;;
         log INFO MsgOrderPlaced ;;
         log INFO MsgOrderResponse ;;
         (if (i <? n)%Z then sleep interval else ret tt) ;;
         ret Continue
     end)
    (fun _ => log ERROR MsgOrderFailed ;; ret Break).

(** The [for] loop over the remaining indices. *)
Fixpoint twap_loop (sym side : string) (n interval : Z) (chunk_qty : pyfloat)
    (indices : list Z) : M unit :=
  match indices with
  | [] => ret tt
  | i :: rest =>
      ctl <- twap_slice sym side n interval chunk_qty i ;;
      match ctl with
      | Continue => twap_loop sym side n interval chunk_qty rest
      | Break => ret tt
      end
  end.

(** [execute_twap(symbol, side, total_qty, num_slices, interval, chunk_qty)] *)
Definition execute_twap (sym side : string) (total_qty : pyfloat) (n interval : Z)
    (chunk_qty : pyfloat) : M unit :=
  log INFO MsgStrategyStarted ;;
  twap_loop sym side n interval chunk_qty (slice_indices n) ;;
  log INFO MsgStrategyFinished.

(** The entry point. *)
Definition main (args : list string) : M unit :=
  v <- validate_args args ;;
  let '(sym, side, total_qty, n, interval, chunk_qty) := v in
  execute_twap sym side total_qty n interval chunk_qty.

End TwapOrders.

Import TwapOrders.

(** ** One slice *)

(** The decision of the TWAP script's checks on finite values once the
    symbol is let through: the side, the positivity of the total, the
    slice count and the interval, then the market price [c] times the
    chunk [total / num_slices] against the minimum notional [m]. *)
Definition twap_rule (side : string) (t : Q) (n iv : Z) (m c : Q) : option reason :=
  if negb ((side =? "BUY") || (side =? "SELL")) then Some RInvalidSide
  else if qleb t 0 || (n <=? 0)%Z || (iv <=? 0)%Z then Some RNonPositive
  else if qltb (c * (t / inject_Z n)) m then Some RChunkBelowMinNotional
  else None.

(** A price answer the slice can use: it parses and is not zero. *)
Definition usable_price (pstr : string) : bool :=
  match parse_float pstr with Some p => ftruthy p | None => false end.

(** A ticker answer the slice skips: the call raised or the price is not
    usable. *)
Definition unusable (r : option string) : bool :=
  match r with Some pstr => negb (usable_price pstr) | None => true end.

(** A slice whose price is available submits its order; it goes on when
    the order is acknowledged and sleeps unless it is the last index. *)
Lemma twap_slice_priced (sym side : string) (n interval : Z) (chunk : pyfloat) (i : Z)
    (s : Sys) (pstr : string) tq :
  w_ticker (world s) = Some pstr :: tq -> usable_price pstr = true ->
  let b := hd false (w_orders (world s)) in
  exists s', twap_slice sym side n interval chunk i s
             = (Ok (if b then Continue else Break), s')
    /\ w_ticker (world s') = tq /\ w_orders (world s') = tl (w_orders (world s))
    /\ orders_of (trace s') = orders_of (trace s) ++ [market_order sym side (fround chunk 6)]
    /\ sleeps_of (trace s') = sleeps_of (trace s)
                              ++ (if b && (i <? n)%Z then [interval] else []).
Proof.
  intros Ht Hu. cbv zeta. unfold usable_price in Hu.
  destruct (parse_float pstr) as [p|] eqn:Hp; [|discriminate].
  unfold twap_slice. unfold_m. rewrite Ht. cbn. rewrite Hp. cbn. rewrite Hu. cbn.
  destruct (w_orders (world s)) as [|[|] oq] eqn:Ho; [|destruct (i <? n)%Z|]; cbn; eexists;
    (split; [reflexivity|]); cbn; rewrite ?Ho; (split; [reflexivity|]); (split; [reflexivity|]);
    rewrite ?orders_of_app, ?sleeps_of_app; cbn; rewrite ?app_nil_r; split; reflexivity.
Qed.

(** A slice whose price is unavailable (the call raises, the answer does
    not parse, or it is zero) submits nothing and does not sleep: the loop
    goes on at once. *)
Lemma twap_slice_skipped (sym side : string) (n interval : Z) (chunk : pyfloat) (i : Z)
    (s : Sys) :
  match hd None (w_ticker (world s)) with
  | Some pstr => usable_price pstr = false
  | None => True
  end ->
  exists s', twap_slice sym side n interval chunk i s = (Ok Continue, s')
    /\ w_ticker (world s') = tl (w_ticker (world s))
    /\ w_orders (world s') = w_orders (world s)
    /\ orders_of (trace s') = orders_of (trace s)
    /\ sleeps_of (trace s') = sleeps_of (trace s).
Proof.
  unfold twap_slice. unfold_m.
  destruct (w_ticker (world s)) as [|[pstr|] tq]; cbn;
    [intros _| unfold usable_price; destruct (parse_float pstr) as [p|]; cbn;
       [intros Hno; rewrite Hno; cbn|intros _]|intros _];
    eexists; (split; [reflexivity|]); cbn; (split; [reflexivity|]); (split; [reflexivity|]);
    rewrite ?orders_of_app, ?sleeps_of_app; cbn; rewrite ?app_nil_r; split; reflexivity.
Qed.

(** ** The loop *)

(** Which slice lemma applies: the next price answer is usable or not. *)
Lemma slice_cases (s : Sys) :
  (exists pstr tq, w_ticker (world s) = Some pstr :: tq /\ usable_price pstr = true)
  \/ match hd None (w_ticker (world s)) with
     | Some pstr => usable_price pstr = false
     | None => True
     end.
Proof.
  destruct (w_ticker (world s)) as [|[pstr|] tq]; cbn; auto.
  destruct (usable_price pstr) eqn:E; [left; eauto|right; reflexivity].
Qed.

(** Every slice returns [Continue] or [Break]: it submits at most one
    order of the rounded chunk, sleeps at most once and only after an
    order and below [num_slices], and breaks only after an order. *)
Lemma twap_slice_effect (sym side : string) (n interval : Z) (chunk : pyfloat) (i : Z)
    (s : Sys) :
  exists ctl s' k j, twap_slice sym side n interval chunk i s = (Ok ctl, s')
    /\ orders_of (trace s') = orders_of (trace s)
                              ++ repeat (market_order sym side (fround chunk 6)) k
    /\ sleeps_of (trace s') = sleeps_of (trace s) ++ repeat interval j
    /\ (k <= 1)%nat /\ (j <= k)%nat /\ (j <= if (i <? n)%Z then 1 else 0)%nat
    /\ (ctl = Break -> k = 1%nat).
Proof.
  destruct (slice_cases s) as [[pstr [tq [Ht Hu]]]|Hno].
  - destruct (twap_slice_priced sym side n interval chunk i s pstr tq Ht Hu)
      as [s1 [E1 [_ [_ [O1 S1]]]]].
    exists (if hd false (w_orders (world s)) then Continue else Break), s1, 1%nat,
      (if hd false (w_orders (world s)) && (i <? n)%Z then 1 else 0)%nat.
    rewrite O1, S1. destruct (hd false (w_orders (world s))), (i <? n)%Z; cbn;
      repeat split; first [assumption | reflexivity | lia | discriminate].
  - destruct (twap_slice_skipped sym side n interval chunk i s Hno)
      as [s1 [E1 [_ [_ [O1 S1]]]]].
    exists Continue, s1, 0%nat, 0%nat. rewrite O1, S1, !app_nil_r.
    repeat split; first [assumption | reflexivity | lia | discriminate].
Qed.

(** Over any list of indices and any world, the loop returns normally,
    submits at most one order per index, all the same, and sleeps at most
    once per order and once per index below [num_slices]. *)
Lemma twap_loop_bounds (sym side : string) (n interval : Z) (chunk : pyfloat)
    (indices : list Z) (s : Sys) :
  exists s' k j, twap_loop sym side n interval chunk indices s = (Ok tt, s')
    /\ orders_of (trace s') = orders_of (trace s)
                              ++ repeat (market_order sym side (fround chunk 6)) k
    /\ sleeps_of (trace s') = sleeps_of (trace s) ++ repeat interval j
    /\ (k <= length indices)%nat /\ (j <= k)%nat
    /\ (j <= length (filter (fun i => (i <? n)%Z) indices))%nat.
Proof.
  revert s. induction indices as [|i rest IH]; intro s.
  - exists s, 0%nat, 0%nat. cbn. rewrite !app_nil_r. repeat split; lia.
  - cbn [twap_loop filter length]. unfold bind at 1.
    destruct (twap_slice_effect sym side n interval chunk i s)
      as [ctl [s1 [k1 [j1 [E1 [O1 [S1 [Hk1 [Hj1 [Hf1 _]]]]]]]]]].
    rewrite E1. destruct ctl; cbv beta iota.
    + destruct (IH s1) as [s2 [k [j [E2 [O2 [S2 [Hk [Hj Hf]]]]]]]].
      exists s2, (k1 + k)%nat, (j1 + j)%nat.
      rewrite O2, O1, S2, S1, <- !app_assoc, <- !repeat_app.
      destruct (i <? n)%Z; cbn [length] in *; repeat split; try assumption; lia.
    + exists s1, k1, j1. destruct (i <? n)%Z; cbn [length];
        repeat split; first [assumption | lia].
Qed.

(** Every index but the last one is below [num_slices]. *)
Lemma slice_indices_filter (n : Z) :
  length (filter (fun i => (i <? n)%Z) (slice_indices n)) = (Z.to_nat n - 1)%nat.
Proof.
  unfold slice_indices. destruct (Z.to_nat n) as [|m] eqn:En; [reflexivity|].
  rewrite seq_S, map_app, filter_app. cbn [map filter].
  replace (Z.of_nat (1 + m) <? n)%Z with false by (symmetry; apply Z.ltb_ge; lia).
  rewrite filter_id_all, app_nil_r, length_map, length_seq; [lia|].
  intros x Hx. apply in_map_iff in Hx. destruct Hx as [k [<- Hk]].
  apply in_seq in Hk. apply Z.ltb_lt. lia.
Qed.

Lemma slice_indices_length (n : Z) : length (slice_indices n) = Z.to_nat n.
Proof. unfold slice_indices. now rewrite length_map, length_seq. Qed.

(** With usable prices and acknowledged orders for every index, the loop
    submits one order per index and sleeps after each index below
    [num_slices]. *)
Lemma twap_loop_all_acked (sym side : string) (n interval : Z) (chunk : pyfloat)
    (indices : list Z) (ps : list string) tq oq (s : Sys) :
  w_ticker (world s) = map Some ps ++ tq -> length ps = length indices ->
  forallb usable_price ps = true ->
  w_orders (world s) = repeat true (length indices) ++ oq ->
  exists s', twap_loop sym side n interval chunk indices s = (Ok tt, s')
    /\ w_ticker (world s') = tq /\ w_orders (world s') = oq
    /\ orders_of (trace s') = orders_of (trace s)
         ++ repeat (market_order sym side (fround chunk 6)) (length indices)
    /\ sleeps_of (trace s') = sleeps_of (trace s)
         ++ repeat interval (length (filter (fun i => (i <? n)%Z) indices)).
Proof.
  revert ps s. induction indices as [|i rest IH]; intros ps s Ht Hl Hu Ho.
  - destruct ps; [|discriminate]. exists s. cbn in *. rewrite !app_nil_r.
    repeat split; assumption.
  - destruct ps as [|pstr ps]; [discriminate|]. cbn in Ht, Hl, Hu, Ho.
    apply andb_prop in Hu as [Hu1 Hu2].
    destruct (twap_slice_priced sym side n interval chunk i s pstr (map Some ps ++ tq) Ht Hu1)
      as [s1 [E1 [T1 [W1 [O1 S1]]]]].
    rewrite Ho in E1, W1, S1. cbn in E1, W1, S1.
    cbn [twap_loop]. unfold bind at 1. rewrite E1. cbv beta iota.
    destruct (IH ps s1 T1 ltac:(lia) Hu2 W1) as [s2 [E2 [T2 [W2 [O2 S2]]]]].
    exists s2. rewrite O2, O1, S2, S1, <- !app_assoc.
    cbn [filter]. destruct (i <? n)%Z; cbn; repeat split; first [assumption|reflexivity].
Qed.

(** When the order of index [i] fails after [length pre] acknowledged
    ones, the loop submits [length pre + 1] orders, sleeps after each
    acknowledged index below [num_slices], and stops: no later price is
    fetched and no later order is sent. *)
Lemma twap_loop_abort (sym side : string) (n interval : Z) (chunk : pyfloat)
    (pre : list Z) (i : Z) (post : list Z) (ps : list string) tq oq (s : Sys) :
  w_ticker (world s) = map Some ps ++ tq -> length ps = S (length pre) ->
  forallb usable_price ps = true ->
  w_orders (world s) = repeat true (length pre) ++ false :: oq ->
  exists s', twap_loop sym side n interval chunk (pre ++ i :: post) s = (Ok tt, s')
    /\ w_ticker (world s') = tq /\ w_orders (world s') = oq
    /\ orders_of (trace s') = orders_of (trace s)
         ++ repeat (market_order sym side (fround chunk 6)) (S (length pre))
    /\ sleeps_of (trace s') = sleeps_of (trace s)
         ++ repeat interval (length (filter (fun i => (i <? n)%Z) pre)).
Proof.
  revert ps s. induction pre as [|j rest IH]; intros ps s Ht Hl Hu Ho.
  - destruct ps as [|pstr [|]]; try discriminate. cbn in Ht, Hu, Ho.
    rewrite andb_true_r in Hu.
    destruct (twap_slice_priced sym side n interval chunk i s pstr tq Ht Hu)
      as [s1 [E1 [T1 [W1 [O1 S1]]]]].
    rewrite Ho in E1, W1, S1. cbn in E1, W1, S1.
    cbn [app twap_loop]. unfold bind at 1. rewrite E1. cbv beta iota.
    exists s1. rewrite O1, S1. cbn. rewrite ?app_nil_r. repeat split; first [assumption|reflexivity].
  - destruct ps as [|pstr ps]; [discriminate|]. cbn in Ht, Hl, Hu, Ho.
    apply andb_prop in Hu as [Hu1 Hu2].
    destruct (twap_slice_priced sym side n interval chunk j s pstr (map Some ps ++ tq) Ht Hu1)
      as [s1 [E1 [T1 [W1 [O1 S1]]]]].
    rewrite Ho in E1, W1, S1. cbn in E1, W1, S1.
    cbn [app twap_loop]. unfold bind at 1. rewrite E1. cbv beta iota.
    destruct (IH ps s1 T1 ltac:(lia) Hu2 W1) as [s2 [E2 [T2 [W2 [O2 S2]]]]].
    exists s2. rewrite O2, O1, S2, S1, <- !app_assoc.
    cbn [filter]. destruct (j <? n)%Z; cbn; repeat split; first [assumption|reflexivity].
Qed.

(** ** [execute_twap] *)

Lemma execute_twap_loop (sym side : string) (total : pyfloat) (n interval : Z)
    (chunk : pyfloat) (s s2 : Sys) :
  twap_loop sym side n interval chunk (slice_indices n)
    (mkSys (world s) (trace s ++ [EvLog INFO MsgStrategyStarted])) = (Ok tt, s2) ->
  execute_twap sym side total n interval chunk s
  = (Ok tt, mkSys (world s2) (trace s2 ++ [EvLog INFO MsgStrategyFinished])).
Proof. intro H. unfold execute_twap, bind, log, emit. cbn. rewrite H. reflexivity. Qed.

Lemma log_observations (t : list event) (lvl : log_level) (m : log_msg) :
  orders_of (t ++ [EvLog lvl m]) = orders_of t /\ sleeps_of (t ++ [EvLog lvl m]) = sleeps_of t.
Proof. rewrite orders_of_app, sleeps_of_app. cbn. now rewrite !app_nil_r. Qed.

(** C17: in every world [execute_twap] terminates normally (an order
    failure is caught and ends the loop), submits at most [num_slices]
    orders, all of [round(chunk_qty, 6)], and sleeps at most
    [num_slices - 1] times and never more often than it ordered. *)
Theorem execute_twap_bounds (sym side : string) (total : pyfloat) (n interval : Z)
    (chunk : pyfloat) (s : Sys) :
  exists s' k j, execute_twap sym side total n interval chunk s = (Ok tt, s')
    /\ orders_of (trace s') = orders_of (trace s)
                              ++ repeat (market_order sym side (fround chunk 6)) k
    /\ sleeps_of (trace s') = sleeps_of (trace s) ++ repeat interval j
    /\ (k <= Z.to_nat n)%nat /\ (j <= Z.to_nat n - 1)%nat /\ (j <= k)%nat.
Proof.
  destruct (twap_loop_bounds sym side n interval chunk (slice_indices n)
              (mkSys (world s) (trace s ++ [EvLog INFO MsgStrategyStarted])))
    as [s2 [k [j [E [O [S [Hk [Hj Hf]]]]]]]].
  exists (mkSys (world s2) (trace s2 ++ [EvLog INFO MsgStrategyFinished])), k, j.
  rewrite (execute_twap_loop sym side total n interval chunk s s2 E).
  rewrite slice_indices_length in Hk. rewrite slice_indices_filter in Hf.
  cbn [trace] in *. destruct (log_observations (trace s2) INFO MsgStrategyFinished) as [L1 L2].
  destruct (log_observations (trace s) INFO MsgStrategyStarted) as [L3 L4].
  rewrite L1, L2, O, S, L3, L4. repeat split; first [reflexivity|lia].
Qed.

(** The run in which every slice finds a usable price and every order is
    acknowledged. *)
Lemma execute_twap_acked (sym side : string) (total : pyfloat) (n interval : Z)
    (chunk : pyfloat) (ps : list string) tq oq (s : Sys) :
  w_ticker (world s) = map Some ps ++ tq -> length ps = Z.to_nat n ->
  forallb usable_price ps = true ->
  w_orders (world s) = repeat true (Z.to_nat n) ++ oq ->
  exists s', execute_twap sym side total n interval chunk s = (Ok tt, s')
    /\ orders_of (trace s') = orders_of (trace s)
         ++ repeat (market_order sym side (fround chunk 6)) (Z.to_nat n)
    /\ sleeps_of (trace s') = sleeps_of (trace s) ++ repeat interval (Z.to_nat n - 1).
Proof.
  intros Ht Hl Hu Ho.
  rewrite <- (slice_indices_length n) in Hl, Ho.
  destruct (twap_loop_all_acked sym side n interval chunk (slice_indices n) ps tq oq
              (mkSys (world s) (trace s ++ [EvLog INFO MsgStrategyStarted])) Ht Hl Hu Ho)
    as [s2 [E [_ [_ [O S]]]]].
  exists (mkSys (world s2) (trace s2 ++ [EvLog INFO MsgStrategyFinished])).
  rewrite (execute_twap_loop sym side total n interval chunk s s2 E).
  rewrite slice_indices_length in O. rewrite slice_indices_filter in S.
  cbn [trace] in *. destruct (log_observations (trace s2) INFO MsgStrategyFinished) as [L1 L2].
  destruct (log_observations (trace s) INFO MsgStrategyStarted) as [L3 L4].
  rewrite L1, L2, O, S, L3, L4. repeat split.
Qed.

(** C16: when every slice finds a usable price and every order is
    acknowledged, [execute_twap] submits exactly [num_slices] orders of
    [round(chunk_qty, 6)] and sleeps [num_slices - 1] times. *)
Theorem execute_twap_all_acked (sym side : string) (total : pyfloat) (n interval : Z)
    (chunk : pyfloat) (ps : list string) tq oq (s : Sys) :
  w_ticker (world s) = map Some ps ++ tq -> length ps = Z.to_nat n ->
  forallb usable_price ps = true ->
  w_orders (world s) = repeat true (Z.to_nat n) ++ oq ->
  exists s', execute_twap sym side total n interval chunk s = (Ok tt, s')
    /\ orders_of (trace s') = orders_of (trace s)
         ++ repeat (market_order sym side (fround chunk 6)) (Z.to_nat n)
    /\ sleeps_of (trace s') = sleeps_of (trace s) ++ repeat interval (Z.to_nat n - 1).
Proof. exact (execute_twap_acked sym side total n interval chunk ps tq oq s). Qed.

Lemma firstn_slice_indices (n : Z) (k : nat) :
  firstn k (slice_indices n) = map Z.of_nat (seq 1 (Nat.min k (Z.to_nat n))).
Proof. unfold slice_indices. now rewrite firstn_map, firstn_seq. Qed.

(** C4: an order failure is fatal to the run. When slice [k + 1] fails
    after [k] acknowledged slices ([k < num_slices]), [execute_twap]
    submits exactly [k + 1] orders, sleeps [k] times, and fetches no
    further price: the remaining slices are abandoned. *)
Theorem execute_twap_abort (sym side : string) (total : pyfloat) (n interval : Z)
    (chunk : pyfloat) (k : nat) (ps : list string) tq oq (s : Sys) :
  (k < Z.to_nat n)%nat ->
  w_ticker (world s) = map Some ps ++ tq -> length ps = S k ->
  forallb usable_price ps = true ->
  w_orders (world s) = repeat true k ++ false :: oq ->
  exists s', execute_twap sym side total n interval chunk s = (Ok tt, s')
    /\ w_ticker (world s') = tq
    /\ orders_of (trace s') = orders_of (trace s)
         ++ repeat (market_order sym side (fround chunk 6)) (S k)
    /\ sleeps_of (trace s') = sleeps_of (trace s) ++ repeat interval k.
Proof.
  intros Hk Ht Hl Hu Ho.
  pose proof (firstn_nth_skipn 0%Z (slice_indices n) k ltac:(rewrite slice_indices_length; lia))
    as Hsplit.
  set (pre := firstn k (slice_indices n)) in Hsplit.
  assert (Hpre : length pre = k).
  { unfold pre. rewrite length_firstn, slice_indices_length. lia. }
  assert (Hfil : filter (fun i => (i <? n)%Z) pre = pre).
  { apply filter_id_all. intros x Hx. unfold pre in Hx.
    rewrite firstn_slice_indices in Hx. apply in_map_iff in Hx.
    destruct Hx as [m [<- Hm]]. apply in_seq in Hm. apply Z.ltb_lt. lia. }
  rewrite <- Hpre in Hl, Ho.
  destruct (twap_loop_abort sym side n interval chunk pre (nth k (slice_indices n) 0%Z)
              (skipn (S k) (slice_indices n)) ps tq oq
              (mkSys (world s) (trace s ++ [EvLog INFO MsgStrategyStarted])) Ht Hl Hu Ho)
    as [s2 [E [T [_ [O S]]]]].
  rewrite <- Hsplit in E.
  exists (mkSys (world s2) (trace s2 ++ [EvLog INFO MsgStrategyFinished])).
  rewrite (execute_twap_loop sym side total n interval chunk s s2 E).
  rewrite Hfil, Hpre in S. rewrite Hpre in O.
  cbn [trace world] in *. destruct (log_observations (trace s2) INFO MsgStrategyFinished) as [L1 L2].
  destruct (log_observations (trace s) INFO MsgStrategyStarted) as [L3 L4].
  rewrite L1, L2, O, S, L3, L4. repeat split. exact T.
Qed.

(** ** The chunk *)

(** [chunk_qty = total_qty / num_slices] does not raise for a positive
    slice count. *)
Lemma twap_chunk_Fin (t : Q) (n : Z) (s : Sys) : (0 < n)%Z ->
  div_of (Fin t) (of_Z n) s = (Ok (Fin (t / inject_Z n)), s).
Proof.
  intro Hn. assert (Hd : 0 < inject_Z n) by (change 0 with (inject_Z 0); now rewrite <- Zlt_Qlt).
  unfold div_of, fdiv, of_Z. destruct (qeqb_spec (inject_Z n) 0); [lra|reflexivity].
Qed.

(** Over indices whose price answers are all unusable, the loop skips
    every slice without submitting or sleeping. *)
Lemma twap_loop_all_skipped (sym side : string) (n interval : Z) (chunk : pyfloat)
    (indices : list Z) (rs : list (option string)) tq (s : Sys) :
  w_ticker (world s) = rs ++ tq -> length rs = length indices ->
  forallb unusable rs = true ->
  exists s', twap_loop sym side n interval chunk indices s = (Ok tt, s')
    /\ w_ticker (world s') = tq /\ w_orders (world s') = w_orders (world s)
    /\ orders_of (trace s') = orders_of (trace s)
    /\ sleeps_of (trace s') = sleeps_of (trace s).
Proof.
  revert rs s. induction indices as [|i rest IH]; intros rs s Ht Hl Hu.
  - destruct rs; [|discriminate]. exists s. repeat split; assumption.
  - destruct rs as [|r rs]; [discriminate|]. cbn in Hl, Hu.
    apply andb_prop in Hu as [Hu1 Hu2].
    assert (Hno : match hd None (w_ticker (world s)) with
                  | Some pstr => usable_price pstr = false
                  | None => True
                  end).
    { rewrite Ht. destruct r as [pstr|]; cbn in *; [|exact I].
      now apply negb_true_iff. }
    destruct (twap_slice_skipped sym side n interval chunk i s Hno)
      as [s1 [E1 [T1 [W1 [O1 S1]]]]].
    rewrite Ht in T1. cbn in T1.
    cbn [twap_loop]. unfold bind at 1. rewrite E1. cbv beta iota.
    destruct (IH rs s1 T1 ltac:(lia) Hu2) as [s2 [E2 [T2 [W2 [O2 S2]]]]].
    exists s2. rewrite W2, W1, O2, O1, S2, S1. repeat split; assumption.
Qed.

(** C24: a slice without a usable price is skipped, not retried and not
    waited for: when no price is usable the run fetches exactly
    [num_slices] prices, submits nothing and never sleeps. *)
Theorem execute_twap_no_price (sym side : string) (total : pyfloat) (n interval : Z)
    (chunk : pyfloat) (rs : list (option string)) tq (s : Sys) :
  w_ticker (world s) = rs ++ tq -> length rs = Z.to_nat n ->
  forallb unusable rs = true ->
  exists s', execute_twap sym side total n interval chunk s = (Ok tt, s')
    /\ w_ticker (world s') = tq
    /\ orders_of (trace s') = orders_of (trace s)
    /\ sleeps_of (trace s') = sleeps_of (trace s).
Proof.
  intros Ht Hl Hu. rewrite <- (slice_indices_length n) in Hl.
  destruct (twap_loop_all_skipped sym side n interval chunk (slice_indices n) rs tq
              (mkSys (world s) (trace s ++ [EvLog INFO MsgStrategyStarted])) Ht Hl Hu)
    as [s2 [E [T [_ [O S]]]]].
  exists (mkSys (world s2) (trace s2 ++ [EvLog INFO MsgStrategyFinished])).
  rewrite (execute_twap_loop sym side total n interval chunk s s2 E).
  cbn [trace world] in *. destruct (log_observations (trace s2) INFO MsgStrategyFinished) as [L1 L2].
  destruct (log_observations (trace s) INFO MsgStrategyStarted) as [L3 L4].
  rewrite L1, L2, O, S, L3, L4. repeat split. exact T.
Qed.

(** C12: with the symbol let through by the first [exchange_info] answer, a
    nonzero market price [c] and the minimum notional [m] read from the
    second answer, the TWAP script decides by [twap_rule]: the side, then
    non-positive total, slice count or interval, then a chunk notional
    [c * (total / num_slices) < m]; otherwise it returns the chunk
    [total / num_slices]. *)
Theorem twap_validate_spec (prog sym side ts ns ivs cstr : string) (t m c : Q) (n iv : Z)
    (s : Sys) tq :
  parse_float ts = Some (Fin t) -> parse_int ns = Some n -> parse_int ivs = Some iv ->
  symbol_passes (upper sym) s ->
  w_ticker (world s) = Some cstr :: tq -> parse_float cstr = Some (Fin c) -> ~ c == 0 ->
  min_notional_answer (upper sym) (hd None (tl (w_info (world s)))) = Fin m ->
  fst (validate_args [prog; sym; side; ts; ns; ivs] s)
  = match twap_rule (upper side) t n iv m c with
    | Some r => Exit r
    | None => Ok (upper sym, upper side, Fin t, n, iv, Fin (t / inject_Z n))
    end.
Proof.
  intros Ht' Hn Hi Hsym Ht Hc Hc0 Hm.
  unfold symbol_passes in Hsym. unfold min_notional_answer in Hm.
  unfold validate_args, twap_rule. cbn [length Nat.ltb Nat.leb nth].
  unfold_m. rewrite Ht', Hn, Hi. cbv beta iota zeta.
  assert (Hz : ftruthy (Fin c) = true) by (cbn; destruct (qeqb_spec c 0); tauto).
  destruct (negb _); [reflexivity|]. rewrite fle_Fin_b.
  destruct (qleb t 0), (n <=? 0)%Z eqn:En, (iv <=? 0)%Z; cbn [orb]; try reflexivity.
  assert (Hdiv : fdiv (Fin t) (of_Z n) = Some (Fin (t / inject_Z n))).
  { apply Z.leb_gt in En. assert (Hd : 0 < inject_Z n) by (change 0 with (inject_Z 0); now rewrite <- Zlt_Qlt).
    unfold fdiv, of_Z. destruct (qeqb_spec (inject_Z n) 0); [lra|reflexivity]. }
  revert Hsym Hm; destruct (w_info (world s)) as [|[i1|] iq]; mstep;
    try destruct iq as [|[i2|] iq']; mstep; intros Hsym Hm; try rewrite Hsym; mstep;
    rewrite Hdiv; mstep; rewrite Ht; mstep; rewrite Hc; mstep; rewrite Hz; mstep;
    repeat match goal with
           | |- context [find_min_notional ?a ?b] => destruct (find_min_notional a b); mstep
           | |- context [parse_float ?x] =>
               lazymatch x with cstr => fail | _ => destruct (parse_float x); mstep end
           end;
    unfold default_min_notional in *; subst; try (injection Hm as <-);
    rewrite fmul_Fin, flt_Fin_b; destruct (qltb _ _); reflexivity.
Qed.

(** An accepted request: [validate_args] returns the chunk, has consumed
    the two [exchange_info] answers and the validation price, and has
    submitted nothing. *)
Lemma twap_validate_accepts (prog sym side ts ns ivs cstr : string) (t m c : Q) (n iv : Z)
    (s : Sys) tq :
  parse_float ts = Some (Fin t) -> parse_int ns = Some n -> parse_int ivs = Some iv ->
  symbol_passes (upper sym) s ->
  w_ticker (world s) = Some cstr :: tq -> parse_float cstr = Some (Fin c) -> ~ c == 0 ->
  min_notional_answer (upper sym) (hd None (tl (w_info (world s)))) = Fin m ->
  twap_rule (upper side) t n iv m c = None ->
  let r := validate_args [prog; sym; side; ts; ns; ivs] s in
  fst r = Ok (upper sym, upper side, Fin t, n, iv, Fin (t / inject_Z n))
  /\ world (snd r) = mkWorld (tl (tl (w_info (world s)))) tq (w_orders (world s)) (w_fng (world s))
  /\ orders_of (trace (snd r)) = orders_of (trace s).
Proof.
  intros Ht' Hn Hi Hsym Ht Hc Hc0 Hm Hr r. subst r.
  unfold symbol_passes in Hsym. unfold min_notional_answer in Hm. unfold twap_rule in Hr.
  unfold validate_args. cbn [length Nat.ltb Nat.leb nth].
  unfold_m. rewrite Ht', Hn, Hi. cbv beta iota zeta.
  assert (Hz : ftruthy (Fin c) = true) by (cbn; destruct (qeqb_spec c 0); tauto).
  destruct (negb _); [discriminate|]. rewrite fle_Fin_b.
  destruct (qleb t 0), (n <=? 0)%Z eqn:En, (iv <=? 0)%Z; cbn [orb] in Hr |- *; try discriminate.
  assert (Hdiv : fdiv (Fin t) (of_Z n) = Some (Fin (t / inject_Z n))).
  { apply Z.leb_gt in En. assert (Hd : 0 < inject_Z n) by (change 0 with (inject_Z 0); now rewrite <- Zlt_Qlt).
    unfold fdiv, of_Z. destruct (qeqb_spec (inject_Z n) 0); [lra|reflexivity]. }
  revert Hsym Hm; destruct (w_info (world s)) as [|[i1|] iq]; mstep;
    try destruct iq as [|[i2|] iq']; mstep; intros Hsym Hm; try rewrite Hsym; mstep;
    rewrite Hdiv; mstep; rewrite Ht; mstep; rewrite Hc; mstep; rewrite Hz; mstep;
    repeat match goal with
           | |- context [find_min_notional ?a ?b] => destruct (find_min_notional a b); mstep
           | |- context [parse_float ?x] =>
               lazymatch x with cstr => fail | _ => destruct (parse_float x); mstep end
           end;
    unfold default_min_notional in *; subst; try (injection Hm as <-);
    rewrite fmul_Fin, flt_Fin_b; destruct (qltb _ _); try discriminate;
    (split; [reflexivity|split; [reflexivity|]]);
    cbn [trace snd]; rewrite !orders_of_app; cbn [orders_of flat_map app];
    now rewrite ?app_nil_r.
Qed.

(** ** Witnesses *)

Lemma execute_twap_all_acked_witness :
  let s := mkSys (mkWorld [] [Some "100"; Some "101"; Some "102"] [true; true; true] []) [] in
  w_ticker (world s) = map Some ["100"; "101"; "102"] ++ []
  /\ length ["100"; "101"; "102"] = Z.to_nat 3
  /\ forallb usable_price ["100"; "101"; "102"] = true
  /\ w_orders (world s) = repeat true (Z.to_nat 3) ++ []
  /\ exists s', execute_twap "BTCUSDT" "BUY" (Fin 1) 3 10 (Fin (1 # 3)) s = (Ok tt, s')
    /\ orders_of (trace s') = orders_of (trace s)
         ++ repeat (market_order "BTCUSDT" "BUY" (fround (Fin (1 # 3)) 6)) (Z.to_nat 3)
    /\ sleeps_of (trace s') = sleeps_of (trace s) ++ repeat 10%Z (Z.to_nat 3 - 1).
Proof.
  cbv zeta. repeat (split; [reflexivity|]).
  apply (execute_twap_all_acked "BTCUSDT" "BUY" (Fin 1) 3 10 (Fin (1 # 3))
           ["100"; "101"; "102"] [] []); reflexivity.
Defined.

Lemma execute_twap_abort_witness :
  let s := mkSys (mkWorld [] [Some "100"; Some "101"; Some "102"] [true; false] []) [] in
  (1 < Z.to_nat 3)%nat
  /\ w_ticker (world s) = map Some ["100"; "101"] ++ [Some "102"]
  /\ length ["100"; "101"] = S 1
  /\ forallb usable_price ["100"; "101"] = true
  /\ w_orders (world s) = repeat true 1 ++ false :: []
  /\ exists s', execute_twap "BTCUSDT" "SELL" (Fin 1) 3 10 (Fin (1 # 3)) s = (Ok tt, s')
    /\ w_ticker (world s') = [Some "102"]
    /\ orders_of (trace s') = orders_of (trace s)
         ++ repeat (market_order "BTCUSDT" "SELL" (fround (Fin (1 # 3)) 6)) (S 1)
    /\ sleeps_of (trace s') = sleeps_of (trace s) ++ repeat 10%Z 1.
Proof.
  cbv zeta. split; [lia|]. repeat (split; [reflexivity|]).
  apply (execute_twap_abort "BTCUSDT" "SELL" (Fin 1) 3 10 (Fin (1 # 3)) 1
           ["100"; "101"] [Some "102"] []); first [lia|reflexivity].
Defined.

Lemma execute_twap_no_price_witness :
  let s := mkSys (mkWorld [] [None; Some "0"; Some "abc"] [true] []) [] in
  w_ticker (world s) = [None; Some "0"; Some "abc"] ++ []
  /\ length [None; Some "0"; Some "abc"] = Z.to_nat 3
  /\ forallb unusable [None; Some "0"; Some "abc"] = true
  /\ exists s', execute_twap "BTCUSDT" "BUY" (Fin 1) 3 10 (Fin (1 # 3)) s = (Ok tt, s')
    /\ w_ticker (world s') = []
    /\ orders_of (trace s') = orders_of (trace s)
    /\ sleeps_of (trace s') = sleeps_of (trace s).
Proof.
  cbv zeta. repeat (split; [reflexivity|]).
  apply (execute_twap_no_price "BTCUSDT" "BUY" (Fin 1) 3 10 (Fin (1 # 3))
           [None; Some "0"; Some "abc"] []); reflexivity.
Defined.

(** A price missing on the middle of three slices: the third order
    follows the second slice with no wait, so the three slices span one
    interval instead of two. *)
Example twap_skip_is_not_paced :
  sleeps_of (trace (snd (execute_twap "BTCUSDT" "BUY" (Fin 1) 3 10 (Fin (1 # 3))
     (mkSys (mkWorld [] [Some "100"; None; Some "102"] [true; true] []) []))))
  = [10%Z]
  /\ length (orders_of (trace (snd (execute_twap "BTCUSDT" "BUY" (Fin 1) 3 10 (Fin (1 # 3))
     (mkSys (mkWorld [] [Some "100"; None; Some "102"] [true; true] []) []))))) = 2%nat.
Proof. vm_compute. split; reflexivity. Qed.

(** One BTC in four slices every 10 s at a market price of 100 with a
    minimum notional of 5: the chunk of 0.25 passes. *)
Lemma twap_validate_spec_witness :
  let info := [mkSymbolInfo "BTCUSDT" [mkFilter "MIN_NOTIONAL" "5"]] in
  let s := mkSys (mkWorld [Some info; Some info] [Some "100"] [] []) [] in
  parse_float "1" = Some (Fin 1) /\ parse_int "4" = Some 4%Z /\ parse_int "10" = Some 10%Z
  /\ symbol_passes (upper "btcusdt") s
  /\ w_ticker (world s) = Some "100" :: [] /\ parse_float "100" = Some (Fin 100)
  /\ ~ 100 == 0
  /\ min_notional_answer (upper "btcusdt") (hd None (tl (w_info (world s)))) = Fin 5
  /\ fst (validate_args ["twap.py"; "btcusdt"; "buy"; "1"; "4"; "10"] s)
     = match twap_rule (upper "buy") 1 4 10 5 100 with
       | Some r => Exit r
       | None => Ok (upper "btcusdt", upper "buy", Fin 1, 4%Z, 10%Z, Fin (1 / inject_Z 4))
       end.
Proof.
  cbv zeta. repeat (split; [reflexivity|]). split; [discriminate|]. split; [reflexivity|].
  apply twap_validate_spec with (cstr := "100") (tq := []); try reflexivity. discriminate.
Defined.
