(* ===== verification/TwapMachine.v ===== *)
(** * The TWAP loop of [twap.py] as a state machine

    The [for i in range(1, num_slices + 1)] loop of [execute_twap]
    (lines 131-160) read as a transition system. A state is the list of
    indices still to run, the script's [Sys], and whether a [break] has
    stopped the loop. One step runs the body [TwapOrders.twap_slice] on
    the next index. [continue] (or falling through) keeps the loop going,
    and the [except] branch's [break] stops it. A state is final when no
    index is left or the loop has stopped.

    The theorem of this file is an invariant of every reachable state,
    proved by rule induction on the steps: the trace has gained [k]
    market orders of the rounded chunk and [j] sleeps, with [k] at most
    the indices run, [j <= k], and [j] at most the indices run below
    [num_slices]. [twap_loop_star] relates the executable
    [TwapOrders.twap_loop] to a run of the machine, for the witness. *)

From Stdlib Require Import QArith ZArith String List Bool Lia.
From S2P Require Import Prelude PyFloat PyStr Gateway Twap.
Import ListNotations TwapOrders.
Local Open Scope string_scope.
Local Open Scope list_scope.

Record tstate := TState { pending : list Z; sys : Sys; stopped : bool }.

Section Machine.
Context (sym side : string) (n interval : Z) (chunk : pyfloat).

(** One iteration of the loop body on the next index. *)
Inductive step : tstate -> tstate -> Prop :=
| step_slice (i : Z) (rest : list Z) (s s' : Sys) (ctl : loop_ctl) :
    twap_slice sym side n interval chunk i s = (Ok ctl, s') ->
    step (TState (i :: rest) s false)
         (TState rest s' (match ctl with Continue => false | Break => true end)).

(** Zero or more steps. *)
Inductive star : tstate -> tstate -> Prop :=
| star_refl (st : tstate) : star st st
| star_step (st1 st2 st3 : tstate) : step st1 st2 -> star st2 st3 -> star st1 st3.

(** The loop has left its [for]: no index left, or [break]. *)
Definition final (st : tstate) : bool :=
  stopped st || match pending st with [] => true | _ => false end.

(** The order and sleep accounting of a state reached from the loop's
    start on [idx0] in [s0]: the indices run so far are a prefix [pre];
    the orders are [k] market orders of the rounded chunk, at most one per
    index run; the sleeps are [j] sleeps of [interval], no more than the
    orders and no more than the indices run below [num_slices]. *)
Definition twap_inv (idx0 : list Z) (s0 : Sys) (st : tstate) : Prop :=
  exists pre k j, idx0 = pre ++ pending st
    /\ orders_of (trace (sys st)) = orders_of (trace s0)
                                  ++ repeat (market_order sym side (fround chunk 6)) k
    /\ sleeps_of (trace (sys st)) = sleeps_of (trace s0) ++ repeat interval j
    /\ (k <= length pre)%nat /\ (j <= k)%nat
    /\ (j <= length (filter (fun i => (i <? n)%Z) pre))%nat.

(** One step preserves the accounting. *)
Lemma twap_inv_step (idx0 : list Z) (s0 : Sys) (st st' : tstate) :
  step st st' -> twap_inv idx0 s0 st -> twap_inv idx0 s0 st'.
Proof.
  intros Hs [pre [k [j [Hidx [O [S [Hk [Hj Hf]]]]]]]].
  inversion Hs as [i rest s s1 ctl E]; subst; cbn [pending sys] in *.
  destruct (twap_slice_effect sym side n interval chunk i s)
    as [ctl' [s1' [k1 [j1 [E' [O1 [S1 [Hk1 [Hj1 [Hf1 _]]]]]]]]]].
  rewrite E in E'. injection E' as <- <-.
  exists (pre ++ [i]), (k + k1)%nat, (j + j1)%nat. cbn [pending sys].
  repeat split.
  - now rewrite <- app_assoc.
  - now rewrite O1, O, <- app_assoc, repeat_app.
  - now rewrite S1, S, <- app_assoc, repeat_app.
  - rewrite length_app. cbn [length]. lia.
  - lia.
  - rewrite filter_app, length_app. cbn [filter]. destruct (i <? n)%Z; cbn [length]; lia.
Qed.

(** Rule induction: the accounting holds along every run. *)
Lemma twap_inv_star (idx0 : list Z) (s0 : Sys) (a b : tstate) :
  star a b -> twap_inv idx0 s0 a -> twap_inv idx0 s0 b.
Proof. induction 1; eauto using twap_inv_step. Qed.

(** The executable loop from a state that has not stopped. *)
Lemma twap_loop_star (idx : list Z) (s s' : Sys) :
  twap_loop sym side n interval chunk idx s = (Ok tt, s') ->
  exists st', star (TState idx s false) st' /\ final st' = true /\ sys st' = s'.
Proof.
  revert s. induction idx as [|i rest IH]; intros s E.
  - injection E as <-. exists (TState [] s false). repeat split; constructor.
  - cbn [twap_loop] in E. unfold bind at 1 in E.
    destruct (twap_slice_effect sym side n interval chunk i s)
      as [ctl [s1 [_ [_ [E1 _]]]]].
    rewrite E1 in E. destruct ctl.
    + destruct (IH s1 E) as [st' [Hst [Hf Hs]]]. exists st'. split; [|auto].
      eapply star_step; [apply step_slice; exact E1|exact Hst].
    + injection E as <-. exists (TState rest s1 true). split; [|split; reflexivity].
      eapply star_step; [apply step_slice; exact E1|constructor].
Qed.

End Machine.

Arguments TState : clear implicits.

(** C15: the accounting is an invariant of the machine: in every state
    reached from the start of the loop on [idx0] in [s0], the trace has
    gained [k] market orders of [round(chunk_qty, 6)] and [j] sleeps of
    [interval], with [k] at most the indices run, [j <= k], and [j] at
    most the indices run below [num_slices]. *)
Theorem twap_machine_invariant (sym side : string) (n interval : Z) (chunk : pyfloat)
    (idx0 : list Z) (s0 : Sys) (st : tstate) :
  star sym side n interval chunk (TState idx0 s0 false) st ->
  twap_inv sym side n interval chunk idx0 s0 st.
Proof.
  intro H. apply (twap_inv_star _ _ _ _ _ _ _ _ _ H).
  exists [], 0%nat, 0%nat. cbn. rewrite !app_nil_r. repeat split; lia.
Qed.

(** ** Witnesses *)

(** Two slices at a price of 100, both acknowledged. *)
Lemma twap_machine_invariant_witness :
  let s0 := mkSys (mkWorld [] [Some "100"; Some "100"] [true; true] []) [] in
  exists st, star "BTCUSDT" "BUY" 2 10 (Fin (1 # 2)) (TState [1; 2]%Z s0 false) st
    /\ final st = true
    /\ twap_inv "BTCUSDT" "BUY" 2 10 (Fin (1 # 2)) [1; 2]%Z s0 st.
Proof.
  cbv zeta.
  destruct (twap_loop_star "BTCUSDT" "BUY" 2 10 (Fin (1 # 2)) [1; 2]%Z
              (mkSys (mkWorld [] [Some "100"; Some "100"] [true; true] []) [])
              (snd (twap_loop "BTCUSDT" "BUY" 2 10 (Fin (1 # 2)) [1; 2]%Z
                      (mkSys (mkWorld [] [Some "100"; Some "100"] [true; true] []) []))))
    as [st [Hst [Hf _]]]; [vm_compute; reflexivity|].
  exists st. split; [exact Hst|]. split; [exact Hf|].
  exact (twap_machine_invariant "BTCUSDT" "BUY" 2 10 (Fin (1 # 2)) [1; 2]%Z _ st Hst).
Defined.
