(* ===== verification/TwapSentiment.v ===== *)
(** * TWAP with sentiment: [src/src/advanced/twap_with_sentiment.py]

    [validate_args] is the code of [twap.py] (only the usage text
    differs): it checks the notional of the unadjusted chunk. The Module holds its own copy
    of it, over the script's own helpers.
    [execute_twap] then reads the Fear & Greed index, rescales the chunk
    with [FearGreed.twap_adjust] (x1.25 / x0.8 for BUY / SELL in extreme
    fear, x0.7 / x1.3 in extreme greed) and runs the same slicing loop.
    Since the notional was checked before the rescaling, a chunk scaled
    down can fall below the exchange minimum. *)

From Stdlib Require Import QArith Qround Lqa ZArith String List Bool Lia.
From S2P Require Import Prelude PyFloat PyStr Gateway Sentiment Twap.
Import ListNotations.
Local Open Scope string_scope.
Local Open Scope list_scope.

Module TwapSentimentOrders.
Import FearGreed TwapOrders.

(** The helpers of [twap_with_sentiment.py]: [is_valid_symbol],
    [get_current_price] and [get_min_notional] (lines 35-69), the same
    code as the shared ones of [Gateway], and
    [get_live_fear_greed_index] (lines 74-90), the same code as in
    [grid_orders_with_sentiment.py]. *)
Definition is_valid_symbol := Gateway.is_valid_symbol.
Definition get_current_price := Gateway.get_current_price.
Definition get_min_notional := Gateway.get_min_notional.
Definition get_live_fear_greed_index := FearGreed.get_live_fear_greed_index.
#[global] Hint Unfold is_valid_symbol get_current_price get_min_notional
  get_live_fear_greed_index : bot_unfold.

(** [validate_args(args)]: the code of [twap.py] line for line (only the
    usage text differs), on this file's helpers. *)
Definition validate_args (args : list string)
  : M (string * string * pyfloat * Z * Z * pyfloat) :=
  if (length args <? 6)%nat then exit_with RUsage else
  let sym := upper (nth 1 args "") in
  let side := upper (nth 2 args "") in
  total_qty <- float_of (nth 3 args "") ;;
  num_slices <- int_of (nth 4 args "") ;;
  interval <- int_of (nth 5 args "") ;;
  if negb ((side =? "BUY") || (side =? "SELL")) then exit_with RInvalidSide else
  if fle total_qty (Fin 0) || (num_slices <=? 0)%Z || (interval <=? 0)%Z
  then exit_with RNonPositive else
  valid <- is_valid_symbol sym ;;
  if negb valid then exit_with RInvalidSymbol else
  chunk_qty <- div_of total_qty (of_Z num_slices) ;;
  let result := (sym, side, total_qty, num_slices, interval, chunk_qty) in
  current_price <- get_current_price sym ;;
  match truthy_price current_price with
  | Some p =>
      min_notional <- get_min_notional sym ;;
      if flt (fmul p chunk_qty) min_notional then exit_with RChunkBelowMinNotional
      else ret result
  | None => warn WarnNotionalUnverified ;; ret result
  end.

(** [execute_twap(symbol, side, total_qty, num_slices, interval, chunk_qty)] *)
Definition execute_twap (sym side : string) (total_qty : pyfloat) (n interval : Z)
    (chunk_qty : pyfloat) : M unit :=
  iv <- get_live_fear_greed_index ;;
  let '(index_value, _) := iv in
  let chunk_qty' := twap_adjust index_value side chunk_qty in
  log INFO MsgStrategyStarted ;;
  twap_loop sym side n interval chunk_qty' (slice_indices n) ;;
  log INFO MsgStrategyFinished.

(** The entry point. *)
Definition main (args : list string) : M unit :=
  v <- validate_args args ;;
  let '(sym, side, total_qty, n, interval, chunk_qty) := v in
  execute_twap sym side total_qty n interval chunk_qty.

End TwapSentimentOrders.

Import FearGreed TwapOrders TwapSentimentOrders.

(** with every price usable and every order acknowledged, the
    sentiment TWAP submits [num_slices] orders of the adjusted chunk
    rounded to 6 decimals; the spec's scenario (total 1, 4 slices, index
    10, BUY) submits four orders of 0.3125. *)
Theorem twap_sentiment_all_acked (sym side : string) (total : pyfloat) (n interval : Z)
    (chunk : pyfloat) (v : Z) (c : string) (ps : list string) tq oq (s s1 : Sys) :
  get_live_fear_greed_index s = (Ok (v, c), s1) ->
  w_ticker (world s1) = map Some ps ++ tq -> length ps = Z.to_nat n ->
  forallb usable_price ps = true ->
  w_orders (world s1) = repeat true (Z.to_nat n) ++ oq ->
  exists s', TwapSentimentOrders.execute_twap sym side total n interval chunk s = (Ok tt, s')
    /\ orders_of (trace s') = orders_of (trace s1)
         ++ repeat (market_order sym side (fround (twap_adjust v side chunk) 6)) (Z.to_nat n)
    /\ sleeps_of (trace s') = sleeps_of (trace s1) ++ repeat interval (Z.to_nat n - 1).
Proof.
  intros Hfg Ht Hl Hu Ho. unfold TwapSentimentOrders.execute_twap, bind at 1. rewrite Hfg.
  now apply (execute_twap_acked sym side total n interval (twap_adjust v side chunk) ps tq oq s1).
Qed.

(** C23: the notional is checked before the sentiment adjustment. Take a
    BUY that [validate_args] accepts on the unadjusted chunk
    [c = total / num_slices] (so [min_notional <= price * c]), an index
    in the greed band ([>= 75]), and an exchange that quotes a usable
    price for every slice and acknowledges every order. Then [main] runs
    to the end and submits [num_slices] market orders of
    [round(c * 0.7, 6)], with no check on the adjusted chunk: whenever
    [price * c * 0.7 < min_notional] each order is below the minimum
    the script has just read. *)
Theorem twap_sentiment_greed_below_min (prog sym ts ns ivs cstr vs lbl : string)
    (t m c : Q) (n iv v : Z) (ps : list string) (s : Sys) tq fq oq :
  parse_float ts = Some (Fin t) -> parse_int ns = Some n -> parse_int ivs = Some iv ->
  symbol_passes (upper sym) s ->
  w_ticker (world s) = Some cstr :: map Some ps ++ tq ->
  parse_float cstr = Some (Fin c) -> ~ c == 0 ->
  min_notional_answer (upper sym) (hd None (tl (w_info (world s)))) = Fin m ->
  twap_rule "BUY" t n iv m c = None ->
  w_fng (world s) = Some (vs, lbl) :: fq -> parse_int vs = Some v -> (75 <= v)%Z ->
  length ps = Z.to_nat n -> forallb usable_price ps = true ->
  w_orders (world s) = repeat true (Z.to_nat n) ++ oq ->
  m <= c * (t / inject_Z n)
  /\ exists s', TwapSentimentOrders.main [prog; sym; "BUY"; ts; ns; ivs] s = (Ok tt, s')
    /\ orders_of (trace s') = orders_of (trace s)
         ++ repeat (market_order (upper sym) "BUY"
                      (fround (Fin (t / inject_Z n * (7 # 10))) 6)) (Z.to_nat n).
Proof.
  intros Ht' Hn Hi Hsym Ht Hc Hc0 Hm Hr Hf Hv Hv75 Hl Hu Ho. split.
  - unfold twap_rule in Hr. cbn in Hr. destruct (qleb t 0), (n <=? 0)%Z, (iv <=? 0)%Z;
      cbn [orb] in Hr; try discriminate.
    destruct (qltb_spec (c * (t / inject_Z n)) m); [discriminate|lra].
  - destruct (twap_validate_accepts prog sym "BUY" ts ns ivs cstr t m c n iv s
                (map Some ps ++ tq) Ht' Hn Hi Hsym Ht Hc Hc0 Hm Hr) as [E1 [W1 O1]].
    unfold TwapSentimentOrders.main, bind at 1.
    change (TwapSentimentOrders.validate_args [prog; sym; "BUY"; ts; ns; ivs] s)
      with (TwapOrders.validate_args [prog; sym; "BUY"; ts; ns; ivs] s).
    destruct (TwapOrders.validate_args _ s) as [o s1]. cbn in E1, W1, O1. subst o.
    cbv beta iota.
    destruct (twap_sentiment_all_acked (upper sym) "BUY" (Fin t) n iv (Fin (t / inject_Z n)) v lbl
                ps tq oq s1 (mkSys (set_fng (world s1) fq) (trace s1 ++ [EvFearGreed])))
      as [s' [E [O _]]].
    + apply (fear_greed_index_read s1 vs); [now rewrite W1|exact Hv].
    + now rewrite W1.
    + exact Hl.
    + exact Hu.
    + now rewrite W1.
    + exists s'. split; [exact E|]. rewrite O, twap_adjust_greed_buy by exact Hv75.
      cbn [trace]. now rewrite orders_of_app, O1, app_nil_r.
Qed.

(** ** Witnesses *)

Lemma twap_sentiment_all_acked_witness :
  let s := mkSys (mkWorld [] [Some "100"; Some "100"; Some "100"; Some "100"]
                    [true; true; true; true] [Some ("10", "Extreme Fear")]) [] in
  let s1 := mkSys (mkWorld [] [Some "100"; Some "100"; Some "100"; Some "100"]
                    [true; true; true; true] []) [EvFearGreed] in
  get_live_fear_greed_index s = (Ok (10%Z, "Extreme Fear"), s1)
  /\ w_ticker (world s1) = map Some ["100"; "100"; "100"; "100"] ++ []
  /\ length ["100"; "100"; "100"; "100"] = Z.to_nat 4
  /\ forallb usable_price ["100"; "100"; "100"; "100"] = true
  /\ w_orders (world s1) = repeat true (Z.to_nat 4) ++ []
  /\ exists s', TwapSentimentOrders.execute_twap "BTCUSDT" "BUY" (Fin 1) 4 10 (Fin (1 # 4)) s
                = (Ok tt, s')
    /\ orders_of (trace s') = orders_of (trace s1)
         ++ repeat (market_order "BTCUSDT" "BUY"
                      (fround (twap_adjust 10 "BUY" (Fin (1 # 4))) 6)) (Z.to_nat 4)
    /\ sleeps_of (trace s') = sleeps_of (trace s1) ++ repeat 10%Z (Z.to_nat 4 - 1).
Proof.
  cbv zeta. repeat (split; [reflexivity|]).
  apply (twap_sentiment_all_acked "BTCUSDT" "BUY" (Fin 1) 4 10 (Fin (1 # 4)) 10
           "Extreme Fear" ["100"; "100"; "100"; "100"] [] []); reflexivity.
Defined.

(** The spec's scenario: a chunk of 0.25 in extreme fear (index 10) for a
    BUY becomes 0.3125. *)
Example twap_fear_scenario :
  feq (fround (twap_adjust 10 "BUY" (Fin (1 # 4))) 6) (Fin (3125 # 10000)) = true.
Proof. vm_compute. reflexivity. Qed.

(** A BUY of 2.4 in two slices at a price of 100 against a minimum of
    100: the unadjusted chunk 1.2 passes (notional 120), the index reads
    80, and both orders carry 0.84, a notional of 84. *)
Lemma twap_sentiment_greed_below_min_witness :
  let info := Some [mkSymbolInfo "BTCUSDT" [mkFilter "MIN_NOTIONAL" "100"]] in
  let s := mkSys (mkWorld [info; info] [Some "100"; Some "100"; Some "100"] [true; true]
                    [Some ("80", "Extreme Greed")]) [] in
  100 * ((24 # 10) / inject_Z 2 * (7 # 10)) < 100
  /\ exists s', TwapSentimentOrders.main ["twap"; "btcusdt"; "BUY"; "2.4"; "2"; "10"] s
                = (Ok tt, s')
     /\ orders_of (trace s') = orders_of (trace s)
          ++ repeat (market_order (upper "btcusdt") "BUY"
                       (fround (Fin ((24 # 10) / inject_Z 2 * (7 # 10))) 6)) (Z.to_nat 2).
Proof.
  cbv zeta. split; [vm_compute; reflexivity|].
  refine (proj2 (twap_sentiment_greed_below_min "twap" "btcusdt" "2.4" "2" "10" "100" "80"
                   "Extreme Greed" (24 # 10) 100 100 2 10 80 ["100"; "100"] _ [] [] []
                   _ _ _ _ _ _ _ _ _ _ _ _ _ _ _)).
  all: first [reflexivity | lia | (intro H; vm_compute in H; discriminate H)
             | (vm_compute; reflexivity)].
Defined.
