(* ===== verification/Market.v ===== *)
(** * Market orders: [src/src/market_orders.py]

    [validate_args] parses symbol, side and quantity ([float()] is not
    guarded: a malformed quantity raises [ValueError] out of the script),
    checks the side, the quantity, the symbol, then, inside one
    [try]/[except Exception], fetches the ticker and rejects a notional
    below a hard-coded 100; a failure of the fetch only warns. The
    [sys.exit(1)] inside that [try] is not caught ([SystemExit] is no
    [Exception]). [place_market_order] submits one MARKET order and logs
    the outcome; a failure is logged and swallowed. *)

From Stdlib Require Import QArith Qround Lqa ZArith String List Bool Lia.
From S2P Require Import Prelude PyFloat PyStr Gateway.
Import ListNotations.
Local Open Scope string_scope.
Local Open Scope list_scope.

Module MarketOrders.

Definition market_order (sym side : string) (quantity : pyfloat) : Order :=
  mkOrder sym side MARKET None quantity None None.

(** [side not in ["BUY", "SELL"]] *)
Definition invalid_side (side : string) : bool :=
  negb ((side =? "BUY") || (side =? "SELL")).

(** The [try] block of lines 68-76: ticker, notional against 100. *)
Definition notional_check (sym : string) (quantity : pyfloat) : M unit :=
  try_except
    (ticker <- ticker_price sym ;;
     price <- float_of ticker ;;
     let notional := fmul price quantity in
     if flt notional (Fin 100) then exit_with RBelowMinNotional else ret tt)
    (fun _ => warn WarnPrice).

(** [validate_args(args)]: returns [(symbol, side, quantity)]. *)
Definition validate_args (args : list string) : M (string * string * pyfloat) :=
  if (length args <? 4)%nat then exit_with RUsage else
  let sym := upper (nth 1 args "") in
  let side := upper (nth 2 args "") in
  quantity <- float_of (nth 3 args "") ;;
  if invalid_side side then exit_with RInvalidSide else
  if fle quantity (Fin 0) then exit_with RNonPositive else
  valid <- is_valid_symbol sym ;;
  if negb valid then exit_with RInvalidSymbol else
  notional_check sym quantity ;;
  ret (sym, side, quantity).

(** [place_market_order(symbol, side, quantity)] *)
Definition place_market_order (sym side : string) (quantity : pyfloat) : M unit :=
  try_except
    (new_order (market_order sym side quantity) ;;
     log INFO MsgOrderPlaced ;;
     log INFO MsgOrderResponse)
    (fun _ => log ERROR MsgOrderFailed).

(** The entry point. *)
Definition main (args : list string) : M unit :=
  v <- validate_args args ;;
  let '(sym, side, quantity) := v in
  place_market_order sym side quantity.

End MarketOrders.

Import MarketOrders.

(** An exchange listing BTCUSDT with a minimum notional of 5. *)
Definition btc_info : ExchangeInfo :=
  [mkSymbolInfo "BTCUSDT" [mkFilter "PRICE_FILTER" "0"; mkFilter "MIN_NOTIONAL" "5"]].

(** C26: [float("nan")] passes the quantity guard ([nan <= 0] is false) and
    the notional guard ([price * nan < 100] is false), whatever the ticker
    answers: a NaN quantity is validated for submission. *)
Theorem market_nan_quantity_accepted (prog sym side : string) (s : Sys) :
  invalid_side (upper side) = false -> symbol_passes (upper sym) s ->
  fst (validate_args [prog; sym; side; "nan"] s) = Ok (upper sym, upper side, NaN).
Proof.
  intros Hside Hsym. unfold symbol_passes in Hsym.
  unfold validate_args, notional_check. cbn [length Nat.ltb Nat.leb nth].
  unfold_m. change (parse_float "nan") with (Some NaN). cbn - [upper].
  rewrite Hside. cbn - [upper].
  revert Hsym. destruct (w_info (world s)) as [|[info|] iq]; cbn - [upper]; intro Hsym;
    [| rewrite Hsym | ]; cbn - [upper];
    destruct (w_ticker _) as [|[t|] tq]; cbn - [upper]; try reflexivity;
    destruct (parse_float t) as [[]|]; reflexivity.
Qed.

(** C7: the market script compares the notional with a hard-coded 100,
    not with the exchange's [MIN_NOTIONAL] filter (it never calls
    [get_min_notional]): with a listed symbol and a known price [p], a
    positive quantity [q] is rejected exactly when [p * q < 100],
    whatever filter the exchange reports. *)
Theorem market_validate_notional (prog sym side qs pstr : string) (q p : Q)
    (s : Sys) tq :
  parse_float qs = Some (Fin q) -> 0 < q -> invalid_side (upper side) = false ->
  symbol_passes (upper sym) s ->
  w_ticker (world s) = Some pstr :: tq -> parse_float pstr = Some (Fin p) ->
  fst (validate_args [prog; sym; side; qs] s)
  = if qltb (p * q) 100 then Exit RBelowMinNotional else Ok (upper sym, upper side, Fin q).
Proof.
  intros Hqs Hq Hside Hsym Ht Hp. unfold symbol_passes in Hsym.
  unfold validate_args, notional_check. cbn [length Nat.ltb Nat.leb nth].
  unfold_m. rewrite Hqs. cbv beta iota zeta. rewrite Hside, fle_Fin_b, qleb_false by lra.
  cbv beta iota zeta. revert Hsym Ht.
  destruct (w_info (world s)) as [|[info|] iq]; mstep; intros Hsym Ht;
    [| rewrite Hsym | ]; mstep; rewrite Ht; mstep; rewrite Hp;
    mstep; rewrite fmul_Fin, flt_Fin_b; destruct (qltb (p * q) 100); reflexivity.
Qed.

(** [place_market_order] submits exactly one MARKET order and never
    raises: an exchange error is logged and swallowed. *)
Theorem place_market_order_spec (sym side : string) (q : pyfloat) (s : Sys) :
  exists s', place_market_order sym side q s = (Ok tt, s')
    /\ orders_of (trace s') = orders_of (trace s) ++ [market_order sym side q].
Proof.
  unfold place_market_order, try_except, bind.
  destruct (new_order_spec (market_order sym side q) s) as [b [s1 [E T]]].
  rewrite E. destruct b; cbn; eexists; split; try reflexivity;
    cbn; rewrite !orders_of_app, T, orders_of_app; cbn; now rewrite !app_nil_r.
Qed.

(** when every reference read fails (no answer to [exchange_info] nor
    to [ticker_price]), the symbol check fails open, the notional check
    is skipped with a warning, and the order is validated for
    submission. *)
Theorem market_degraded_proceeds (prog sym side qs : string) (q : Q) (s : Sys) :
  parse_float qs = Some (Fin q) -> 0 < q -> invalid_side (upper side) = false ->
  hd None (w_info (world s)) = None -> hd None (w_ticker (world s)) = None ->
  exists s', validate_args [prog; sym; side; qs] s = (Ok (upper sym, upper side, Fin q), s')
    /\ In (EvWarn WarnSymbol) (trace s') /\ In (EvWarn WarnPrice) (trace s').
Proof.
  intros Hqs Hq Hside Hi Ht.
  unfold validate_args, notional_check. cbn [length Nat.ltb Nat.leb nth].
  unfold_m. rewrite Hqs. cbv beta iota zeta. rewrite Hside, fle_Fin_b, qleb_false by lra.
  cbv beta iota zeta. revert Hi Ht.
  destruct (w_info (world s)) as [|[info|] iq]; cbn [hd]; intro Hi; try discriminate;
    mstep; intro Ht; destruct (w_ticker (world s)) as [|[t|] tq]; cbn [hd] in Ht;
    try discriminate; mstep; eexists; (split; [reflexivity|]); cbn;
    split; repeat rewrite in_app_iff; cbn; tauto.
Qed.

(** C27: a quantity [float()] rejects is not caught: the [ValueError]
    escapes [validate_args] (the script dies with a traceback), before
    any exchange call and with nothing printed or logged. *)
Theorem market_non_numeric_raises (prog sym side qs : string) (s : Sys) :
  parse_float qs = None ->
  validate_args [prog; sym; side; qs] s = (Raise ValueError, s).
Proof.
  intro H. unfold validate_args. cbn [length Nat.ltb Nat.leb nth].
  unfold_m. now rewrite H.
Qed.

(** ** Witnesses *)

Lemma market_nan_quantity_accepted_witness :
  let s := mkSys (mkWorld [Some btc_info] [Some "90000"] [] []) [] in
  invalid_side (upper "buy") = false /\ symbol_passes (upper "btcusdt") s
  /\ fst (validate_args ["market_orders.py"; "btcusdt"; "buy"; "nan"] s)
     = Ok (upper "btcusdt", upper "buy", NaN).
Proof.
  cbv zeta. split; [reflexivity|]. split; [reflexivity|].
  apply market_nan_quantity_accepted; reflexivity.
Defined.

(** The exchange reports a minimum of 5, yet an order worth 50 is
    rejected. *)
Lemma market_validate_notional_witness :
  let s := mkSys (mkWorld [Some btc_info] [Some "50000"] [] []) [] in
  parse_float "0.001" = Some (Fin (1 # 1000)) /\ 0 < 1 # 1000
  /\ invalid_side (upper "buy") = false /\ symbol_passes (upper "btcusdt") s
  /\ w_ticker (world s) = Some "50000" :: [] /\ parse_float "50000" = Some (Fin 50000)
  /\ fst (validate_args ["market_orders.py"; "btcusdt"; "buy"; "0.001"] s)
     = if qltb (50000 * (1 # 1000)) 100 then Exit RBelowMinNotional
       else Ok (upper "btcusdt", upper "buy", Fin (1 # 1000)).
Proof.
  cbv zeta. repeat (split; [reflexivity|]).
  apply market_validate_notional with (pstr := "50000") (tq := []); reflexivity.
Defined.

Lemma market_degraded_proceeds_witness :
  let s := mkSys (mkWorld [None] [None] [] []) [] in
  parse_float "0.01" = Some (Fin (1 # 100)) /\ 0 < 1 # 100
  /\ invalid_side (upper "sell") = false
  /\ hd None (w_info (world s)) = None /\ hd None (w_ticker (world s)) = None
  /\ exists s', validate_args ["market_orders.py"; "ethusdt"; "sell"; "0.01"] s
                = (Ok (upper "ethusdt", upper "sell", Fin (1 # 100)), s')
    /\ In (EvWarn WarnSymbol) (trace s') /\ In (EvWarn WarnPrice) (trace s').
Proof.
  cbv zeta. repeat (split; [reflexivity|]).
  apply market_degraded_proceeds; reflexivity.
Defined.

Lemma market_non_numeric_raises_witness :
  parse_float "0.0O1" = None
  /\ validate_args ["market_orders.py"; "btcusdt"; "buy"; "0.0O1"]
       (mkSys (mkWorld [] [] [] []) []) = (Raise ValueError, mkSys (mkWorld [] [] [] []) []).
Proof. split; [reflexivity|]. apply market_non_numeric_raises. reflexivity. Defined.
