(* ===== verification/Limit.v ===== *)
(** * Limit orders: [src/src/limit_orders.py]

    [validate_args] parses symbol, side, quantity and price (unguarded
    [float()]), checks the side and positivity, compares the notional
    [price * quantity] with [get_min_notional], then, inside a
    [try]/[except Exception], fetches the ticker and requires a BUY limit
    strictly below the market and a SELL limit strictly above it; a failed
    fetch only warns. This script never checks that the symbol exists.
    [place_limit_order] submits one LIMIT GTC order. *)

From Stdlib Require Import QArith Qround Lqa ZArith String List Bool Lia.
From S2P Require Import Prelude PyFloat PyStr Gateway Market.
Import ListNotations.
Local Open Scope string_scope.
Local Open Scope list_scope.

Module LimitOrders.

Definition limit_order (sym side : string) (quantity price : pyfloat) : Order :=
  mkOrder sym side LIMIT (Some "GTC") quantity (Some price) None.

(** The [try] block of lines 75-85: the price against the market. *)
Definition market_check (sym side : string) (price : pyfloat) : M unit :=
  try_except
    (ticker <- ticker_price sym ;;
     current_price <- float_of ticker ;;
     if (side =? "BUY") && fge price current_price then
       exit_with (RLimitPriceSide "BUY")
     else if (side =? "SELL") && fle price current_price then
       exit_with (RLimitPriceSide "SELL")
     else ret tt)
    (fun _ => warn WarnPrice).

(** [validate_args(args)]: returns [(symbol, side, quantity, price)]. *)
Definition validate_args (args : list string) : M (string * string * pyfloat * pyfloat) :=
  if (length args <? 5)%nat then exit_with RUsage else
  let sym := upper (nth 1 args "") in
  let side := upper (nth 2 args "") in
  quantity <- float_of (nth 3 args "") ;;
  price <- float_of (nth 4 args "") ;;
  if MarketOrders.invalid_side side then exit_with RInvalidSide else
  if fle quantity (Fin 0) || fle price (Fin 0) then exit_with RNonPositive else
  let notional := fmul price quantity in
  min_notional <- get_min_notional sym ;;
  if flt notional min_notional then exit_with RBelowMinNotional else
  market_check sym side price ;;
  ret (sym, side, quantity, price).

(** [place_limit_order(symbol, side, quantity, price)] *)
Definition place_limit_order (sym side : string) (quantity price : pyfloat) : M unit :=
  try_except
    (new_order (limit_order sym side quantity price) ;;
     log INFO MsgOrderPlaced ;;
     log INFO MsgOrderResponse)
    (fun _ => log ERROR MsgOrderFailed).

(** The entry point. *)
Definition main (args : list string) : M unit :=
  v <- validate_args args ;;
  let '(sym, side, quantity, price) := v in
  place_limit_order sym side quantity price.

End LimitOrders.

Import LimitOrders.

(** The decision of the limit script's checks on finite values: the
    notional [p * q] against the minimum [m], then the limit [p] against
    the market price [c]; [None] accepts. *)
Definition limit_rule (side : string) (q p m c : Q) : option reason :=
  if qltb (p * q) m then Some RBelowMinNotional
  else if side =? "BUY" then (if qleb c p then Some (RLimitPriceSide "BUY") else None)
  else (if qleb p c then Some (RLimitPriceSide "SELL") else None).

Lemma fge_Fin_b (a b : Q) : fge (Fin a) (Fin b) = qleb b a.
Proof. apply fle_Fin_b. Qed.

(** [validate_args] of the limit script decides by [limit_rule]. *)
Lemma limit_validate_rule (prog sym side qs ps cstr : string) (q p m c : Q) (s : Sys) tq :
  parse_float qs = Some (Fin q) -> parse_float ps = Some (Fin p) -> 0 < q -> 0 < p ->
  (upper side = "BUY" \/ upper side = "SELL") ->
  min_notional_answer (upper sym) (hd None (w_info (world s))) = Fin m ->
  w_ticker (world s) = Some cstr :: tq -> parse_float cstr = Some (Fin c) ->
  fst (validate_args [prog; sym; side; qs; ps] s)
  = match limit_rule (upper side) q p m c with
    | Some r => Exit r
    | None => Ok (upper sym, upper side, Fin q, Fin p)
    end.
Proof.
  intros Hqs Hps Hq Hp Hside Hm Ht Hc. unfold min_notional_answer in Hm.
  unfold validate_args, market_check. cbn [length Nat.ltb Nat.leb nth].
  unfold_m. rewrite Hqs, Hps. cbv beta iota zeta.
  unfold MarketOrders.invalid_side, limit_rule.
  destruct Hside as [Hs|Hs]; rewrite Hs; cbn [String.eqb Ascii.eqb Bool.eqb negb orb andb];
    cbv beta iota zeta; rewrite !fle_Fin_b, !qleb_false by lra; mstep; rewrite fmul_Fin;
    revert Hm Ht; destruct (w_info (world s)) as [|[info|] iq]; mstep;
    try (destruct (find_min_notional (upper sym) info) as [n|]; mstep;
         [destruct (parse_float n) as [x|]; mstep|]);
    intros Hm Ht; cbn [hd] in Hm; try subst x;
    unfold default_min_notional in *;
    try (injection Hm as <-); rewrite flt_Fin_b;
    destruct (qltb (p * q) _); try reflexivity;
    mstep; rewrite Ht; mstep; rewrite Hc; mstep; rewrite ?fge_Fin_b, ?fle_Fin_b;
    match goal with |- context [qleb ?a ?b] => destruct (qleb a b) end; reflexivity.
Qed.

(** C8: with both reference reads answered (minimum notional [m], market
    price [c]) and a positive quantity and price, the limit script
    rejects a notional below [m] first, then a BUY limit not strictly
    below [c] or a SELL limit not strictly above [c], and otherwise
    validates the order; a notional equal to [m] passes. *)
Theorem limit_validate_spec (prog sym side qs ps cstr : string) (q p m c : Q) (s : Sys) tq :
  parse_float qs = Some (Fin q) -> parse_float ps = Some (Fin p) -> 0 < q -> 0 < p ->
  (upper side = "BUY" \/ upper side = "SELL") ->
  min_notional_answer (upper sym) (hd None (w_info (world s))) = Fin m ->
  w_ticker (world s) = Some cstr :: tq -> parse_float cstr = Some (Fin c) ->
  fst (validate_args [prog; sym; side; qs; ps] s)
  = if qltb (p * q) m then Exit RBelowMinNotional
    else if upper side =? "BUY" then
      (if qleb c p then Exit (RLimitPriceSide "BUY") else Ok (upper sym, upper side, Fin q, Fin p))
    else
      (if qleb p c then Exit (RLimitPriceSide "SELL") else Ok (upper sym, upper side, Fin q, Fin p)).
Proof.
  intros Hqs Hps Hq Hp Hside Hm Ht Hc.
  rewrite (limit_validate_rule prog sym side qs ps cstr q p m c s tq Hqs Hps Hq Hp Hside Hm Ht Hc).
  unfold limit_rule. destruct (qltb (p * q) m); [reflexivity|].
  destruct (upper side =? "BUY"); [destruct (qleb c p)|destruct (qleb p c)]; reflexivity.
Qed.

Lemma find_min_notional_unlisted (sym : string) (info : ExchangeInfo) :
  existsb (fun si => String.eqb (symbol si) sym) info = false ->
  find_min_notional sym info = None.
Proof.
  induction info as [|si rest IH]; cbn; [reflexivity|].
  destruct (String.eqb (symbol si) sym); [discriminate|exact IH].
Qed.

(** C30: the limit script never checks that the symbol exists: for a
    symbol the exchange does not list, the minimum notional falls back to
    100 and a BUY limit below the market with a notional of at least 100
    is validated for submission. *)
Theorem limit_skips_symbol_check (prog sym side qs ps cstr : string) (q p c : Q)
    (s : Sys) (info : ExchangeInfo) iq tq :
  parse_float qs = Some (Fin q) -> parse_float ps = Some (Fin p) -> 0 < q -> 0 < p ->
  upper side = "BUY" ->
  w_info (world s) = Some info :: iq ->
  existsb (fun si => String.eqb (symbol si) (upper sym)) info = false ->
  w_ticker (world s) = Some cstr :: tq -> parse_float cstr = Some (Fin c) ->
  100 <= p * q -> p < c ->
  fst (validate_args [prog; sym; side; qs; ps] s) = Ok (upper sym, "BUY", Fin q, Fin p).
Proof.
  intros Hqs Hps Hq Hp Hs Hi Hl Ht Hc Hn Hpc.
  rewrite (limit_validate_rule prog sym side qs ps cstr q p 100 c s tq Hqs Hps Hq Hp
             (or_introl Hs)).
  - unfold limit_rule. rewrite qltb_false by lra. rewrite Hs. cbn [String.eqb Ascii.eqb Bool.eqb].
    now rewrite qleb_false by lra.
  - rewrite Hi. cbn. now rewrite (find_min_notional_unlisted _ _ Hl).
  - exact Ht.
  - exact Hc.
Qed.

(** ** Witnesses *)

Lemma limit_validate_spec_witness :
  let s := mkSys (mkWorld [Some Market.btc_info] [Some "90000"] [] []) [] in
  parse_float "0.01" = Some (Fin (1 # 100)) /\ parse_float "89000" = Some (Fin 89000)
  /\ 0 < 1 # 100 /\ 0 < 89000 /\ (upper "buy" = "BUY" \/ upper "buy" = "SELL")
  /\ min_notional_answer (upper "btcusdt") (hd None (w_info (world s))) = Fin 5
  /\ w_ticker (world s) = Some "90000" :: [] /\ parse_float "90000" = Some (Fin 90000)
  /\ fst (validate_args ["limit_orders.py"; "btcusdt"; "buy"; "0.01"; "89000"] s)
     = if qltb (89000 * (1 # 100)) 5 then Exit RBelowMinNotional
       else if upper "buy" =? "BUY" then
         (if qleb 90000 89000 then Exit (RLimitPriceSide "BUY")
          else Ok (upper "btcusdt", upper "buy", Fin (1 # 100), Fin 89000))
       else
         (if qleb 89000 90000 then Exit (RLimitPriceSide "SELL")
          else Ok (upper "btcusdt", upper "buy", Fin (1 # 100), Fin 89000)).
Proof.
  cbv zeta. repeat (split; [first [reflexivity|left; reflexivity]|]).
  apply limit_validate_spec with (cstr := "90000") (tq := []);
    first [reflexivity|left; reflexivity].
Defined.

Lemma limit_skips_symbol_check_witness :
  let s := mkSys (mkWorld [Some Market.btc_info] [Some "3000"] [] []) [] in
  parse_float "0.05" = Some (Fin (5 # 100)) /\ parse_float "2900" = Some (Fin 2900)
  /\ 0 < 5 # 100 /\ 0 < 2900 /\ upper "buy" = "BUY"
  /\ w_info (world s) = Some Market.btc_info :: []
  /\ existsb (fun si => String.eqb (symbol si) (upper "ethusdt")) Market.btc_info = false
  /\ w_ticker (world s) = Some "3000" :: [] /\ parse_float "3000" = Some (Fin 3000)
  /\ 100 <= 2900 * (5 # 100) /\ 2900 < 3000
  /\ fst (validate_args ["limit_orders.py"; "ethusdt"; "buy"; "0.05"; "2900"] s)
     = Ok (upper "ethusdt", "BUY", Fin (5 # 100), Fin 2900).
Proof.
  cbv zeta. repeat (split; [first [reflexivity|discriminate]|]).
  apply limit_skips_symbol_check with (cstr := "3000") (c := 3000) (info := Market.btc_info)
    (iq := []) (tq := []); first [reflexivity|discriminate].
Defined.
