(* ===== verification/StopLimit.v ===== *)
(** * Stop-limit orders: [src/src/advanced/stop_limit_orders.py]

    [validate_args] parses quantity, stop and limit prices under
    [except ValueError] (a malformed number exits with a message, unlike
    the market and limit scripts), checks the side, positivity and the
    symbol, compares [limit_price * quantity] with [get_min_notional],
    then, inside a [try]/[except Exception], fetches the market price and
    requires for a BUY a stop strictly above the market and a limit at
    least the stop, for a SELL a stop strictly below the market and a
    limit at most the stop. [place_stop_limit_order] submits one STOP GTC
    order with both prices. *)

From Stdlib Require Import QArith Qround Lqa ZArith String List Bool Lia.
From S2P Require Import Prelude PyFloat PyStr Gateway Market.
Import ListNotations.
Local Open Scope string_scope.
Local Open Scope list_scope.

Module StopLimitOrders.

(** The helpers of [stop_limit_orders.py]: [is_valid_symbol] (lines
    38-45) and [get_min_notional] (lines 50-61), the same code as the
    shared ones of [Gateway]. *)
Definition is_valid_symbol := Gateway.is_valid_symbol.
Definition get_min_notional := Gateway.get_min_notional.
#[global] Hint Unfold is_valid_symbol get_min_notional : bot_unfold.

Definition stop_limit_order (sym side : string) (quantity stop_price limit_price : pyfloat)
  : Order :=
  mkOrder sym side STOP (Some "GTC") quantity (Some limit_price) (Some stop_price).

(** [try: float(...) x3 except ValueError: print(...); sys.exit(1)] *)
Definition parse_numbers (a b c : string) : M (pyfloat * pyfloat * pyfloat) :=
  try_except
    (x <- float_of a ;; y <- float_of b ;; z <- float_of c ;; ret (x, y, z))
    (fun e => match e with ValueError => exit_with RNonNumeric | e => raise e end).

(** The [try] block of lines 106-129: stop and limit against the market. *)
Definition stop_check (sym side : string) (stop_price limit_price : pyfloat) : M unit :=
  try_except
    (ticker <- ticker_price sym ;;
     current_price <- float_of ticker ;;
     if side =? "BUY" then
       if fle stop_price current_price then exit_with (RStopPriceSide "BUY")
       else if flt limit_price stop_price then exit_with (RStopLimitOrder "BUY")
       else ret tt
     else if side =? "SELL" then
       if fge stop_price current_price then exit_with (RStopPriceSide "SELL")
       else if fgt limit_price stop_price then exit_with (RStopLimitOrder "SELL")
       else ret tt
     else ret tt)
    (fun _ => warn WarnPrice).

(** [validate_args(args)]: returns
    [(symbol, side, quantity, stop_price, limit_price)]. *)
Definition validate_args (args : list string)
  : M (string * string * pyfloat * pyfloat * pyfloat) :=
  if (length args <? 6)%nat then exit_with RUsage else
  let sym := upper (nth 1 args "") in
  let side := upper (nth 2 args "") in
  nums <- parse_numbers (nth 3 args "") (nth 4 args "") (nth 5 args "") ;;
  let '(quantity, stop_price, limit_price) := nums in
  if MarketOrders.invalid_side side then exit_with RInvalidSide else
  if fle quantity (Fin 0) || fle stop_price (Fin 0) || fle limit_price (Fin 0)
  then exit_with RNonPositive else
  valid <- is_valid_symbol sym ;;
  if negb valid then exit_with RInvalidSymbol else
  let notional := fmul limit_price quantity in
  min_notional <- get_min_notional sym ;;
  if flt notional min_notional then exit_with RBelowMinNotional else
  stop_check sym side stop_price limit_price ;;
  ret (sym, side, quantity, stop_price, limit_price).

(** [place_stop_limit_order(symbol, side, quantity, stop_price, limit_price)] *)
Definition place_stop_limit_order (sym side : string)
    (quantity stop_price limit_price : pyfloat) : M unit :=
  try_except
    (new_order (stop_limit_order sym side quantity stop_price limit_price) ;;
     log INFO MsgOrderPlaced ;;
     log INFO MsgOrderResponse)
    (fun _ => log ERROR MsgOrderFailed).

(** The entry point. *)
Definition main (args : list string) : M unit :=
  v <- validate_args args ;;
  let '(sym, side, quantity, stop_price, limit_price) := v in
  place_stop_limit_order sym side quantity stop_price limit_price.

End StopLimitOrders.

Import StopLimitOrders.

(** The decision of the stop/limit checks against a market price [c]:
    [None] accepts. *)
Definition stop_rule (side : string) (st lim c : Q) : option reason :=
  if side =? "BUY" then
    if qleb st c then Some (RStopPriceSide "BUY")
    else if qltb lim st then Some (RStopLimitOrder "BUY") else None
  else
    if qleb c st then Some (RStopPriceSide "SELL")
    else if qltb st lim then Some (RStopLimitOrder "SELL") else None.

(** C9: with the symbol let through by the first [exchange_info] answer,
    the minimum notional [m] read from the second, the market price [c]
    known, and positive quantity, stop and limit, the stop-limit script
    rejects [limit * quantity < m] first, then applies the stop rule of
    the side (BUY: stop strictly above the market, limit at least the
    stop; SELL: stop strictly below, limit at most the stop). *)
Theorem stop_limit_validate_spec (prog sym side qs sts ls cstr : string) (q st lim m c : Q)
    (s : Sys) tq :
  parse_float qs = Some (Fin q) -> parse_float sts = Some (Fin st) ->
  parse_float ls = Some (Fin lim) -> 0 < q -> 0 < st -> 0 < lim ->
  (upper side = "BUY" \/ upper side = "SELL") ->
  symbol_passes (upper sym) s ->
  min_notional_answer (upper sym) (hd None (tl (w_info (world s)))) = Fin m ->
  w_ticker (world s) = Some cstr :: tq -> parse_float cstr = Some (Fin c) ->
  fst (validate_args [prog; sym; side; qs; sts; ls] s)
  = if qltb (lim * q) m then Exit RBelowMinNotional
    else match stop_rule (upper side) st lim c with
         | Some r => Exit r
         | None => Ok (upper sym, upper side, Fin q, Fin st, Fin lim)
         end.
Proof.
  intros Hqs Hsts Hls Hq Hst Hlim Hside Hsym Hm Ht Hc.
  unfold symbol_passes in Hsym. unfold min_notional_answer in Hm.
  unfold validate_args, parse_numbers, stop_check. cbn [length Nat.ltb Nat.leb nth].
  unfold_m. rewrite Hqs, Hsts, Hls. cbv beta iota zeta.
  unfold MarketOrders.invalid_side, stop_rule, fge, fgt.
  destruct Hside as [Hs|Hs]; rewrite Hs; cbn [String.eqb Ascii.eqb Bool.eqb negb orb andb];
    cbv beta iota zeta; rewrite !fle_Fin_b, !qleb_false by lra; mstep;
    revert Hsym Hm; destruct (w_info (world s)) as [|[i1|] iq]; mstep;
    try destruct iq as [|[i2|] iq']; mstep; intros Hsym Hm; try rewrite Hsym; mstep;
    repeat match goal with
           | |- context [find_min_notional ?a ?b] => destruct (find_min_notional a b); mstep
           | |- context [parse_float ?n] =>
               lazymatch n with cstr => fail | _ => destruct (parse_float n); mstep end
           end;
    unfold default_min_notional in *; subst; try (injection Hm as <-);
    rewrite fmul_Fin, flt_Fin_b; destruct (qltb (lim * q) _); try reflexivity;
    mstep; rewrite Ht; mstep; rewrite Hc; mstep; rewrite ?fle_Fin_b, ?flt_Fin_b;
    repeat match goal with
           | |- context [qleb ?a ?b] => destruct (qleb a b)
           | |- context [qltb ?a ?b] => destruct (qltb a b)
           end; reflexivity.
Qed.

(** a quantity, stop or limit that [float()] rejects ends the
    stop-limit script through its [except ValueError] branch with the
    "must be numbers" exit, before any exchange call. *)
Lemma stop_limit_non_numeric (prog sym side qs sts ls : string) (s : Sys) :
  parse_float qs = None \/ parse_float sts = None \/ parse_float ls = None ->
  validate_args [prog; sym; side; qs; sts; ls] s = (Exit RNonNumeric, s).
Proof.
  intro H. unfold validate_args, parse_numbers. cbn [length Nat.ltb Nat.leb nth].
  unfold_m. destruct H as [H|[H|H]]; rewrite H;
    destruct (parse_float qs), (parse_float sts), (parse_float ls); try discriminate;
    reflexivity.
Qed.

(** C28: whatever its arguments and whatever the exchange answers, the
    stop-limit script never dies with a Python exception. Malformed
    numbers exit through [except ValueError], reference reads degrade,
    and a refused order is logged. *)
Theorem stop_limit_main_no_raise (args : list string) (s : Sys) (e : exn) :
  fst (StopLimitOrders.main args s) <> Raise e.
Proof.
  unfold StopLimitOrders.main, validate_args, parse_numbers, stop_check,
    place_stop_limit_order.
  destruct (length args <? 6)%nat; [unfold bind, exit_with; discriminate|].
  unfold_m. split_matches; discriminate.
Qed.

(** ** Witnesses *)

(** The spec's scenario at a market price of 100: a BUY with stop 105 and
    limit 104 is refused for its limit below the stop. *)
Lemma stop_limit_validate_spec_witness :
  let s := mkSys (mkWorld [Some btc_info; Some btc_info] [Some "100"] [] []) [] in
  parse_float "1" = Some (Fin 1) /\ parse_float "105" = Some (Fin 105)
  /\ parse_float "104" = Some (Fin 104) /\ 0 < 1 /\ 0 < 105 /\ 0 < 104
  /\ (upper "buy" = "BUY" \/ upper "buy" = "SELL")
  /\ symbol_passes (upper "btcusdt") s
  /\ min_notional_answer (upper "btcusdt") (hd None (tl (w_info (world s)))) = Fin 5
  /\ w_ticker (world s) = Some "100" :: [] /\ parse_float "100" = Some (Fin 100)
  /\ fst (validate_args ["stop_limit_orders.py"; "btcusdt"; "buy"; "1"; "105"; "104"] s)
     = if qltb (104 * 1) 5 then Exit RBelowMinNotional
       else match stop_rule (upper "buy") 105 104 100 with
            | Some r => Exit r
            | None => Ok (upper "btcusdt", upper "buy", Fin 1, Fin 105, Fin 104)
            end.
Proof.
  cbv zeta. repeat (split; [reflexivity|]). split; [left; reflexivity|].
  repeat (split; [reflexivity|]).
  apply stop_limit_validate_spec with (cstr := "100") (tq := []);
    try reflexivity; left; reflexivity.
Defined.

Lemma stop_limit_non_numeric_witness :
  (parse_float "1" = None \/ parse_float "abc" = None \/ parse_float "104" = None)
  /\ validate_args ["stop_limit_orders.py"; "btcusdt"; "buy"; "1"; "abc"; "104"]
       (mkSys (mkWorld [] [] [] []) []) = (Exit RNonNumeric, mkSys (mkWorld [] [] [] []) []).
Proof.
  split; [right; left; reflexivity|]. apply stop_limit_non_numeric. right; left; reflexivity.
Defined.

(** The three cases of the spec at a market price of 100 for a BUY:
    stop 95 is refused, stop 105 with limit 104 is refused, stop 105 with
    limit 106 is accepted. *)
Example stop_limit_scenarios :
  let s := mkSys (mkWorld [Some btc_info; Some btc_info] [Some "100"] [] []) [] in
  fst (validate_args ["p"; "btcusdt"; "buy"; "1"; "95"; "96"] s) = Exit (RStopPriceSide "BUY")
  /\ fst (validate_args ["p"; "btcusdt"; "buy"; "1"; "105"; "104"] s)
     = Exit (RStopLimitOrder "BUY")
  /\ fst (validate_args ["p"; "btcusdt"; "buy"; "1"; "105"; "106"] s)
     = Ok ("BTCUSDT", "BUY", Fin 1, Fin 105, Fin 106).
Proof. vm_compute. repeat split; reflexivity. Qed.
