(* ===== verification/Oco.v ===== *)
(** * One-cancels-other orders: [src/src/advanced/oco.py]

    [validate_args] parses quantity, take-profit and stop-loss under
    [except ValueError], checks the side, positivity and the symbol, then
    reads the market price once ([show_price_hint], [None] on failure).
    When that price is truthy it checks [price * quantity] against
    [get_min_notional] (inside a [try]) and the ordering of the three
    prices: SELL [take_profit > price > stop_loss], BUY
    [take_profit < price < stop_loss]. A missing or zero price skips both
    checks. [place_oco_order] submits a LIMIT GTC take-profit leg and then
    a STOP GTC stop-loss leg inside ONE [try]: the second leg is never
    attempted when the first one fails. *)

From Stdlib Require Import QArith Qround Lqa ZArith String List Bool Lia.
From S2P Require Import Prelude PyFloat PyStr Gateway Market.
Import ListNotations.
Local Open Scope string_scope.
Local Open Scope list_scope.

Module OcoOrders.

(** The helpers of [oco.py]: [is_valid_symbol] (lines 38-45) and
    [get_min_notional] (lines 50-61), the same code as the shared ones
    of [Gateway]. *)
Definition is_valid_symbol := Gateway.is_valid_symbol.
Definition get_min_notional := Gateway.get_min_notional.
#[global] Hint Unfold is_valid_symbol get_min_notional : bot_unfold.

(** The take-profit leg: LIMIT GTC at [take_profit]. *)
Definition tp_order (sym side : string) (quantity take_profit : pyfloat) : Order :=
  mkOrder sym side LIMIT (Some "GTC") quantity (Some take_profit) None.

(** The stop-loss leg: STOP GTC with [stopPrice = price = stop_loss]. *)
Definition sl_order (sym side : string) (quantity stop_loss : pyfloat) : Order :=
  mkOrder sym side STOP (Some "GTC") quantity (Some stop_loss) (Some stop_loss).

(** [show_price_hint(symbol, side)]: the market price, [None] when the
    call or [float] raises (the hint itself is only printed). *)
Definition show_price_hint (sym side : string) : M (option pyfloat) :=
  get_current_price sym.

(** [try: float(...) x3 except ValueError: print(...); sys.exit(1)] *)
Definition parse_numbers (a b c : string) : M (pyfloat * pyfloat * pyfloat) :=
  try_except
    (x <- float_of a ;; y <- float_of b ;; z <- float_of c ;; ret (x, y, z))
    (fun e => match e with ValueError => exit_with RNonNumeric | e => raise e end).

(** The [try] block of lines 121-129: notional on the market price. *)
Definition notional_check (sym : string) (quantity : pyfloat)
    (current_price : option pyfloat) : M unit :=
  try_except
    (match truthy_price current_price with
     | Some p =>
         min_notional <- get_min_notional sym ;;
         if flt (fmul p quantity) min_notional then exit_with RBelowMinNotional
         else ret tt
     | None => ret tt
     end)
    (fun _ => warn WarnPrice).

(** The chained comparisons of lines 133-140 ([a > b > c] is
    [a > b and b > c]); a side other than BUY and SELL is not checked. *)
Definition ordering_ok (side : string) (take_profit p stop_loss : pyfloat) : bool :=
  if side =? "SELL" then fgt take_profit p && fgt p stop_loss
  else if side =? "BUY" then flt take_profit p && flt p stop_loss
  else true.

Definition ordering_check (side : string) (take_profit stop_loss : pyfloat)
    (current_price : option pyfloat) : M unit :=
  match truthy_price current_price with
  | Some p =>
      if ordering_ok side take_profit p stop_loss then ret tt
      else exit_with (ROcoOrdering side)
  | None => ret tt
  end.

(** [validate_args(args)]: returns
    [(symbol, side, quantity, take_profit, stop_loss)]. *)
Definition validate_args (args : list string)
  : M (string * string * pyfloat * pyfloat * pyfloat) :=
  if (length args <? 6)%nat then exit_with RUsage else
  let sym := upper (nth 1 args "") in
  let side := upper (nth 2 args "") in
  nums <- parse_numbers (nth 3 args "") (nth 4 args "") (nth 5 args "") ;;
  let '(quantity, take_profit, stop_loss) := nums in
  if MarketOrders.invalid_side side then exit_with RInvalidSide else
  if fle quantity (Fin 0) || fle take_profit (Fin 0) || fle stop_loss (Fin 0)
  then exit_with RNonPositive else
  valid <- is_valid_symbol sym ;;
  if negb valid then exit_with RInvalidSymbol else
  current_price <- show_price_hint sym side ;;
  notional_check sym quantity current_price ;;
  ordering_check side take_profit stop_loss current_price ;;
  ret (sym, side, quantity, take_profit, stop_loss).

(** [place_oco_order(symbol, side, quantity, take_profit, stop_loss)]:
    both legs in one [try]. *)
Definition place_oco_order (sym side : string)
    (quantity take_profit stop_loss : pyfloat) : M unit :=
  try_except
    (new_order (tp_order sym side quantity take_profit) ;;
     new_order (sl_order sym side quantity stop_loss) ;;
     log INFO MsgOrderPlaced ;;
     log INFO MsgOrderResponse ;;
     log INFO MsgOrderResponse)
    (fun _ => log ERROR MsgOrderFailed).

(** The entry point. *)
Definition main (args : list string) : M unit :=
  v <- validate_args args ;;
  let '(sym, side, quantity, take_profit, stop_loss) := v in
  place_oco_order sym side quantity take_profit stop_loss.

End OcoOrders.

Import OcoOrders.

(** The ordering the OCO checks demand of a market price [c]. *)
Definition oco_ordered (side : string) (tp c sl : Q) : bool :=
  if side =? "SELL" then qltb c tp && qltb sl c else qltb tp c && qltb c sl.

(** Whether one ticker answer leaves the script without a usable price:
    the call raised, [float] raised, or the price is zero (falsy). *)
Definition price_unavailable (a : option string) : bool :=
  match a with
  | Some t => match parse_float t with Some p => negb (ftruthy p) | None => true end
  | None => true
  end.

(** C10: with the symbol let through by the first [exchange_info] answer, a
    nonzero market price [c], and the minimum notional [m] read from the
    second answer, the OCO script rejects [c * quantity < m], and
    otherwise accepts exactly when the prices are ordered for the side
    (SELL: [take_profit > c > stop_loss], BUY: [take_profit < c < stop_loss]). *)
Theorem oco_validate_spec (prog sym side qs tps sls cstr : string) (q tp sl m c : Q)
    (s : Sys) tq :
  parse_float qs = Some (Fin q) -> parse_float tps = Some (Fin tp) ->
  parse_float sls = Some (Fin sl) -> 0 < q -> 0 < tp -> 0 < sl ->
  (upper side = "BUY" \/ upper side = "SELL") ->
  symbol_passes (upper sym) s ->
  w_ticker (world s) = Some cstr :: tq -> parse_float cstr = Some (Fin c) -> ~ c == 0 ->
  min_notional_answer (upper sym) (hd None (tl (w_info (world s)))) = Fin m ->
  fst (validate_args [prog; sym; side; qs; tps; sls] s)
  = if qltb (c * q) m then Exit RBelowMinNotional
    else if oco_ordered (upper side) tp c sl
         then Ok (upper sym, upper side, Fin q, Fin tp, Fin sl)
         else Exit (ROcoOrdering (upper side)).
Proof.
  intros Hqs Htps Hsls Hq Htp Hsl Hside Hsym Ht Hc Hc0 Hm.
  unfold symbol_passes in Hsym. unfold min_notional_answer in Hm.
  unfold validate_args, parse_numbers, show_price_hint, notional_check, ordering_check.
  cbn [length Nat.ltb Nat.leb nth].
  unfold_m. rewrite Hqs, Htps, Hsls. cbv beta iota zeta.
  unfold MarketOrders.invalid_side, oco_ordered, ordering_ok, fgt.
  assert (Hz : ftruthy (Fin c) = true) by (cbn; destruct (qeqb_spec c 0); tauto).
  destruct Hside as [Hs|Hs]; rewrite Hs; cbn [String.eqb Ascii.eqb Bool.eqb negb orb andb];
    cbv beta iota zeta; rewrite !fle_Fin_b, !qleb_false by lra; mstep;
    revert Hsym Hm; destruct (w_info (world s)) as [|[i1|] iq]; mstep;
    try destruct iq as [|[i2|] iq']; mstep; intros Hsym Hm; try rewrite Hsym; mstep;
    rewrite Ht; mstep; rewrite Hc; mstep; rewrite Hz; mstep;
    repeat match goal with
           | |- context [find_min_notional ?a ?b] => destruct (find_min_notional a b); mstep
           | |- context [parse_float ?n] =>
               lazymatch n with cstr => fail | _ => destruct (parse_float n); mstep end
           end;
    unfold default_min_notional in *; subst; try (injection Hm as <-);
    rewrite fmul_Fin, flt_Fin_b; destruct (qltb (c * q) _); try reflexivity;
    mstep; rewrite ?flt_Fin_b;
    repeat match goal with
           | |- context [qltb ?a ?b] => destruct (qltb a b)
           end; reflexivity.
Qed.

(** C31: when the price read fails or reads zero, the OCO script skips the
    notional check and the ordering check altogether and accepts any
    positive quantity and prices for a listed symbol, without reading the
    minimum notional. *)
Theorem oco_price_unavailable_skips_checks (prog sym side qs tps sls : string)
    (q tp sl : Q) (s : Sys) :
  parse_float qs = Some (Fin q) -> parse_float tps = Some (Fin tp) ->
  parse_float sls = Some (Fin sl) -> 0 < q -> 0 < tp -> 0 < sl ->
  MarketOrders.invalid_side (upper side) = false ->
  symbol_passes (upper sym) s ->
  price_unavailable (hd None (w_ticker (world s))) = true ->
  fst (validate_args [prog; sym; side; qs; tps; sls] s)
  = Ok (upper sym, upper side, Fin q, Fin tp, Fin sl).
Proof.
  intros Hqs Htps Hsls Hq Htp Hsl Hside Hsym Hu.
  unfold symbol_passes in Hsym.
  unfold validate_args, parse_numbers, show_price_hint, notional_check, ordering_check.
  cbn [length Nat.ltb Nat.leb nth].
  unfold_m. rewrite Hqs, Htps, Hsls. cbv beta iota zeta.
  rewrite Hside, !fle_Fin_b, !qleb_false by lra. mstep.
  revert Hsym Hu; destruct (w_info (world s)) as [|[i1|] iq]; mstep; intros Hsym Hu;
    try rewrite Hsym; mstep;
    destruct (w_ticker (world s)) as [|[t|] tq]; mstep; try reflexivity;
    cbn [hd] in Hu; unfold price_unavailable in Hu; destruct (parse_float t) as [p|]; mstep; try reflexivity;
    apply negb_true_iff in Hu; rewrite Hu; reflexivity.
Qed.

(** [place_oco_order] never raises and submits the take-profit leg
    first; the stop-loss leg is submitted only when the exchange
    acknowledges the take-profit leg. *)
Theorem place_oco_order_spec (sym side : string) (q tp sl : pyfloat) (s : Sys) :
  exists s', place_oco_order sym side q tp sl s = (Ok tt, s')
    /\ orders_of (trace s') = orders_of (trace s)
         ++ tp_order sym side q tp
         :: (if hd false (w_orders (world s)) then [sl_order sym side q sl] else []).
Proof.
  unfold place_oco_order, try_except, bind.
  unfold new_order at 1. destruct (w_orders (world s)) as [|[|] oq]; mstep.
  - eexists. split; [reflexivity|]. cbn. now autorewrite with bot_rw.
  - destruct (new_order_spec (sl_order sym side q sl)
       (mkSys (set_orders (world s) oq) (trace s ++ [EvNewOrder (tp_order sym side q tp) true])))
       as [b [s1 [E T]]].
    rewrite E. destruct b; cbn; eexists; split; try reflexivity; cbn;
      autorewrite with bot_rw; rewrite T; cbn [trace]; autorewrite with bot_rw;
      rewrite <- app_assoc; reflexivity.
  - eexists. split; [reflexivity|]. cbn. now autorewrite with bot_rw.
Qed.

(** C5: when the exchange refuses the take-profit leg, the error is
    logged and the stop-loss leg is never submitted, although the
    spec (section 7) has the sibling OCO leg still attempted. *)
Theorem oco_first_leg_failure (sym side : string) (q tp sl : pyfloat) (s : Sys) :
  hd false (w_orders (world s)) = false ->
  exists s', place_oco_order sym side q tp sl s = (Ok tt, s')
    /\ orders_of (trace s') = orders_of (trace s) ++ [tp_order sym side q tp]
    /\ trace s' = trace s ++ [EvNewOrder (tp_order sym side q tp) false;
                              EvLog ERROR MsgOrderFailed].
Proof.
  intro H. unfold place_oco_order, try_except, bind, new_order.
  destruct (w_orders (world s)) as [|[|] oq]; cbn in H; try discriminate; mstep;
    unfold log, emit; eexists; (split; [reflexivity|]); cbn [trace];
    (split; [rewrite !orders_of_app; cbn; now rewrite app_nil_r | now rewrite <- app_assoc]).
Qed.

(** C29: whatever its arguments and whatever the exchange answers, the
    OCO script never dies with a Python exception. Malformed numbers exit
    through [except ValueError], reference reads degrade, and a refused
    leg is logged. *)
Theorem oco_main_no_raise (args : list string) (s : Sys) (e : exn) :
  fst (OcoOrders.main args s) <> Raise e.
Proof.
  unfold OcoOrders.main, validate_args, parse_numbers, show_price_hint, notional_check,
    ordering_check, place_oco_order.
  destruct (length args <? 6)%nat; [unfold bind, exit_with; discriminate|].
  unfold_m. split_matches; discriminate.
Qed.

(** ** Witnesses *)

Lemma oco_validate_spec_witness :
  let s := mkSys (mkWorld [Some btc_info; Some btc_info] [Some "100"] [] []) [] in
  parse_float "1" = Some (Fin 1) /\ parse_float "110" = Some (Fin 110)
  /\ parse_float "90" = Some (Fin 90) /\ 0 < 1 /\ 0 < 110 /\ 0 < 90
  /\ (upper "sell" = "BUY" \/ upper "sell" = "SELL")
  /\ symbol_passes (upper "btcusdt") s
  /\ w_ticker (world s) = Some "100" :: [] /\ parse_float "100" = Some (Fin 100)
  /\ ~ 100 == 0
  /\ min_notional_answer (upper "btcusdt") (hd None (tl (w_info (world s)))) = Fin 5
  /\ fst (validate_args ["oco.py"; "btcusdt"; "sell"; "1"; "110"; "90"] s)
     = if qltb (100 * 1) 5 then Exit RBelowMinNotional
       else if oco_ordered (upper "sell") 110 100 90
            then Ok (upper "btcusdt", upper "sell", Fin 1, Fin 110, Fin 90)
            else Exit (ROcoOrdering (upper "sell")).
Proof.
  cbv zeta. repeat (split; [reflexivity|]). split; [right; reflexivity|].
  repeat (split; [reflexivity|]). split; [discriminate|]. split; [reflexivity|].
  apply oco_validate_spec with (cstr := "100") (tq := []);
    try reflexivity; [right; reflexivity|discriminate].
Defined.

(** A zero price: a SELL with its take-profit below its stop-loss is
    accepted. *)
Lemma oco_price_unavailable_skips_checks_witness :
  let s := mkSys (mkWorld [Some btc_info] [Some "0"] [] []) [] in
  parse_float "1" = Some (Fin 1) /\ parse_float "90" = Some (Fin 90)
  /\ parse_float "110" = Some (Fin 110) /\ 0 < 1 /\ 0 < 90 /\ 0 < 110
  /\ MarketOrders.invalid_side (upper "sell") = false
  /\ symbol_passes (upper "btcusdt") s
  /\ price_unavailable (hd None (w_ticker (world s))) = true
  /\ fst (validate_args ["oco.py"; "btcusdt"; "sell"; "1"; "90"; "110"] s)
     = Ok (upper "btcusdt", upper "sell", Fin 1, Fin 90, Fin 110).
Proof.
  cbv zeta. repeat (split; [reflexivity|]).
  apply oco_price_unavailable_skips_checks; reflexivity.
Defined.

Lemma oco_first_leg_failure_witness :
  let s := mkSys (mkWorld [] [] [false; true] []) [] in
  hd false (w_orders (world s)) = false
  /\ exists s', place_oco_order "BTCUSDT" "SELL" (Fin 1) (Fin 110) (Fin 90) s = (Ok tt, s')
    /\ orders_of (trace s') = orders_of (trace s) ++ [tp_order "BTCUSDT" "SELL" (Fin 1) (Fin 110)]
    /\ trace s' = trace s ++ [EvNewOrder (tp_order "BTCUSDT" "SELL" (Fin 1) (Fin 110)) false;
                              EvLog ERROR MsgOrderFailed].
Proof.
  cbv zeta. split; [reflexivity|]. apply oco_first_leg_failure. reflexivity.
Defined.

(** [bool(nan)] is true: a NaN price enters both checks, fails every
    comparison, and rejects the order for its ordering. *)
Example oco_nan_price_rejects :
  fst (validate_args ["oco.py"; "btcusdt"; "sell"; "1"; "110"; "90"]
         (mkSys (mkWorld [Some btc_info; Some btc_info] [Some "nan"] [] []) []))
  = Exit (ROcoOrdering "SELL").
Proof. vm_compute. reflexivity. Qed.
