(* ===== verification/Orders.v ===== *)
(** * The shape of every order the scripts submit

    The exchange accepts an order only when its fields fit its type: a
    MARKET order has no time in force and no price, a LIMIT order is GTC
    with a price, a STOP order is GTC with a price and a stop price.
    [well_formed] is that rule on [Order]. The theorem of this file shows
    that each of the eight scripts submits only well-formed orders, for
    every argument list and every sequence of exchange answers.

    The proof is compositional. [emits_only P c] says that whatever state
    [c] runs from, the orders it appends to the trace all satisfy [P].
    The rules below are one per construct of the scripts: [bind],
    [try_except], the endpoints, [new_order], and the two loops
    [place_legs] and [twap_loop], proved by induction on their lists. The
    tactic [emits] applies them along the code, case-splitting each
    [if] and [match]. *)

From Stdlib Require Import QArith ZArith String List Bool Lia.
From S2P Require Import Prelude PyFloat PyStr Gateway Grid Sentiment GridSentiment Twap TwapSentiment Market Limit StopLimit Oco.
Import ListNotations.
Local Open Scope string_scope.
Local Open Scope list_scope.

(** The fields an order of each type must carry. *)
Definition well_formed (o : Order) : bool :=
  match o_type o, o_timeInForce o, o_price o, o_stopPrice o with
  | MARKET, None, None, None => true
  | LIMIT, Some tif, Some _, None => tif =? "GTC"
  | STOP, Some tif, Some _, Some _ => tif =? "GTC"
  | _, _, _, _ => false
  end.

Definition shape_ok (o : Order) : Prop := well_formed o = true.

(** Every order [c] appends to the trace satisfies [P]. *)
Definition emits_only (P : Order -> Prop) {A : Type} (c : M A) : Prop :=
  forall s, exists new, orders_of (trace (snd (c s))) = orders_of (trace s) ++ new
                        /\ Forall P new.

Section Rules.
Variable P : Order -> Prop.

Lemma emits_nothing {A} (c : M A) :
  (forall s, orders_of (trace (snd (c s))) = orders_of (trace s)) -> emits_only P c.
Proof. intros H s. exists []. now rewrite H, app_nil_r. Qed.

Lemma emits_ret {A} (a : A) : emits_only P (ret a).
Proof. apply emits_nothing. reflexivity. Qed.

Lemma emits_raise {A} (e : exn) : emits_only P (@raise A e).
Proof. apply emits_nothing. reflexivity. Qed.

Lemma emits_exit {A} (r : reason) : emits_only P (@exit_with A r).
Proof. apply emits_nothing. reflexivity. Qed.

Lemma emits_emit (e : event) : (forall o b, e <> EvNewOrder o b) -> emits_only P (emit e).
Proof.
  intro He. apply emits_nothing. intro s. cbn. rewrite orders_of_app.
  destruct e; cbn; try (now rewrite app_nil_r). exfalso. eapply He. reflexivity.
Qed.

Lemma emits_call {A} (ev : event) get set :
  (forall o b, ev <> EvNewOrder o b) -> emits_only P (@call A ev get set).
Proof.
  intro He. apply emits_nothing. intro s. unfold call.
  destruct (pop (get (world s))) as [[a|] q]; cbn; rewrite orders_of_app;
    destruct ev; cbn; try (now rewrite app_nil_r); exfalso; eapply He; reflexivity.
Qed.

Lemma emits_new_order (o : Order) : P o -> emits_only P (new_order o).
Proof.
  intros Ho s. destruct (new_order_spec o s) as [b [s' [E T]]].
  exists [o]. rewrite E. cbn. rewrite T, orders_of_app. split; [reflexivity|].
  constructor; [exact Ho|constructor].
Qed.

Lemma emits_bind {A B} (c : M A) (k : A -> M B) :
  emits_only P c -> (forall a, emits_only P (k a)) -> emits_only P (bind c k).
Proof.
  intros Hc Hk s. destruct (Hc s) as [n1 [E1 F1]]. unfold bind.
  destruct (c s) as [[a|e|r] s1]; cbn in E1 |- *;
    [destruct (Hk a s1) as [n2 [E2 F2]]; exists (n1 ++ n2);
     rewrite E2, E1, app_assoc; split; [reflexivity|apply Forall_app; auto]| |];
    exists n1; auto.
Qed.

Lemma emits_try {A} (c : M A) (h : exn -> M A) :
  emits_only P c -> (forall e, emits_only P (h e)) -> emits_only P (try_except c h).
Proof.
  intros Hc Hh s. destruct (Hc s) as [n1 [E1 F1]]. unfold try_except.
  destruct (c s) as [[a|e|r] s1]; cbn in E1 |- *;
    [exists n1; auto| |exists n1; auto].
  destruct (Hh e s1) as [n2 [E2 F2]]. exists (n1 ++ n2).
  rewrite E2, E1, app_assoc. split; [reflexivity|apply Forall_app; auto].
Qed.

End Rules.

(** The head constant of an application. *)
Ltac head_of t := match t with ?f _ => head_of f | _ => t end.

(** One rule of the logic, or one case split, or one unfolding. *)
Ltac emits_step :=
  match goal with
  | |- emits_only _ (bind _ _) => apply emits_bind; [|intros ?]
  | |- emits_only _ (try_except _ _) => apply emits_try; [|intros ?]
  | |- emits_only _ (ret _) => apply emits_ret
  | |- emits_only _ (raise _) => apply emits_raise
  | |- emits_only _ (exit_with _) => apply emits_exit
  | |- emits_only _ (emit _) => apply emits_emit; intros ? ? ?; discriminate
  | |- emits_only _ (call _ _ _) => apply emits_call; intros ? ? ?; discriminate
  | |- emits_only _ (new_order _) => apply emits_new_order
  | |- emits_only _ (if ?b then _ else _) => destruct b
  | |- emits_only _ (match ?x with _ => _ end) => destruct x
  | |- emits_only _ ?c => progress (cbv beta iota zeta)
  | |- emits_only _ ?c => let h := head_of c in progress unfold h
  end.

Ltac emits := repeat emits_step.

Section Loops.
Variable P : Order -> Prop.

Lemma emits_place_legs (sym side : string) (q : pyfloat) (prices : list pyfloat) :
  (forall p, P (Ladder.limit_order sym side q p)) ->
  emits_only P (Ladder.place_legs sym side q prices).
Proof.
  intro Hp. induction prices as [|p ps IH]; cbn [Ladder.place_legs].
  - apply emits_ret.
  - apply emits_bind; [|intros _; exact IH]. unfold Ladder.place_leg. emits. apply Hp.
Qed.

Lemma emits_twap_loop (sym side : string) (n interval : Z) (chunk : pyfloat)
    (idx : list Z) :
  P (TwapOrders.market_order sym side (fround chunk 6)) ->
  emits_only P (TwapOrders.twap_loop sym side n interval chunk idx).
Proof.
  intro Ho. induction idx as [|i rest IH]; cbn [TwapOrders.twap_loop].
  - apply emits_ret.
  - apply emits_bind; [unfold TwapOrders.twap_slice; emits; exact Ho|].
    intros []; [exact IH|apply emits_ret].
Qed.

End Loops.

(** The loops are closed by their rules, then [emits] takes over. *)
Ltac emits_script :=
  repeat (first [apply emits_place_legs; intro | apply emits_twap_loop | emits_step]).


(** C14: every order that any of the eight scripts submits is well formed
    for its type (MARKET without time in force or prices, LIMIT GTC with
    a price, STOP GTC with a price and a stop price). This holds for every
    argument list and every sequence of exchange answers. *)
Theorem orders_well_formed (args : list string) :
  emits_only shape_ok (MarketOrders.main args)
  /\ emits_only shape_ok (LimitOrders.main args)
  /\ emits_only shape_ok (StopLimitOrders.main args)
  /\ emits_only shape_ok (OcoOrders.main args)
  /\ emits_only shape_ok (GridOrders.main args)
  /\ emits_only shape_ok (GridSentimentOrders.main args)
  /\ emits_only shape_ok (TwapOrders.main args)
  /\ emits_only shape_ok (TwapSentimentOrders.main args).
Proof. repeat split; emits_script; reflexivity. Qed.
