(* ===== verification/PosixPath.v ===== *)
(** * The [os.path] functions of the scripts' setup blocks

    The setup block of every script computes the log file from its own
    path: [os.path.abspath(os.path.join(os.path.dirname(__file__), "..",
    ".."))], then [os.path.join(PROJECT_ROOT, "bot.log")]. The market and
    limit scripts instead hand the relative name ["../bot.log"] to
    [logging.basicConfig], whose [FileHandler] resolves it with
    [os.path.abspath] against the working directory. This file models the
    POSIX [os.path] functions involved, following CPython's [posixpath]
    ([dirname], [join], [isabs], [normpath], [abspath]), on [string].

    The lemmas compute these functions on absolute paths whose components
    are [plain] (non-empty, no ['/'], neither ["."] nor [".."]), the shape
    of what [os.getcwd()] and an absolute [__file__] give. Such a path is
    [abs_path cs], i.e. ["/" + "/".join(cs)]. *)

From Stdlib Require Import String Ascii List Bool Lia.
Import ListNotations.
Local Open Scope list_scope.
Local Open Scope string_scope.

Module PosixPath.

Definition sep : ascii := "/"%char.

(** [s.split('/')]: always at least one piece. *)
Fixpoint split_sep (s : string) : list string :=
  match s with
  | EmptyString => [""]
  | String a s' =>
      let rest := split_sep s' in
      if Ascii.eqb a sep then "" :: rest
      else match rest with
           | [] => [String a ""]
           | r :: rs => String a r :: rs
           end
  end.

(** ['/'.join(xs)] *)
Definition join_sep (xs : list string) : string := String.concat "/" xs.

(** ['/' in s] *)
Fixpoint has_sep (s : string) : bool :=
  match s with
  | EmptyString => false
  | String a s' => Ascii.eqb a sep || has_sep s'
  end.

(** [s.startswith('/')] and [s.endswith('/')] *)
Definition startswith_sep (s : string) : bool :=
  match s with
  | String a _ => Ascii.eqb a sep
  | EmptyString => false
  end.

Fixpoint endswith_sep (s : string) : bool :=
  match s with
  | EmptyString => false
  | String a EmptyString => Ascii.eqb a sep
  | String _ s' => endswith_sep s'
  end.

(** [s.rfind('/')], [None] for [-1]. *)
Fixpoint rfind_sep (s : string) : option nat :=
  match s with
  | EmptyString => None
  | String a s' =>
      match rfind_sep s' with
      | Some i => Some (S i)
      | None => if Ascii.eqb a sep then Some 0 else None
      end
  end.

(** [s.rstrip('/')] *)
Fixpoint rstrip_sep (s : string) : string :=
  match s with
  | EmptyString => EmptyString
  | String a s' =>
      let r := rstrip_sep s' in
      if (r =? "") && Ascii.eqb a sep then "" else String a r
  end.

(** [s == '/' * len(s)] *)
Fixpoint all_sep (s : string) : bool :=
  match s with
  | EmptyString => true
  | String a s' => Ascii.eqb a sep && all_sep s'
  end.

(** [posixpath.dirname(p)]:
    [i = p.rfind(sep) + 1; head = p[:i];
     if head and head != sep*len(head): head = head.rstrip(sep)] *)
Definition dirname (p : string) : string :=
  let i := match rfind_sep p with Some k => S k | None => 0 end in
  let head := substring 0 i p in
  if negb (head =? "") && negb (all_sep head) then rstrip_sep head else head.

(** One iteration of [posixpath.join(a, *p)]: an absolute [b] replaces
    the path, otherwise [b] is appended with a separator unless the path
    is empty or already ends with one. *)
Definition join2 (path b : string) : string :=
  if startswith_sep b then b
  else if (path =? "") || endswith_sep path then path ++ b
  else path ++ "/" ++ b.

(** [posixpath.join(a, *p)] *)
Definition join (a : string) (p : list string) : string := fold_left join2 p a.

(** [posixpath.isabs(s)] *)
Definition isabs (s : string) : bool := startswith_sep s.

(** One iteration of the component loop of [posixpath.normpath]; the
    list [acc] is [new_comps] reversed, so its head is [new_comps[-1]]. *)
Definition norm_step (initial : bool) (acc : list string) (comp : string) : list string :=
  if (comp =? "") || (comp =? ".") then acc
  else if negb (comp =? "..")
          || (negb initial && match acc with [] => true | _ => false end)
          || match acc with c :: _ => c =? ".." | [] => false end
  then comp :: acc
  else match acc with [] => [] | _ :: acc' => acc' end.

(** POSIX keeps exactly two leading slashes, and folds three or more
    into one. *)
Definition initial_slashes (p : string) : nat :=
  if startswith_sep p then
    if prefix "//" p && negb (prefix "///" p) then 2 else 1
  else 0.

Fixpoint slashes (n : nat) : string :=
  match n with 0 => "" | S n' => String sep (slashes n') end.

(** [posixpath.normpath(path)] *)
Definition normpath (p : string) : string :=
  if p =? "" then "." else
  let n := initial_slashes p in
  let comps := rev (fold_left (norm_step (negb (Nat.eqb n 0))) (split_sep p) []) in
  let path := slashes n ++ join_sep comps in
  if path =? "" then "." else path.

(** [posixpath.abspath(path)], with [cwd] the result of [os.getcwd()]. *)
Definition abspath (cwd p : string) : string :=
  normpath (if isabs p then p else join cwd [p]).

(** A non-empty component without ['/']. *)
Definition part (c : string) : bool := negb (c =? "") && negb (has_sep c).

(** A component of a normalised path. *)
Definition plain (c : string) : bool :=
  negb (c =? "") && negb (c =? ".") && negb (c =? "..") && negb (has_sep c).

(** The absolute path with components [cs]: ["/" + "/".join(cs)]. *)
Definition abs_path (cs : list string) : string := "/" ++ join_sep cs.

End PosixPath.

Import PosixPath.

(** ** String and list facts *)

Lemma sapp_nil_r (s : string) : s ++ "" = s.
Proof. induction s as [|a s IH]; cbn; [reflexivity|now rewrite IH]. Qed.

Lemma sapp_assoc (s t u : string) : s ++ (t ++ u) = (s ++ t) ++ u.
Proof. induction s as [|a s IH]; cbn; [reflexivity|now rewrite IH]. Qed.

Lemma split_sep_nonempty (s : string) : split_sep s <> [].
Proof.
  induction s as [|a s IH]; cbn; [discriminate|].
  destruct (Ascii.eqb a sep); [discriminate|]. destruct (split_sep s); discriminate.
Qed.

(** A prefix without ['/'] is glued onto the first piece. *)
Lemma split_sep_app (c s : string) : has_sep c = false ->
  split_sep (c ++ s) = (c ++ hd "" (split_sep s)) :: tl (split_sep s).
Proof.
  induction c as [|a c IH]; cbn; intro H.
  - pose proof (split_sep_nonempty s). destruct (split_sep s); [congruence|reflexivity].
  - apply orb_false_iff in H as [Ha Hc]. now rewrite Ha, (IH Hc).
Qed.

Lemma split_sep_sep (s : string) : split_sep (String sep s) = "" :: split_sep s.
Proof. reflexivity. Qed.

(** [s.split('/')] undoes ['/'.join(xs)] when no piece holds a ['/']. *)
Lemma split_join (xs : list string) : xs <> [] ->
  forallb (fun c => negb (has_sep c)) xs = true -> split_sep (join_sep xs) = xs.
Proof.
  induction xs as [|x [|y ys] IH]; intros Hne H; [congruence| |].
  - cbn in H. rewrite andb_true_r, negb_true_iff in H. unfold join_sep. cbn.
    rewrite <- (sapp_nil_r x) at 1. rewrite split_sep_app by exact H.
    cbn. now rewrite sapp_nil_r.
  - cbn [forallb] in H. apply andb_true_iff in H as [Hx H].
    apply negb_true_iff in Hx. unfold join_sep. cbn [String.concat].
    rewrite split_sep_app by exact Hx. cbn [append]. rewrite split_sep_sep. cbn.
    rewrite sapp_nil_r. f_equal. apply IH; [discriminate|exact H].
Qed.

Lemma join_sep_cons (y : string) (xs : list string) : xs <> [] ->
  join_sep (y :: xs) = y ++ "/" ++ join_sep xs.
Proof. destruct xs; [congruence|reflexivity]. Qed.

Lemma join_sep_snoc (xs : list string) (x : string) : xs <> [] ->
  join_sep (xs ++ [x]) = join_sep xs ++ "/" ++ x.
Proof.
  induction xs as [|y [|z zs] IH]; intro Hne; [congruence|reflexivity|].
  change ((y :: z :: zs) ++ [x])%list with (y :: ((z :: zs) ++ [x]))%list.
  rewrite !join_sep_cons by (try discriminate; destruct zs; discriminate).
  rewrite IH by discriminate. now rewrite !sapp_assoc.
Qed.

(** ** Plain components *)

Lemma plain_inv (c : string) : plain c = true ->
  c <> "" /\ c <> "." /\ c <> ".." /\ has_sep c = false.
Proof.
  unfold plain. intro H. repeat rewrite andb_true_iff in H.
  destruct H as [[[H1 H2] H3] H4]. apply negb_true_iff in H1, H2, H3, H4.
  apply String.eqb_neq in H1, H2, H3. auto.
Qed.

Lemma plain_nosep (cs : list string) :
  forallb plain cs = true -> forallb (fun c => negb (has_sep c)) cs = true.
Proof.
  induction cs as [|c cs IH]; cbn; [reflexivity|]. rewrite !andb_true_iff.
  intros [Hc H]. split; [|auto]. apply negb_true_iff, (plain_inv c Hc).
Qed.

(** A plain component starts with a character other than ['/']. *)
Lemma plain_head (c : string) : plain c = true ->
  exists a c', c = String a c' /\ Ascii.eqb a sep = false.
Proof.
  intro H. destruct (plain_inv c H) as [Hne [_ [_ Hs]]].
  destruct c as [|a c']; [congruence|]. cbn in Hs.
  apply orb_false_iff in Hs as [Ha _]. eauto.
Qed.

Lemma abs_path_snoc (cs : list string) (x : string) : cs <> [] ->
  abs_path (cs ++ [x]) = abs_path cs ++ "/" ++ x.
Proof. intro H. unfold abs_path. rewrite join_sep_snoc by exact H. reflexivity. Qed.

(** The path ends with its last component. *)
Lemma abs_path_last (cs : list string) (x : string) :
  exists s, abs_path (cs ++ [x]) = s ++ x.
Proof.
  destruct cs as [|c cs]; [now exists "/"|].
  exists (abs_path (c :: cs) ++ "/"). rewrite abs_path_snoc by discriminate.
  now rewrite sapp_assoc.
Qed.

(** ** [endswith] and [join] *)

Lemma endswith_sep_app (s t : string) : t <> "" ->
  endswith_sep (s ++ t) = endswith_sep t.
Proof.
  intro Ht. induction s as [|a s IH]; [reflexivity|]. cbn [append].
  rewrite <- IH. destruct s; cbn; [destruct t; [congruence|reflexivity]|reflexivity].
Qed.

Lemma endswith_sep_nosep (c : string) : has_sep c = false -> endswith_sep c = false.
Proof.
  induction c as [|a c IH]; cbn; [reflexivity|]. intro H.
  apply orb_false_iff in H as [Ha Hc]. destruct c; [exact Ha|exact (IH Hc)].
Qed.

Lemma part_inv (c : string) : part c = true -> c <> "" /\ has_sep c = false.
Proof.
  unfold part. intro H. apply andb_true_iff in H as [H1 H2].
  apply negb_true_iff in H1, H2. now apply String.eqb_neq in H1.
Qed.

Lemma plain_part (cs : list string) : forallb plain cs = true -> forallb part cs = true.
Proof.
  induction cs as [|c cs IH]; cbn; [reflexivity|]. rewrite !andb_true_iff.
  intros [Hc H]. split; [|auto]. destruct (plain_inv c Hc) as [H1 [_ [_ H4]]].
  unfold part. apply String.eqb_neq in H1. now rewrite H1, H4.
Qed.

Lemma endswith_abs_path (cs : list string) : forallb part cs = true ->
  endswith_sep (abs_path cs) = match cs with [] => true | _ => false end.
Proof.
  intro H. destruct cs as [|c cs]; [reflexivity|].
  destruct (exists_last (l := c :: cs) ltac:(discriminate)) as [init [x E]].
  rewrite E in H |- *. destruct (abs_path_last init x) as [s ->].
  rewrite forallb_app in H. apply andb_true_iff in H as [_ H]. cbn in H.
  rewrite andb_true_r in H. destruct (part_inv x H) as [Hne Hs].
  rewrite endswith_sep_app by exact Hne. rewrite endswith_sep_nosep by exact Hs.
  now destruct init.
Qed.

(** [os.path.join(path, x)] on an absolute [path] of non-empty
    components and a relative [x] adds [x] as a last component. *)
Lemma join2_abs_path (cs : list string) (x : string) :
  forallb part cs = true -> startswith_sep x = false ->
  join2 (abs_path cs) x = abs_path (cs ++ [x]).
Proof.
  intros H Hx. unfold join2. rewrite Hx, (endswith_abs_path cs H), orb_comm.
  destruct cs as [|c cs]; [reflexivity|]. cbn [orb].
  change (abs_path (c :: cs) =? "") with false. cbv iota.
  rewrite abs_path_snoc by discriminate. reflexivity.
Qed.

(** ** [dirname] *)

Lemma rfind_sep_nosep (t : string) : has_sep t = false -> rfind_sep t = None.
Proof.
  induction t as [|a t IH]; cbn; [reflexivity|]. intro H.
  apply orb_false_iff in H as [Ha Ht]. now rewrite IH, Ha.
Qed.

(** The last ['/'] of [s + '/' + t] is the one after [s]. *)
Lemma rfind_sep_last (s t : string) : has_sep t = false ->
  rfind_sep (s ++ String sep t) = Some (String.length s).
Proof.
  intro Ht. induction s as [|a s IH]; cbn [append rfind_sep].
  - now rewrite rfind_sep_nosep.
  - now rewrite IH.
Qed.

Lemma substring_upto_sep (s t : string) :
  substring 0 (S (String.length s)) (s ++ String sep t) = s ++ "/".
Proof.
  induction s as [|a s IH]; cbn; [now destruct t|]. f_equal. exact IH.
Qed.

Lemma rstrip_sep_snoc (s : string) : rstrip_sep (s ++ "/") = rstrip_sep s.
Proof. induction s as [|a s IH]; cbn; [reflexivity|]. now rewrite IH. Qed.

Lemma rstrip_sep_app (s t : string) : rstrip_sep t <> "" ->
  rstrip_sep (s ++ t) = s ++ rstrip_sep t.
Proof.
  intro Ht. induction s as [|a s IH]; cbn; [reflexivity|]. rewrite IH.
  destruct (s ++ rstrip_sep t) eqn:E; [|reflexivity].
  destruct s; cbn in E; [congruence|discriminate].
Qed.

Lemma rstrip_sep_nosep (c : string) : has_sep c = false -> rstrip_sep c = c.
Proof.
  induction c as [|a c IH]; cbn; [reflexivity|]. intro H.
  apply orb_false_iff in H as [Ha Hc]. now rewrite IH, Ha, andb_false_r.
Qed.

Lemma join_sep_head (c : string) (cs : list string) :
  exists r, join_sep (c :: cs) = c ++ r.
Proof.
  destruct cs as [|d ds]; [exists ""; now rewrite sapp_nil_r|].
  exists ("/" ++ join_sep (d :: ds)). reflexivity.
Qed.

(** A non-empty normalised absolute path is not all slashes. *)
Lemma all_sep_abs_path (c : string) (cs : list string) (t : string) :
  plain c = true -> all_sep (abs_path (c :: cs) ++ t) = false.
Proof.
  intro Hc. destruct (plain_head c Hc) as [a [c' [-> Ha]]].
  destruct (join_sep_head (String a c') cs) as [r E]. unfold abs_path.
  rewrite E. cbn. now rewrite Ha.
Qed.

(** Stripping trailing slashes leaves a normalised path as it is. *)
Lemma rstrip_sep_abs_path (cs : list string) :
  cs <> [] -> forallb plain cs = true -> rstrip_sep (abs_path cs) = abs_path cs.
Proof.
  intros Hne H. destruct (exists_last Hne) as [init [x ->]].
  rewrite forallb_app in H. apply andb_true_iff in H as [_ H]. cbn in H.
  rewrite andb_true_r in H. destruct (plain_inv x H) as [Hxe [_ [_ Hxs]]].
  destruct (abs_path_last init x) as [s ->].
  rewrite rstrip_sep_app; rewrite rstrip_sep_nosep by exact Hxs; easy.
Qed.

(** [os.path.dirname] drops the last component of a normalised absolute
    path, and gives ["/"] for a file at the root. *)
Lemma dirname_abs_path (cs : list string) (x : string) :
  forallb plain (cs ++ [x]) = true -> dirname (abs_path (cs ++ [x])) = abs_path cs.
Proof.
  intro H. rewrite forallb_app in H. apply andb_true_iff in H as [Hcs Hx].
  cbn in Hx. rewrite andb_true_r in Hx. destruct (plain_inv x Hx) as [_ [_ [_ Hxs]]].
  unfold dirname. destruct cs as [|c cs].
  - change (abs_path ([] ++ [x])) with ("" ++ String sep x).
    rewrite rfind_sep_last by exact Hxs. rewrite substring_upto_sep. reflexivity.
  - rewrite abs_path_snoc by discriminate. change ("/" ++ x) with (String sep x).
    rewrite rfind_sep_last by exact Hxs. rewrite substring_upto_sep.
    rewrite all_sep_abs_path by exact (proj1 (proj1 (andb_true_iff _ _) Hcs)).
    change (abs_path (c :: cs) ++ "/" =? "") with false. cbn [negb andb].
    rewrite rstrip_sep_snoc. apply rstrip_sep_abs_path; [discriminate|exact Hcs].
Qed.

(** ** [normpath] *)

Lemma norm_step_plain (b : bool) (acc : list string) (c : string) :
  plain c = true -> norm_step b acc c = c :: acc.
Proof.
  intro Hc. destruct (plain_inv c Hc) as [H1 [H2 [H3 _]]]. unfold norm_step.
  apply String.eqb_neq in H1, H2, H3. now rewrite H1, H2, H3.
Qed.

(** Plain components are pushed one by one. *)
Lemma fold_norm_plain (b : bool) (cs acc : list string) :
  forallb plain cs = true -> fold_left (norm_step b) cs acc = (rev cs ++ acc)%list.
Proof.
  revert acc. induction cs as [|c cs IH]; intros acc H; [reflexivity|].
  cbn in H. apply andb_true_iff in H as [Hc H]. cbn [fold_left].
  rewrite norm_step_plain, IH by assumption. cbn. now rewrite <- app_assoc.
Qed.

(** [".."] after a plain component cancels it. *)
Lemma norm_step_pop (b : bool) (x : string) (acc : list string) :
  plain x = true -> norm_step b (x :: acc) ".." = acc.
Proof.
  intro Hx. destruct (plain_inv x Hx) as [_ [_ [H3 _]]]. apply String.eqb_neq in H3.
  unfold norm_step. cbn. now rewrite H3, andb_false_r.
Qed.

(** [normpath] of an absolute path whose first component is plain: one
    leading slash, then the components the loop keeps. *)
Lemma normpath_abs_path (xs : list string) :
  plain (hd "" xs) = true -> forallb (fun x => negb (has_sep x)) xs = true ->
  normpath (abs_path xs) = abs_path (rev (fold_left (norm_step true) xs [])).
Proof.
  destruct xs as [|c xs]; [discriminate|]. cbn [hd forallb].
  intros Hc Hxs. apply andb_true_iff in Hxs as [_ Hxs].
  destruct (plain_head c Hc) as [a [c' [Ec Ha]]].
  destruct (join_sep_head c xs) as [r Er].
  assert (Hn : initial_slashes (abs_path (c :: xs)) = 1%nat).
  { unfold initial_slashes, abs_path. rewrite Er, Ec. cbn [append startswith_sep prefix].
    destruct (ascii_dec "/" "/"); [|congruence].
    destruct (ascii_dec "/" a) as [<-|]; [discriminate|reflexivity]. }
  assert (Hs : split_sep (abs_path (c :: xs)) = "" :: c :: xs).
  { unfold abs_path. cbn [append]. rewrite split_sep_sep, split_join; [reflexivity|discriminate|].
    cbn. rewrite Hxs, andb_true_r. apply negb_true_iff, (plain_inv c Hc). }
  unfold normpath. rewrite Hn, Hs. change (abs_path (c :: xs) =? "") with false.
  reflexivity.
Qed.

(** Distinct component lists give distinct paths. *)
Lemma abs_path_inj (xs ys : list string) : xs <> [] -> ys <> [] ->
  forallb plain xs = true -> forallb plain ys = true ->
  abs_path xs = abs_path ys -> xs = ys.
Proof.
  intros Hx Hy Px Py E. apply (f_equal split_sep) in E. unfold abs_path in E.
  cbn [append] in E. rewrite !split_sep_sep, !split_join in E by (assumption || now apply plain_nosep).
  now injection E.
Qed.

(** A relative name with a ['/'] adds two components. *)
Lemma abs_path_split_last (xs : list string) (a b : string) : xs <> [] ->
  abs_path (xs ++ [a ++ "/" ++ b]) = abs_path (xs ++ [a; b]).
Proof.
  intro H. replace (xs ++ [a; b])%list with ((xs ++ [a]) ++ [b])%list
    by now rewrite <- app_assoc.
  rewrite !abs_path_snoc by (destruct xs; [congruence|discriminate]).
  now rewrite !sapp_assoc.
Qed.

Lemma isabs_abs_path (xs : list string) : isabs (abs_path xs) = true.
Proof. reflexivity. Qed.

Lemma hd_plain (xs ys : list string) : xs <> [] -> forallb plain xs = true ->
  plain (hd "" (xs ++ ys)) = true.
Proof.
  destruct xs as [|x xs]; [congruence|]. cbn. intros _ H.
  now apply andb_true_iff in H as [H _].
Qed.

