(* ===== verification/Setup.v ===== *)
(** * The module-level setup block of the eight scripts

    Before [validate_args] runs, each script executes at import:
    - [load_dotenv()]: the assignments of the [.env] file enter
      [os.environ], except for variables that are already set
      ([override=False], python-dotenv's [set_as_environment_variables]);
    - [API_KEY], [API_SECRET] by [os.getenv], [BASE_URL] by
      [os.getenv("BASE_URL", "https://testnet.binancefuture.com")];
    - [client = UMFutures(key=API_KEY, secret=API_SECRET, base_url=BASE_URL)];
    - the logging configuration, in three variants:
      [market_orders.py] and [limit_orders.py] call
      [logging.basicConfig(filename="../bot.log", ...)]; the grid and TWAP
      scripts first compute [PROJECT_ROOT] and [LOG_FILE] from
      [__file__]; [stop_limit_orders.py] and [oco.py] also remove every
      handler of the root logger before [basicConfig] and print the log
      path.

    [os.environ] is a [gmap string string]. The root logger is a record
    of its handler list and level; [basicConfig] adds its [FileHandler]
    only when the root logger has no handler, and the [FileHandler]
    stores [os.path.abspath(filename)], resolved against the working
    directory at that moment ([PosixPath.abspath]). The theorems locate
    the log file of each variant, characterise the credentials the client
    is built with, and show what the handler reset changes. *)

From stdpp Require Import base gmap strings list.
From S2P Require Import PosixPath.
Import PosixPath.
Local Open Scope string_scope.

Module Setup.

(** ** [load_dotenv()] *)

(** The parsed [.env] file: its assignments in file order; a line with a
    key and no [=] parses to [None]. *)
Definition dotenv_file := list (string * option string).

(** [DotEnv.dict()]: a Python dict built from the assignments, so the
    last assignment of a key wins. *)
Definition dotenv_dict (entries : dotenv_file) : gmap string (option string) :=
  foldl (fun d kv => <[kv.1 := kv.2]> d) ∅ entries.

(** One iteration of [set_as_environment_variables]:
    [if k in os.environ and not self.override: continue;
     if v is not None: os.environ[k] = v] *)
Definition set_var (env : gmap string string) (kv : string * option string)
    : gmap string string :=
  let '(k, v) := kv in
  if decide (is_Some (env !! k)) then env
  else match v with Some x => <[k := x]> env | None => env end.

(** [load_dotenv()] with [override=False]. *)
Definition load_dotenv (entries : dotenv_file) (env : gmap string string)
    : gmap string string :=
  foldl set_var env (map_to_list (dotenv_dict entries)).

(** [os.getenv(key)] and [os.getenv(key, default)] *)
Definition getenv (env : gmap string string) (key : string) : option string := env !! key.

Definition getenv_default (env : gmap string string) (key d : string) : string :=
  default d (env !! key).

(** ** The client *)

Record Config := mkConfig {
  API_KEY : option string;
  API_SECRET : option string;
  BASE_URL : string
}.

Definition testnet_url : string := "https://testnet.binancefuture.com".

(** [API_KEY = os.getenv("API_KEY")], [API_SECRET = ...], [BASE_URL = ...] *)
Definition read_config (env : gmap string string) : Config :=
  mkConfig (getenv env "API_KEY") (getenv env "API_SECRET")
           (getenv_default env "BASE_URL" testnet_url).

(** The fields of [UMFutures] the constructor sets; [None] is a key
    passed as Python's [None]. *)
Record UMFutures := mkUMFutures {
  key : option string;
  secret : option string;
  base_url : string
}.

(** [client = UMFutures(key=API_KEY, secret=API_SECRET, base_url=BASE_URL)] *)
Definition make_client (c : Config) : UMFutures :=
  mkUMFutures (API_KEY c) (API_SECRET c) (BASE_URL c).

(** ** The root logger *)

Inductive handler :=
| FileHandler (baseFilename mode fmt : string)
| OtherHandler (id : nat).

#[global] Instance handler_eq_dec : EqDecision handler.
Proof. solve_decision. Defined.

Record RootLogger := mkRoot { handlers : list handler; level : Z }.

Definition INFO : Z := 20.
Definition log_format : string := "%(asctime)s - %(levelname)s - %(message)s".

(** [list.remove(h)]: drops the first occurrence. *)
Fixpoint remove_first (h : handler) (hs : list handler) : list handler :=
  match hs with
  | [] => []
  | x :: hs' => if decide (x = h) then hs' else x :: remove_first h hs'
  end.

(** [Logger.removeHandler(h)]: [if h in self.handlers: self.handlers.remove(h)] *)
Definition removeHandler (h : handler) (r : RootLogger) : RootLogger :=
  if decide (h ∈ handlers r) then mkRoot (remove_first h (handlers r)) (level r) else r.

(** [for handler in logging.root.handlers[:]: logging.root.removeHandler(handler)]:
    the loop runs over a copy taken before the first removal. *)
Definition reset_handlers (r : RootLogger) : RootLogger :=
  foldl (fun r h => removeHandler h r) r (handlers r).

(** [logging.basicConfig(filename=..., level=logging.INFO, format=...)]:
    only when the root logger has no handler, a [FileHandler] on
    [os.path.abspath(filename)] in mode ['a'] is added, then the level is
    set. *)
Definition basicConfig (cwd filename : string) (lvl : Z) (r : RootLogger) : RootLogger :=
  match handlers r with
  | [] => mkRoot [FileHandler (abspath cwd filename) "a" log_format] lvl
  | _ => r
  end.

(** ** The three setup blocks *)

(** What the process holds around the import: the environment, the
    working directory, the root logger and the lines printed. *)
Record Proc := mkProc {
  environ : gmap string string;
  cwd : string;
  root : RootLogger;
  stdout : list string
}.

(** [PROJECT_ROOT = os.path.abspath(os.path.join(os.path.dirname(__file__), "..", ".."))];
    [LOG_FILE = os.path.join(PROJECT_ROOT, "bot.log")] *)
Definition project_root (file cwd : string) : string :=
  abspath cwd (join (dirname file) [".."; ".."]).

Definition log_file (file cwd : string) : string :=
  join (project_root file cwd) ["bot.log"].

(** [market_orders.py] and [limit_orders.py], lines 10-23. *)
Definition setup_relative (dotenv : dotenv_file) (p : Proc) : UMFutures * Proc :=
  let env := load_dotenv dotenv (environ p) in
  let client := make_client (read_config env) in
  (client, mkProc env (cwd p) (basicConfig (cwd p) "../bot.log" INFO (root p)) (stdout p)).

(** The grid and TWAP scripts. *)
Definition setup_project (file : string) (dotenv : dotenv_file) (p : Proc) : UMFutures * Proc :=
  let env := load_dotenv dotenv (environ p) in
  let client := make_client (read_config env) in
  let LOG_FILE := log_file file (cwd p) in
  (client, mkProc env (cwd p) (basicConfig (cwd p) LOG_FILE INFO (root p)) (stdout p)).

(** [stop_limit_orders.py] and [oco.py]: the handler reset, then
    [basicConfig], then [print(f"... Logging to: {LOG_FILE}")] (the
    printed line is recorded as its path). *)
Definition setup_reset (file : string) (dotenv : dotenv_file) (p : Proc) : UMFutures * Proc :=
  let env := load_dotenv dotenv (environ p) in
  let client := make_client (read_config env) in
  let LOG_FILE := log_file file (cwd p) in
  let r := basicConfig (cwd p) LOG_FILE INFO (reset_handlers (root p)) in
  (client, mkProc env (cwd p) r (stdout p ++ [LOG_FILE])).

(** Each script's own copy of its block. *)
Definition market_orders_setup := setup_relative.
Definition limit_orders_setup := setup_relative.
Definition grid_orders_setup := setup_project.
Definition grid_orders_with_sentiment_setup := setup_project.
Definition twap_setup := setup_project.
Definition twap_with_sentiment_setup := setup_project.
Definition stop_limit_orders_setup := setup_reset.
Definition oco_setup := setup_reset.

End Setup.

Import Setup.

(** ** [load_dotenv] *)

(** The loop over distinct keys: a variable already set keeps its value,
    an unset one takes the file's value when it has one. *)
Lemma foldl_set_var_lookup (l : list (string * option string)) (env : gmap string string)
    (k : string) :
  NoDup l.*1 ->
  foldl set_var env l !! k
  = match env !! k with
    | Some v => Some v
    | None => (list_to_map l : gmap string (option string)) !! k ≫= id
    end.
Proof.
  revert env. induction l as [|[k' v'] l IH]; intros env Hnd; cbn [foldl].
  - cbn [list_to_map foldr]. rewrite lookup_empty. now destruct (env !! k).
  - apply NoDup_cons in Hnd as [Hk' Hnd]. rewrite IH by exact Hnd. cbn [list_to_map foldr].
    unfold set_var. destruct (decide (k = k')) as [->|Hne].
    + rewrite lookup_insert_eq. destruct (env !! k') as [v|] eqn:E.
      * rewrite decide_True by (eexists; reflexivity). now rewrite E.
      * rewrite decide_False by (intros [? ?]; discriminate).
        destruct v' as [x|]; [now rewrite lookup_insert_eq|].
        rewrite E, not_elem_of_list_to_map_1 by exact Hk'. reflexivity.
    + rewrite lookup_insert_ne by (cbn; congruence).
      case_decide; [reflexivity|]. destruct v'; [|reflexivity].
      now rewrite lookup_insert_ne by congruence.
Qed.

Lemma load_dotenv_lookup (e : dotenv_file) (env : gmap string string) (k : string) :
  load_dotenv e env !! k = env !! k ∪ (dotenv_dict e !! k ≫= id).
Proof.
  unfold load_dotenv. rewrite (foldl_set_var_lookup _ _ _ (NoDup_fst_map_to_list _)).
  rewrite list_to_map_to_list. destruct (env !! k), (dotenv_dict e !! k ≫= id); reflexivity.
Qed.

(** ** The log file *)

Lemma forallb_plain_snoc (xs : list string) (x : string) :
  forallb plain (xs ++ [x]) = true <-> forallb plain xs = true /\ plain x = true.
Proof. rewrite forallb_app. cbn. now rewrite andb_true_r, andb_true_iff. Qed.

(** [LOG_FILE] of a script at [root/d1/d2/name]: two levels up from its
    directory, whatever the working directory. *)
Lemma log_file_abs_path (root : list string) (d1 d2 name cwd : string) :
  forallb plain (root ++ [d1; d2; name]) = true ->
  log_file (abs_path (root ++ [d1; d2; name])) cwd = abs_path (root ++ ["bot.log"]).
Proof.
  replace (root ++ [d1; d2; name])%list with (((root ++ [d1]) ++ [d2]) ++ [name])%list
    by now rewrite <- !app_assoc.
  intro H. apply forallb_plain_snoc in H as [H H3].
  apply forallb_plain_snoc in H as [H H2]. apply forallb_plain_snoc in H as [Hr H1].
  assert (Hd : forallb plain ((root ++ [d1]) ++ [d2]) = true)
    by (now apply forallb_plain_snoc; split; [apply forallb_plain_snoc|]).
  unfold log_file, project_root.
  rewrite dirname_abs_path by (apply forallb_plain_snoc; now split).
  unfold join. cbn [fold_left].
  rewrite join2_abs_path by (apply plain_part, Hd || reflexivity).
  rewrite join2_abs_path
    by (reflexivity || (rewrite forallb_app, plain_part by exact Hd; reflexivity)).
  unfold abspath. rewrite isabs_abs_path, normpath_abs_path.
  2: { rewrite <- (app_assoc ((root ++ [d1]) ++ [d2])).
       apply (hd_plain ((root ++ [d1]) ++ [d2])); [intro E; now destruct root|exact Hd]. }
  2: { rewrite <- (app_assoc ((root ++ [d1]) ++ [d2])), forallb_app, (plain_nosep _ Hd).
       reflexivity. }
  rewrite (fold_left_app _ (((root ++ [d1]) ++ [d2]) ++ [".."])).
  rewrite (fold_left_app _ ((root ++ [d1]) ++ [d2])), (fold_norm_plain true _ [] Hd).
  rewrite app_nil_r, !rev_app_distr. cbn [rev app fold_left].
  rewrite !norm_step_pop by assumption. rewrite rev_involutive.
  apply join2_abs_path; [apply plain_part, Hr|reflexivity].
Qed.

(** ["../bot.log"] resolved against a working directory [cs/c] is
    [cs/bot.log]. *)
Lemma abspath_parent_log (cs : list string) (c : string) :
  forallb plain (cs ++ [c]) = true ->
  abspath (abs_path (cs ++ [c])) "../bot.log" = abs_path (cs ++ ["bot.log"]).
Proof.
  intro H. unfold abspath. change (isabs "../bot.log") with false. cbv iota.
  unfold join. cbn [fold_left].
  rewrite join2_abs_path by (apply plain_part, H || reflexivity).
  change "../bot.log" with (".." ++ "/" ++ "bot.log").
  rewrite abs_path_split_last by (destruct cs; discriminate).
  rewrite normpath_abs_path.
  2: { apply hd_plain; [destruct cs; discriminate|exact H]. }
  2: { rewrite forallb_app, plain_nosep by exact H. reflexivity. }
  rewrite fold_left_app, (fold_norm_plain true _ [] H).
  apply forallb_plain_snoc in H as [Hcs Hc].
  rewrite app_nil_r, rev_app_distr. cbn [rev app fold_left].
  rewrite norm_step_pop, norm_step_plain by (assumption || reflexivity).
  cbn [rev]. now rewrite rev_involutive.
Qed.

(** ** The handler reset *)

(** The loop over the snapshot removes every handler it saw. *)
Lemma foldl_removeHandler (hs : list handler) (r : RootLogger) :
  handlers r = hs -> foldl (fun r h => removeHandler h r) r hs = mkRoot [] (level r).
Proof.
  revert r. induction hs as [|h hs IH]; intros [hs' lvl] E; cbn in E; subst; [reflexivity|].
  cbn [foldl]. unfold removeHandler at 2. cbn [handlers level].
  rewrite decide_True by apply list_elem_of_here. cbn [remove_first].
  rewrite decide_True by reflexivity. now apply IH.
Qed.

Lemma reset_handlers_empty (r : RootLogger) : reset_handlers r = mkRoot [] (level r).
Proof. now apply foldl_removeHandler. Qed.

(** [load_dotenv] is the left-biased union of the environment with the
    file's last values. *)
Lemma load_dotenv_union (e : dotenv_file) (env : gmap string string) :
  load_dotenv e env = env ∪ omap id (dotenv_dict e).
Proof.
  apply map_eq. intro k. rewrite load_dotenv_lookup, lookup_union, lookup_omap.
  reflexivity.
Qed.

(** A normalised absolute path is its own [abspath]. *)
Lemma abspath_abs_path (cwd : string) (cs : list string) :
  cs <> [] -> forallb plain cs = true -> abspath cwd (abs_path cs) = abs_path cs.
Proof.
  intros Hne H. unfold abspath. rewrite isabs_abs_path, normpath_abs_path.
  - now rewrite fold_norm_plain, app_nil_r, rev_involutive.
  - rewrite <- (app_nil_r cs). now apply hd_plain.
  - now apply plain_nosep.
Qed.

(** C33: the credentials and the client. After [load_dotenv()] the
    environment is the process environment extended, never overridden, by
    the last value the [.env] file gives each variable; every script
    builds its [UMFutures] client from it, with [None] for an unset key or
    secret and the testnet URL for an unset [BASE_URL]. Nothing checks
    that the key and secret are set. *)
Theorem setup_client (file : string) (e : dotenv_file) (p : Proc) :
  let env := environ p ∪ omap id (dotenv_dict e) in
  let c := mkUMFutures (env !! "API_KEY") (env !! "API_SECRET")
                       (default testnet_url (env !! "BASE_URL")) in
  environ (setup_relative e p).2 = env /\ (setup_relative e p).1 = c
  /\ environ (setup_project file e p).2 = env /\ (setup_project file e p).1 = c
  /\ environ (setup_reset file e p).2 = env /\ (setup_reset file e p).1 = c.
Proof.
  cbn zeta. unfold setup_relative, setup_project, setup_reset.
  rewrite load_dotenv_union. repeat split.
Qed.

(** C32: where the log goes. For a script at [proj/d1/d2/name] (the grid
    and TWAP scripts sit at [<repo>/src/advanced/]) the [FileHandler] opens
    [proj/bot.log], whatever the working directory. The market and limit
    scripts open [bot.log] in the parent of the working directory
    [cs/c], which is the same file exactly when [cs] is [proj]: when the
    script is started from a direct subdirectory of the repository. *)
Theorem log_file_location (proj : list string) (d1 d2 name : string)
    (cs : list string) (c : string) (e : dotenv_file) (env : gmap string string)
    (lvl : Z) (out : list string) :
  forallb plain (proj ++ [d1; d2; name]) = true -> forallb plain (cs ++ [c]) = true ->
  let file := abs_path (proj ++ [d1; d2; name]) in
  let p := mkProc env (abs_path (cs ++ [c])) (mkRoot [] lvl) out in
  handlers (root (setup_project file e p).2)
    = [FileHandler (abs_path (proj ++ ["bot.log"])) "a" log_format]
  /\ handlers (root (setup_relative e p).2)
    = [FileHandler (abs_path (cs ++ ["bot.log"])) "a" log_format]
  /\ (abs_path (cs ++ ["bot.log"]) = abs_path (proj ++ ["bot.log"]) <-> cs = proj).
Proof.
  intros Hf Hc file p. pose proof Hf as Hp.
  rewrite forallb_app in Hp. apply andb_true_iff in Hp as [Hp _].
  assert (Hpb : forallb plain (proj ++ ["bot.log"]) = true)
    by now apply forallb_plain_snoc.
  assert (Hcb : forallb plain (cs ++ ["bot.log"]) = true)
    by (apply forallb_plain_snoc; split; [apply forallb_plain_snoc in Hc as []|]; easy).
  split; [|split].
  - unfold setup_project, basicConfig, file, p. cbn [fst snd root handlers cwd].
    rewrite log_file_abs_path, abspath_abs_path by (easy || now destruct proj).
    reflexivity.
  - unfold setup_relative, basicConfig, p. cbn [fst snd root handlers cwd].
    now rewrite abspath_parent_log.
  - split; [|now intros ->]. intro E.
    apply abs_path_inj in E; [|now destruct cs|now destruct proj|exact Hcb|exact Hpb].
    now apply app_inj_tail in E as [].
Qed.

(** C34: the root logger after the setup. [stop_limit_orders.py] and
    [oco.py] remove every handler before [basicConfig], so whatever the
    root logger held they end with exactly one [FileHandler] on
    [LOG_FILE] at level [INFO], and print [LOG_FILE]. The other scripts
    call [basicConfig] alone, which does nothing when a handler is
    already installed. *)
Theorem setup_log_handlers (file : string) (e : dotenv_file) (p : Proc) :
  root (setup_reset file e p).2
    = mkRoot [FileHandler (abspath (cwd p) (log_file file (cwd p))) "a" log_format] INFO
  /\ stdout (setup_reset file e p).2 = (stdout p ++ [log_file file (cwd p)])%list
  /\ (handlers (root p) <> [] ->
      root (setup_project file e p).2 = root p /\ root (setup_relative e p).2 = root p).
Proof.
  split; [|split]; cbn.
  - now rewrite reset_handlers_empty.
  - reflexivity.
  - intro H. unfold basicConfig. now destruct (handlers (root p)).
Qed.

(** ** Witnesses *)

(** With neither the environment nor a [.env] file setting them, the
    client is built with no key and no secret, against the testnet. *)
Lemma setup_client_witness :
  (setup_reset "/home/u/bot/src/advanced/oco.py" []
     (mkProc ∅ "/home/u/bot" (mkRoot [] 30) [])).1
  = mkUMFutures None None testnet_url.
Proof.
  exact (proj2 (proj2 (proj2 (proj2 (proj2
    (setup_client "/home/u/bot/src/advanced/oco.py" []
       (mkProc ∅ "/home/u/bot" (mkRoot [] 30) []))))))).
Defined.

(** Started from the repository root [/home/u/bot], [market_orders.py]
    logs to [/home/u/bot.log], outside the repository. *)
Lemma log_file_location_witness :
  handlers (root (setup_relative [] (mkProc ∅ (abs_path ["home"; "u"; "bot"]) (mkRoot [] 30) [])).2)
  = [FileHandler (abs_path ["home"; "u"; "bot.log"]) "a" log_format].
Proof.
  refine (proj1 (proj2 (log_file_location ["home"; "u"; "bot"] "src" "advanced" "oco.py"
                          ["home"; "u"] "bot" [] ∅ 30 [] _ _))); reflexivity.
Defined.

(** Two handlers installed before the import of [oco.py] are replaced by
    the one [FileHandler] on the repository's [bot.log]. *)
Lemma setup_log_handlers_witness :
  root (setup_reset "/home/u/bot/src/advanced/oco.py" []
          (mkProc ∅ "/tmp" (mkRoot [OtherHandler 1; OtherHandler 2] 30) [])).2
  = mkRoot [FileHandler "/home/u/bot/bot.log" "a" log_format] INFO.
Proof.
  rewrite (proj1 (setup_log_handlers "/home/u/bot/src/advanced/oco.py" []
                    (mkProc ∅ "/tmp" (mkRoot [OtherHandler 1; OtherHandler 2] 30) []))).
  vm_compute. reflexivity.
Defined.
